(** * Consumer API core: lane access, lane lookup, correlation resolution
      and the finish-task rendezvous

    A shallow embedding of the resolver logic of
    [src/process_engine_adapter/process_engine_adapter.ts]
    (class [ConsumerApiProcessEngineAdapter], the datastore based variant)
    and of the two [ConsumerApiService] variants, together with the
    properties their specification states about them. *)

From Stdlib Require Import List String Ascii Bool Arith Lia ZArith.
From Stdlib Require Import DecimalString.
Import ListNotations.
Set Warnings "-register-all".
Local Open Scope string_scope.
Local Open Scope list_scope.

(** ** Errors and outcomes of asynchronous calls *)

(** The error classes of [@essential-projects/errors_ts] the code throws,
    the built-in [TypeError] of the runtime and the plain [Error]. *)
Inductive ErrorKind : Type :=
| BadRequestError
| NotFoundError
| ForbiddenError
| UnprocessableEntityError
| InternalServerError
| TypeError
| PlainError.

Definition ErrorKind_eqb (a b : ErrorKind) : bool :=
  match a, b with
  | BadRequestError, BadRequestError
  | NotFoundError, NotFoundError
  | ForbiddenError, ForbiddenError
  | UnprocessableEntityError, UnprocessableEntityError
  | InternalServerError, InternalServerError
  | TypeError, TypeError
  | PlainError, PlainError => true
  | _, _ => false
  end.

Record JsError : Type := mkError { kind : ErrorKind; message : string }.

(** [isError(error, ErrorClass)] *)
Definition isError (error : JsError) (k : ErrorKind) : bool :=
  ErrorKind_eqb (kind error) k.

(** What awaiting a call gives: a value, a thrown error (a rejected
    promise), or no answer within the recursion budget (the recursive
    queries of the adapter have no cycle guard). *)
Inductive Outcome (A : Type) : Type :=
| Returned (a : A)
| Thrown (e : JsError)
| OutOfFuel.
Arguments Returned {A} a.
Arguments Thrown {A} e.
Arguments OutOfFuel {A}.

Definition bind {A B : Type} (c : Outcome A) (k : A -> Outcome B) : Outcome B :=
  match c with
  | Returned a => k a
  | Thrown e => Thrown e
  | OutOfFuel => OutOfFuel
  end.

Declare Scope outcome_scope.
Delimit Scope outcome_scope with outcome.
Notation "x <- c ;; k" := (bind c (fun x => k))
  (at level 61, c at next level, right associativity) : outcome_scope.
Local Open Scope outcome_scope.

Definition throw {A : Type} (k : ErrorKind) (msg : string) : Outcome A :=
  Thrown (mkError k msg).

(** [await Promise.all(promises)], every promise given with the moment
    at which it settles.  The result is the first rejection in time (of two
    at the same moment, the one of the promise that comes first in the
    array); without a rejection it is the array of the values, in the order
    of the promises, once all of them are there. *)
Fixpoint firstRejection {B : Type} (settled : list (nat * Outcome B))
  : option (nat * JsError) :=
  match settled with
  | [] => None
  | (moment, Thrown e) :: rest =>
      match firstRejection rest with
      | Some (earlier, e') =>
          if Nat.ltb earlier moment then Some (earlier, e') else Some (moment, e)
      | None => Some (moment, e)
      end
  | _ :: rest => firstRejection rest
  end.

Fixpoint fulfilled {B : Type} (settled : list (nat * Outcome B)) : Outcome (list B) :=
  match settled with
  | [] => Returned []
  | (_, promise) :: rest =>
      y <- promise ;;
      ys <- fulfilled rest ;;
      Returned (y :: ys)
  end.

Definition promiseAll {B : Type} (settled : list (nat * Outcome B)) : Outcome (list B) :=
  match firstRejection settled with
  | Some (_, e) => Thrown e
  | None => fulfilled settled
  end.

(** [xs.find(pred)] *)
Definition find_first {A : Type} (pred : A -> bool) (xs : list A) : option A :=
  List.find pred xs.

(** [xs.includes(s)] on strings *)
Definition includes (xs : list string) (s : string) : bool :=
  existsb (String.eqb s) xs.

(** ** BPMN definitions as [bpmn-moddle] hands them out *)

Module Bpmn.

(** A lane ([bpmn:Lane]) and a lane set ([bpmn:LaneSet]).  [flowNodeRef]
    holds the ids of the referenced flow nodes (the code only reads
    [flowNode.id]); [None] stands for [undefined]. *)
Inductive Lane : Type :=
  mkLane {
    lane_id : string;
    lane_name : option string;
    childLaneSet : option LaneSet;
    flowNodeRef : option (list string) }
with LaneSet : Type :=
  mkLaneSet { lanes : list Lane }.

(** A root element of the definitions: its [$type] and its [laneSets]. *)
Record RootElement : Type :=
  mkRootElement { root_type : string; laneSets : option (list LaneSet) }.

Record IDefinition : Type :=
  mkDefinition { rootElements : list RootElement }.

(** Induction over the lane tree. *)
Section LaneInduction.
Variable P : Lane -> Prop.
Variable Q : LaneSet -> Prop.
Hypothesis leaf : forall i n r, P (mkLane i n None r).
Hypothesis node : forall i n c r, Q c -> P (mkLane i n (Some c) r).
Hypothesis set : forall ls, Forall P ls -> Q (mkLaneSet ls).

Fixpoint Lane_tree_ind (l : Lane) : P l :=
  match l with
  | mkLane i n None r => leaf i n r
  | mkLane i n (Some c) r => node i n c r (LaneSet_tree_ind c)
  end
with LaneSet_tree_ind (s : LaneSet) : Q s :=
  match s with
  | mkLaneSet ls =>
      set ls ((fix all (xs : list Lane) : Forall P xs :=
                 match xs with
                 | [] => Forall_nil P
                 | x :: rest => Forall_cons x (Lane_tree_ind x) (all rest)
                 end) ls)
  end.
End LaneInduction.

(** Every lane of a lane set, at any depth (parents before children). *)
Fixpoint lanesOfTree (s : LaneSet) : list Lane :=
  match s with
  | mkLaneSet ls =>
      (fix each (xs : list Lane) : list Lane :=
         match xs with
         | [] => []
         | l :: rest =>
             l :: match childLaneSet l with
                  | None => []
                  | Some c => lanesOfTree c
                  end ++ each rest
         end) ls
  end.

(** [lane.flowNodeRef.some(flowNode => flowNode.id === elementId)],
    with an undefined [flowNodeRef] holding nothing. *)
Definition references (l : Lane) (elementId : string) : bool :=
  match flowNodeRef l with
  | None => false
  | Some refs => existsb (fun r => String.eqb r elementId) refs
  end.

End Bpmn.
Import Bpmn.

(** ** The JavaScript values a request payload can hold *)

Module Js.

(** An object is kept as its own enumerable properties in insertion
    order; numbers are integers here (no arithmetic is done on them). *)
Inductive JsValue : Type :=
| JsUndefined
| JsNull
| JsBoolean (b : bool)
| JsNumber (n : Z)
| JsString (s : string)
| JsArray (items : list JsValue)
| JsObject (props : list (string * JsValue)).

(** [typeof v] *)
Definition typeof (v : JsValue) : string :=
  match v with
  | JsUndefined => "undefined"
  | JsNull => "object"
  | JsBoolean _ => "boolean"
  | JsNumber _ => "number"
  | JsString _ => "string"
  | JsArray _ => "object"
  | JsObject _ => "object"
  end.

(** [Array.isArray(v)] *)
Definition isArray (v : JsValue) : bool :=
  match v with
  | JsArray _ => true
  | _ => false
  end.

(** [v === undefined] *)
Definition isUndefined (v : JsValue) : bool :=
  match v with
  | JsUndefined => true
  | _ => false
  end.

Fixpoint lookup (name : string) (props : list (string * JsValue)) : option JsValue :=
  match props with
  | [] => None
  | (k, v) :: rest => if String.eqb k name then Some v else lookup name rest
  end.

(** [v.name] for a property name that no primitive and no array carries:
    reading a property of [undefined] or [null] throws a [TypeError]. *)
Definition getProperty (v : JsValue) (name : string) : Outcome JsValue :=
  match v with
  | JsUndefined =>
      throw TypeError ("Cannot read property '" ++ name ++ "' of undefined")
  | JsNull =>
      throw TypeError ("Cannot read property '" ++ name ++ "' of null")
  | JsObject props =>
      match lookup name props with
      | Some x => Returned x
      | None => Returned JsUndefined
      end
  | _ => Returned JsUndefined
  end.

Definition indexName (i : nat) : string :=
  NilEmpty.string_of_uint (Nat.to_uint i).

Definition indexNames (n : nat) : list string := map indexName (seq 0 n).

(** [Object.keys(v)]: [undefined] and [null] cannot be converted to an
    object; other primitives are wrapped first. *)
Definition objectKeys (v : JsValue) : Outcome (list string) :=
  match v with
  | JsUndefined | JsNull =>
      throw TypeError "Cannot convert undefined or null to object"
  | JsBoolean _ | JsNumber _ => Returned []
  | JsString s => Returned (indexNames (String.length s))
  | JsArray items => Returned (indexNames (List.length items))
  | JsObject props => Returned (map fst props)
  end.

(** Setting one property: an existing key keeps its place. *)
Fixpoint setProperty (name : string) (v : JsValue) (props : list (string * JsValue))
  : list (string * JsValue) :=
  match props with
  | [] => [(name, v)]
  | (k, old) :: rest =>
      if String.eqb k name then (k, v) :: rest
      else (k, old) :: setProperty name v rest
  end.

Fixpoint indexed {A : Type} (i : nat) (xs : list A) : list (string * A) :=
  match xs with
  | [] => []
  | x :: rest => (indexName i, x) :: indexed (S i) rest
  end.

Fixpoint characters (s : string) : list JsValue :=
  match s with
  | EmptyString => []
  | String c rest => JsString (String c EmptyString) :: characters rest
  end.

(** The own enumerable properties [Object.assign] copies from a source. *)
Definition ownProperties (source : JsValue) : list (string * JsValue) :=
  match source with
  | JsObject props => props
  | JsArray items => indexed 0 items
  | JsString s => indexed 0 (characters s)
  | _ => []
  end.

(** [Object.assign(target, source)] on the properties of the target. *)
Definition objectAssign (target : list (string * JsValue)) (source : JsValue)
  : list (string * JsValue) :=
  fold_left (fun acc kv => setProperty (fst kv) (snd kv) acc)
            (ownProperties source) target.

End Js.
Import Js.

(** ** The event aggregator, as a recording of the calls made on it *)

Inductive EventAggregatorCall : Type :=
| Subscribe (channel : string)
| SubscribeOnce (channel : string)
| Publish (channel : string) (message : JsValue).

(** The calls received so far, oldest first. *)
Definition EventAggregator : Type := list EventAggregatorCall.

Definition subscribe (ea : EventAggregator) (channel : string) : EventAggregator :=
  ea ++ [Subscribe channel].

Definition subscribeOnce (ea : EventAggregator) (channel : string) : EventAggregator :=
  ea ++ [SubscribeOnce channel].

Definition publish (ea : EventAggregator) (channel : string) (message : JsValue)
  : EventAggregator :=
  ea ++ [Publish channel message].

(** The channels on which the given calls registered a subscription. *)
Fixpoint subscribedChannels (calls : list EventAggregatorCall) : list string :=
  match calls with
  | [] => []
  | Subscribe c :: rest => c :: subscribedChannels rest
  | SubscribeOnce c :: rest => c :: subscribedChannels rest
  | Publish _ _ :: rest => subscribedChannels rest
  end.

(** ** The adapter over the datastore
    ([ConsumerApiProcessEngineAdapter], second listing of
    [process_engine_adapter.ts]) *)

Module Adapter.

Record ConsumerContext : Type := mkConsumerContext { identity : string }.
Record ExecutionContext : Type := mkExecutionContext { context_id : string }.
Record IIdentity : Type := mkIdentity { identity_id : string }.

Record IProcessDefEntity : Type :=
  mkProcessDef {
    def_id : string;
    def_key : string;
    xml : string;
    isExecutable : bool }.

Record IProcessEntity : Type :=
  mkProcess {
    proc_id : string;
    proc_key : string;
    callerId : option string;
    correlationId : string;
    isSubProcess : bool;
    processDef : IProcessDefEntity }.

Record INodeInstanceEntity : Type :=
  mkNodeInstance {
    node_id : string;
    node_process : string;
    node_type : string }.

Record INodeDefEntity : Type :=
  mkNodeDef {
    nodeDef_key : string;
    nodeDef_processDefKey : string;
    nodeDef_type : string;
    subProcessKey : string }.

Record NodeDefFormField : Type :=
  mkNodeDefFormField {
    field_id : string;
    field_label : string;
    field_type : string;
    field_defaultValue : JsValue }.

(** [nodeDef.extensions]; the outer [None] of [task_extensions] stands for
    an [undefined] or [null] [extensions], the inner one for an undefined
    [formFields]. *)
Record Extensions : Type :=
  mkExtensions { formFields : option (list NodeDefFormField) }.

Record IUserTaskEntity : Type :=
  mkUserTaskEntity {
    task_id : string;
    task_key : string;
    task_process : IProcessEntity;
    task_state : string;
    task_extensions : option Extensions }.

Record IUserTaskMessageData : Type :=
  mkUserTaskMessageData { userTaskEntity : IUserTaskEntity }.

Record UserTaskFormField : Type :=
  mkUserTaskFormField {
    form_id : string;
    form_label : string;
    form_type : string;
    default_value : JsValue }.

Record UserTaskConfig : Type :=
  mkUserTaskConfig { form_fields : list UserTaskFormField }.

Record UserTask : Type :=
  mkUserTask {
    key : string;
    id : string;
    process_instance_id : string;
    data : UserTaskConfig }.

Record UserTaskList : Type :=
  mkUserTaskList { user_tasks : list UserTask }.

(** What the adapter is wired to: the entity tables of the datastore
    (a query is a filter over a table, in table order), the IAM services and
    the BPMN parser.  [hasClaim] is [ConsumerApiIamService.hasClaim];
    [userTaskDataOf] is [getUserTaskData] of the user task entities of the
    process engine, and [userTaskDataAt] the moment at which it answers. *)
Record World : Type :=
  mkWorld {
    processDefs : list IProcessDefEntity;
    processes : list IProcessEntity;
    nodeInstances : list INodeInstanceEntity;
    nodeDefs : list INodeDefEntity;
    userTasks : list IUserTaskEntity;
    resolveExecutionContext : string -> Outcome ExecutionContext;
    getIdentity : ExecutionContext -> Outcome IIdentity;
    hasClaim : IIdentity -> string -> bool;
    fromXML : string -> Outcome IDefinition;
    userTaskDataOf : ExecutionContext -> IUserTaskEntity -> Outcome IUserTaskMessageData;
    userTaskDataAt : IUserTaskEntity -> nat }.

(** [BpmnType.callActivity] *)
Definition BpmnType_callActivity : string := "bpmn:CallActivity".

(** Modelled from the spec: [MessageAction.proceed] of
    [process_engine_adapter_interfaces], the action of the "proceed"
    message. *)
Definition MessageAction_proceed : string := "proceed".

Section WithWorld.
Variable w : World.

Definition _createExecutionContextFromConsumerContext (consumerContext : ConsumerContext)
  : Outcome ExecutionContext :=
  resolveExecutionContext w (identity consumerContext).

Definition _getProcessModelByKey (executionContext : ExecutionContext)
  (processModelKey : string) : Outcome IProcessDefEntity :=
  match find_first (fun d => String.eqb (def_key d) processModelKey) (processDefs w) with
  | None => throw NotFoundError ("Process model with key " ++ processModelKey ++ " not found.")
  | Some processDef => Returned processDef
  end.

Definition _getDefinitionsFromProcessModel (processModel : IProcessDefEntity)
  : Outcome IDefinition :=
  fromXML w (xml processModel).

(** [lane.name === undefined || lane.name === ''] *)
Definition claimIsInvalid (lane : Lane) : bool :=
  match lane_name lane with
  | None => true
  | Some n => String.eqb n ""
  end.

Definition claimOf (lane : Lane) : string :=
  match lane_name lane with
  | None => ""
  | Some n => n
  end.

Definition laneWarning (lane : Lane) : string :=
  "lane with id " ++ lane_id lane ++ " has no claim/title".

(** The loop of [_getLanesThatCanBeAccessed] over a lane set that is
    there; the result comes with the warnings logged on the way. *)
Fixpoint lanesThatCanBeAccessedIn (identity : IIdentity) (laneSet : LaneSet)
  {struct laneSet} : list Lane * list string :=
  match laneSet with
  | mkLaneSet ls =>
      (fix loop (rest : list Lane) (result : list Lane) (log : list string)
         {struct rest} : list Lane * list string :=
         match rest with
         | [] => (result, log)
         | lane :: rest' =>
             if claimIsInvalid lane then loop rest' result (log ++ [laneWarning lane])
             else if negb (hasClaim w identity (claimOf lane)) then loop rest' result log
             else
               let sub :=
                 match childLaneSet lane with
                 | None => ([], [])
                 | Some child => lanesThatCanBeAccessedIn identity child
                 end in
               loop rest' ((result ++ [lane]) ++ fst sub) (log ++ snd sub)
         end) ls [] []
  end.

Definition _getLanesThatCanBeAccessed (identity : IIdentity) (laneSet : option LaneSet)
  : list Lane * list string :=
  match laneSet with
  | None => ([], [])
  | Some s => lanesThatCanBeAccessedIn identity s
  end.

Definition _getIdsOfLanesThatCanBeAccessed (executionContext : ExecutionContext)
  (processModelKey : string) : Outcome (list string) :=
  processModel <- _getProcessModelByKey executionContext processModelKey ;;
  identity <- getIdentity w executionContext ;;
  processDefinitions <- _getDefinitionsFromProcessModel processModel ;;
  let accessibleLanes :=
    fold_left
      (fun acc rootElement =>
         if negb (String.eqb (root_type rootElement) "bpmn:Process") then acc
         else
           match laneSets rootElement with
           | None => acc
           | Some sets =>
               fold_left
                 (fun acc' laneSet =>
                    acc' ++ fst (_getLanesThatCanBeAccessed identity (Some laneSet)))
                 sets acc
           end)
      (rootElements processDefinitions) [] in
  Returned (map lane_id accessibleLanes).

Fixpoint _getClosestLaneIdToElement (laneSet : LaneSet) (elementId : string)
  {struct laneSet} : option string :=
  match laneSet with
  | mkLaneSet ls =>
      (fix loop (rest : list Lane) {struct rest} : option string :=
         match rest with
         | [] => None
         | lane :: rest' =>
             match childLaneSet lane with
             | Some child => _getClosestLaneIdToElement child elementId
             | None =>
                 match flowNodeRef lane with
                 | None => loop rest'
                 | Some refs =>
                     if existsb (fun flowNode => String.eqb flowNode elementId) refs
                     then Some (lane_id lane)
                     else loop rest'
                 end
             end
         end) ls
  end.

Fixpoint closestInLaneSets (sets : list LaneSet) (elementId : string) : option string :=
  match sets with
  | [] => None
  | laneSet :: rest =>
      match _getClosestLaneIdToElement laneSet elementId with
      | Some closestLaneId => Some closestLaneId
      | None => closestInLaneSets rest elementId
      end
  end.

Fixpoint laneIdInRootElements (roots : list RootElement) (elementId : string)
  : option string :=
  match roots with
  | [] => None
  | rootElement :: rest =>
      if negb (String.eqb (root_type rootElement) "bpmn:Process")
      then laneIdInRootElements rest elementId
      else
        match laneSets rootElement with
        | None => laneIdInRootElements rest elementId
        | Some sets =>
            match closestInLaneSets sets elementId with
            | Some closestLaneId => Some closestLaneId
            | None => laneIdInRootElements rest elementId
            end
        end
  end.

Definition _getLaneIdForElement (processDefinitions : IDefinition) (elementId : string)
  : option string :=
  laneIdInRootElements (rootElements processDefinitions) elementId.

(** Query of the [UserTask] table on [process.processDef.key] and [state]. *)
Definition _getUserTasksForProcessModel (executionContext : ExecutionContext)
  (processModelKey : string) : list IUserTaskEntity :=
  filter (fun t => String.eqb (def_key (processDef (task_process t))) processModelKey
                   && String.eqb (task_state t) "wait")
         (userTasks w).

(** Query of the [UserTask] table on [process.id] and [state]. *)
Definition _getUserTasksForProcessInstance (executionContext : ExecutionContext)
  (processInstanceId : string) : list IUserTaskEntity :=
  filter (fun t => String.eqb (proc_id (task_process t)) processInstanceId
                   && String.eqb (task_state t) "wait")
         (userTasks w).

(** [laneId !== undefined && accessibleLaneIds.includes(laneId)] *)
Definition identityCanAccessUserTask (processDefinitions : IDefinition)
  (accessibleLaneIds : list string) (userTask : IUserTaskEntity) : bool :=
  match _getLaneIdForElement processDefinitions (task_key userTask) with
  | None => false
  | Some laneId => includes accessibleLaneIds laneId
  end.

Definition _getAccessibleUserTasksForProcessModel (executionContext : ExecutionContext)
  (processModelKey : string) : Outcome (list IUserTaskEntity) :=
  let userTasks := _getUserTasksForProcessModel executionContext processModelKey in
  accessibleLaneIds <- _getIdsOfLanesThatCanBeAccessed executionContext processModelKey ;;
  if Nat.eqb (List.length accessibleLaneIds) 0
  then throw ForbiddenError ("Access to Process Model '" ++ processModelKey ++ "' not allowed")
  else
    processModel <- _getProcessModelByKey executionContext processModelKey ;;
    processDefinitions <- _getDefinitionsFromProcessModel processModel ;;
    Returned (filter (identityCanAccessUserTask processDefinitions accessibleLaneIds)
                     userTasks).

(** [userTask.getUserTaskData(executionContext)] *)
Definition getUserTaskData (executionContext : ExecutionContext)
  (userTask : IUserTaskEntity) : Outcome IUserTaskMessageData :=
  userTaskDataOf w executionContext userTask.

Definition userTaskHasNoFormFields (userTaskData : IUserTaskMessageData) : bool :=
  match task_extensions (userTaskEntity userTaskData) with
  | None => true
  | Some ext =>
      match formFields ext with
      | None => true
      | Some fields => Nat.eqb (List.length fields) 0
      end
  end.

Definition nodeDefFormFieldsOf (userTaskData : IUserTaskMessageData)
  : list NodeDefFormField :=
  match task_extensions (userTaskEntity userTaskData) with
  | Some ext => match formFields ext with Some fields => fields | None => [] end
  | None => []
  end.

Definition _getUserTaskConfigFromUserTaskData (userTaskData : IUserTaskMessageData)
  (userTaskKey : string) : Outcome UserTaskConfig :=
  if userTaskHasNoFormFields userTaskData
  then throw UnprocessableEntityError
             ("UserTask with key '" ++ userTaskKey ++ "' has no form fields")
  else
    Returned (mkUserTaskConfig
                (map (fun f => mkUserTaskFormField (field_id f) (field_label f)
                                                  (field_type f) (field_defaultValue f))
                     (nodeDefFormFieldsOf userTaskData))).

(** The asynchronous callback of [userTasks.map]: the promise of one
    public user task, which settles when the user task data is there. *)
Definition resultUserTaskPromise (executionContext : ExecutionContext)
  (userTask : IUserTaskEntity) : nat * Outcome UserTask :=
  (userTaskDataAt w userTask,
   userTaskData <- getUserTaskData executionContext userTask ;;
   config <- _getUserTaskConfigFromUserTaskData userTaskData (task_key userTask) ;;
   Returned (mkUserTask (task_key userTask) (task_id userTask)
                        (proc_id (task_process userTask)) config)).

Definition _userTaskEntitiesToUserTaskList (executionContext : ExecutionContext)
  (userTasks : list IUserTaskEntity) : Outcome UserTaskList :=
  let resultUserTaskPromises := map (resultUserTaskPromise executionContext) userTasks in
  tasks <- promiseAll resultUserTaskPromises ;;
  Returned (mkUserTaskList tasks).

(** The query on [correlationId]; [matchingProcesses.data] is always an
    array here.  [mainProcess.id] on the [undefined] that [find] gives when
    no entry matches is the runtime's [TypeError]. *)
Definition _getMainProcessInstanceIdFromCorrelation (executionContext : ExecutionContext)
  (correlationId' : string) : Outcome string :=
  let matchingProcesses :=
    filter (fun p => String.eqb (correlationId p) correlationId') (processes w) in
  if Nat.eqb (List.length matchingProcesses) 0
  then throw NotFoundError ("correlation with id '" ++ correlationId' ++ "' not found")
  else
    match find_first (fun process => Bool.eqb (isSubProcess process) false)
                     matchingProcesses with
    | None => throw TypeError "Cannot read property 'id' of undefined"
    | Some mainProcess => Returned (proc_id mainProcess)
    end.

Definition _getProcessInstanceById (executionContext : ExecutionContext)
  (processInstanceId : string) : Outcome IProcessEntity :=
  match find_first (fun p => String.eqb (proc_id p) processInstanceId) (processes w) with
  | None => throw NotFoundError
                  ("Process instance with id " ++ processInstanceId ++ " not found.")
  | Some process => Returned process
  end.

Definition _getCallActivitiesForProcessInstance (executionContext : ExecutionContext)
  (processInstanceId : string) : list INodeInstanceEntity :=
  filter (fun n => String.eqb (node_process n) processInstanceId
                   && String.eqb (node_type n) BpmnType_callActivity)
         (nodeInstances w).

(** The [or] query over [callerId = id], one clause per caller id. *)
Definition _getCalledProcessesViaCallerIds (executionContext : ExecutionContext)
  (callerIds : list string) : list IProcessEntity :=
  if Nat.eqb (List.length callerIds) 0 then []
  else
    filter (fun p => match callerId p with
                     | None => false
                     | Some c => includes callerIds c
                     end)
           (processes w).

Fixpoint _getSubProcessInstances (fuel : nat) (executionContext : ExecutionContext)
  (parentProcessInstanceId : string) : Outcome (list IProcessEntity) :=
  match fuel with
  | O => OutOfFuel
  | S fuel' =>
      let nodes :=
        _getCallActivitiesForProcessInstance executionContext parentProcessInstanceId in
      let nodeIds := map node_id nodes in
      let processes := _getCalledProcessesViaCallerIds executionContext nodeIds in
      (fix loop (rest : list IProcessEntity) (result : list IProcessEntity)
         {struct rest} : Outcome (list IProcessEntity) :=
         match rest with
         | [] => Returned result
         | process :: rest' =>
             subProcesses <- _getSubProcessInstances fuel' executionContext
                                                     (proc_id process) ;;
             loop rest' (result ++ subProcesses)
         end) processes processes
  end.

Definition _getProcessInstancesForCorrelation (fuel : nat)
  (executionContext : ExecutionContext) (correlationId' : string)
  : Outcome (list IProcessEntity) :=
  mainProcessInstaceId <-
    _getMainProcessInstanceIdFromCorrelation executionContext correlationId' ;;
  mainProcessInstance <- _getProcessInstanceById executionContext mainProcessInstaceId ;;
  subProcessInstances <-
    _getSubProcessInstances fuel executionContext mainProcessInstaceId ;;
  Returned ([mainProcessInstance] ++ subProcessInstances).

Definition _getNodesByTypeForProcessModel (executionContext : ExecutionContext)
  (processModelKey : string) (nodeType : string) : list INodeDefEntity :=
  filter (fun n => String.eqb (nodeDef_processDefKey n) processModelKey
                   && String.eqb (nodeDef_type n) nodeType)
         (nodeDefs w).

Fixpoint _getSubProcessModelKeys (fuel : nat) (executionContext : ExecutionContext)
  (processModelKey : string) : Outcome (list string) :=
  match fuel with
  | O => OutOfFuel
  | S fuel' =>
      let callActivities :=
        _getNodesByTypeForProcessModel executionContext processModelKey
                                       BpmnType_callActivity in
      (fix loop (rest : list INodeDefEntity) (result : list string)
         {struct rest} : Outcome (list string) :=
         match rest with
         | [] => Returned result
         | callActivity :: rest' =>
             keys <- _getSubProcessModelKeys fuel' executionContext
                                             (subProcessKey callActivity) ;;
             loop rest' (result ++ keys)
         end) callActivities (map subProcessKey callActivities)
  end.

Definition _getProcessModelKeysForCorrelation (fuel : nat)
  (executionContext : ExecutionContext) (correlationId' : string)
  : Outcome (list string) :=
  mainProcessInstaceId <-
    _getMainProcessInstanceIdFromCorrelation executionContext correlationId' ;;
  mainProcessInstance <- _getProcessInstanceById executionContext mainProcessInstaceId ;;
  let result := [def_key (processDef mainProcessInstance)] in
  subProcessModelKeys <-
    _getSubProcessModelKeys fuel executionContext (proc_key mainProcessInstance) ;;
  Returned (result ++ subProcessModelKeys).

Definition _processModelBelongsToCorrelation (fuel : nat)
  (executionContext : ExecutionContext) (correlationId' processModelKey : string)
  : Outcome bool :=
  processModelKeys <-
    _getProcessModelKeysForCorrelation fuel executionContext correlationId' ;;
  Returned (includes processModelKeys processModelKey).

Definition _getAccessibleUserTasksForProcessInstance (executionContext : ExecutionContext)
  (processInstance : IProcessEntity) : Outcome (list IUserTaskEntity) :=
  let userTasks :=
    _getUserTasksForProcessInstance executionContext (proc_id processInstance) in
  accessibleLaneIds <-
    _getIdsOfLanesThatCanBeAccessed executionContext
                                    (def_key (processDef processInstance)) ;;
  if Nat.eqb (List.length accessibleLaneIds) 0
  then throw ForbiddenError ("Access to Process Model '"
                             ++ def_key (processDef processInstance) ++ "' not allowed")
  else
    processDefinitions <- _getDefinitionsFromProcessModel (processDef processInstance) ;;
    Returned (filter (identityCanAccessUserTask processDefinitions accessibleLaneIds)
                     userTasks).

(** The [for] loop of [_getUserTasksForCorrelation] with its
    [try]/[catch] around every instance. *)
Fixpoint userTasksOfInstances (executionContext : ExecutionContext)
  (processInstances : list IProcessEntity) (userTasks : list IUserTaskEntity)
  : Outcome (list IUserTaskEntity) :=
  match processInstances with
  | [] => Returned userTasks
  | processInstance :: rest =>
      match _getAccessibleUserTasksForProcessInstance executionContext processInstance with
      | Returned userTasksForProcessInstance =>
          userTasksOfInstances executionContext rest
                               (userTasks ++ userTasksForProcessInstance)
      | Thrown error =>
          if negb (isError error ForbiddenError) then Thrown error
          else userTasksOfInstances executionContext rest userTasks
      | OutOfFuel => OutOfFuel
      end
  end.

Definition _getUserTasksForCorrelation (fuel : nat) (executionContext : ExecutionContext)
  (correlationId' : string) : Outcome (list IUserTaskEntity) :=
  processInstances <-
    _getProcessInstancesForCorrelation fuel executionContext correlationId' ;;
  userTasksOfInstances executionContext processInstances [].

Definition getUserTasksForProcessModel (context : ConsumerContext)
  (processModelKey : string) : Outcome UserTaskList :=
  executionContext <- _createExecutionContextFromConsumerContext context ;;
  userTasks <- _getAccessibleUserTasksForProcessModel executionContext processModelKey ;;
  _userTaskEntitiesToUserTaskList executionContext userTasks.

(** The loop of [getUserTasksForCorrelation] that concatenates the
    accessible lane ids of every process model of the correlation. *)
Fixpoint accessibleLaneIdsOfModels (executionContext : ExecutionContext)
  (processModelsInCorrelation : list string) (accessibleLaneIds : list string)
  : Outcome (list string) :=
  match processModelsInCorrelation with
  | [] => Returned accessibleLaneIds
  | processModelKey :: rest =>
      accessibleLanesInThisProcess <-
        _getIdsOfLanesThatCanBeAccessed executionContext processModelKey ;;
      accessibleLaneIdsOfModels executionContext rest
                                (accessibleLaneIds ++ accessibleLanesInThisProcess)
  end.

Definition getUserTasksForCorrelation (fuel : nat) (context : ConsumerContext)
  (correlationId' : string) : Outcome UserTaskList :=
  executionContext <- _createExecutionContextFromConsumerContext context ;;
  processModelsInCorrelation <-
    _getProcessModelKeysForCorrelation fuel executionContext correlationId' ;;
  accessibleLaneIds <-
    accessibleLaneIdsOfModels executionContext processModelsInCorrelation [] ;;
  if Nat.eqb (List.length accessibleLaneIds) 0
  then throw ForbiddenError ("Access to correlation '" ++ correlationId' ++ "' not allowed")
  else
    userTasks <- _getUserTasksForCorrelation fuel executionContext correlationId' ;;
    _userTaskEntitiesToUserTaskList executionContext userTasks.

Definition getUserTasksForProcessModelInCorrelation (fuel : nat)
  (context : ConsumerContext) (processModelKey correlationId' : string)
  : Outcome UserTaskList :=
  executionContext <- _createExecutionContextFromConsumerContext context ;;
  belongs <- _processModelBelongsToCorrelation fuel executionContext correlationId'
                                               processModelKey ;;
  if negb belongs
  then throw NotFoundError ("ProcessModel with key '" ++ processModelKey
                            ++ "' is not part of the correlation mit der id '"
                            ++ correlationId' ++ "'")
  else
    accessibleLaneIds <-
      _getIdsOfLanesThatCanBeAccessed executionContext processModelKey ;;
    if Nat.eqb (List.length accessibleLaneIds) 0
    then throw ForbiddenError ("Access to Process Model '" ++ processModelKey
                               ++ "' not allowed")
    else
      userTasks <- _getUserTasksForCorrelation fuel executionContext correlationId' ;;
      let userTasksForProcessModel :=
        filter (fun userTask =>
                  String.eqb (def_key (processDef (task_process userTask))) processModelKey)
               userTasks in
      _userTaskEntitiesToUserTaskList executionContext userTasksForProcessModel.

(** [_getUserTaskResultFromUserTaskConfig] of the adapter; the payload
    field is [form_fields] here. *)
Definition _getUserTaskResultFromUserTaskConfig (finishedTask : JsValue)
  : Outcome JsValue :=
  userTaskIsNotAnObject <-
    (if isUndefined finishedTask then Returned true
     else
       fields <- getProperty finishedTask "form_fields" ;;
       Returned (isUndefined fields
                 || negb (String.eqb (typeof fields) "object")
                 || isArray fields)) ;;
  if (userTaskIsNotAnObject : bool)
  then throw BadRequestError "The UserTasks form_fields is not an object."
  else
    fields <- getProperty finishedTask "form_fields" ;;
    keys <- objectKeys fields ;;
    if Nat.eqb (List.length keys) 0
    then throw BadRequestError "The UserTasks form_fields are empty."
    else Returned fields.

Definition nodeChannel (userTaskId : string) : string :=
  "/processengine/node/" ++ userTaskId.

Definition proceedMessage (executionContext : ExecutionContext) (userTaskResult : JsValue)
  : JsValue :=
  JsObject
    [("data", JsObject [("action", JsString MessageAction_proceed);
                        ("token", userTaskResult)]);
     ("metadata", JsObject [("context", JsString (context_id executionContext))])].

(** Everything [finishUserTask] does before it builds its promise. *)
Definition finishUserTaskChecks (fuel : nat) (context : ConsumerContext)
  (processModelKey correlationId' userTaskId : string) (userTaskResult : JsValue)
  : Outcome (ExecutionContext * UserTask) :=
  executionContext <- _createExecutionContextFromConsumerContext context ;;
  userTasks <- getUserTasksForProcessModelInCorrelation fuel context processModelKey
                                                        correlationId' ;;
  match find_first (fun task => String.eqb (key task) userTaskId) (user_tasks userTasks) with
  | None =>
      throw NotFoundError
            ("UserTask with id '" ++ userTaskId
             ++ "' not found in Process Model with key '" ++ processModelKey
             ++ "' in correlation with id '" ++ correlationId' ++ "'")
  | Some userTask =>
      resultForProcessEngine <- _getUserTaskResultFromUserTaskConfig userTaskResult ;;
      Returned (executionContext, userTask)
  end.

(** [finishUserTask]: [Returned tt] is the pending promise, which the
    subscription resolves. *)
Definition finishUserTask (fuel : nat) (eventAggregator : EventAggregator)
  (context : ConsumerContext) (processModelKey correlationId' userTaskId : string)
  (userTaskResult : JsValue) : Outcome unit * EventAggregator :=
  match finishUserTaskChecks fuel context processModelKey correlationId' userTaskId
                             userTaskResult with
  | Returned (executionContext, userTask) =>
      let subscribed := subscribe eventAggregator (nodeChannel (id userTask)) in
      let published :=
        publish subscribed (nodeChannel (id userTask))
                (proceedMessage executionContext userTaskResult) in
      (Returned tt, published)
  | Thrown error => (Thrown error, eventAggregator)
  | OutOfFuel => (OutOfFuel, eventAggregator)
  end.

End WithWorld.

End Adapter.

(** ** The service over the persistence layer
    ([ConsumerApiService] with [IProcessModelPersistance] and
    [IFlowNodeInstancePersistance]) *)

Module PersistenceService.

Record ConsumerContext : Type := mkConsumerContext { identity : string }.
Record ExecutionContext : Type := mkExecutionContext { context_id : string }.

Record FormField : Type :=
  mkFormField {
    field_id : string;
    field_label : string;
    field_type : string;
    field_defaultValue : JsValue;
    field_preferredControl : JsValue }.

(** The classes of flow nodes the service tells apart. *)
Inductive FlowNodeKind : Type :=
| UserTaskNode (formFields : list FormField)
| StartEventNode
| EndEventNode
| OtherNode.

Record FlowNode : Type := mkFlowNode { node_id : string; node_kind : FlowNodeKind }.

Record Process : Type := mkProcess { process_id : string; flowNodes : list FlowNode }.

Record ProcessToken : Type :=
  mkProcessToken {
    processModelId : string;
    processInstanceId : string;
    correlationId : string;
    caller : option string;
    payload : JsValue }.

Record FlowNodeInstance : Type :=
  mkFlowNodeInstance { flowNodeId : string; token : ProcessToken }.

Record UserTaskFormField : Type :=
  mkUserTaskFormField {
    form_id : string;
    form_label : string;
    form_type : JsValue;
    form_defaultValue : JsValue;
    form_preferredControl : JsValue }.

Record UserTaskConfig : Type :=
  mkUserTaskConfig { config_formFields : list UserTaskFormField }.

Record UserTask : Type :=
  mkUserTask {
    key : string;
    id : string;
    task_processInstanceId : string;
    data : UserTaskConfig;
    task_payload : JsValue }.

Record UserTaskList : Type := mkUserTaskList { userTasks : list UserTask }.

(** The collaborators of the service: the two persistence services, the
    IAM service and the [UserTaskFormFieldType] table of the contracts. *)
Record World : Type :=
  mkWorld {
    getProcessModelById : string -> Outcome Process;
    queryByCorrelation : string -> list FlowNodeInstance;
    querySuspendedByCorrelation : string -> list FlowNodeInstance;
    querySuspendedByProcessModel : string -> list FlowNodeInstance;
    resolveExecutionContext : string -> Outcome ExecutionContext;
    UserTaskFormFieldType : string -> JsValue }.

(** [processModelFacade.getEndEvents()] *)
Definition getEndEvents (processModel : Process) : list FlowNode :=
  filter (fun n => match node_kind n with EndEventNode => true | _ => false end)
         (flowNodes processModel).

(** [processModelFacade.getFlowNodeById(id)] *)
Definition getFlowNodeById (processModel : Process) (flowNodeId' : string)
  : option FlowNode :=
  find_first (fun n => String.eqb (node_id n) flowNodeId') (flowNodes processModel).

Section WithWorld.
Variable w : World.

Definition _createExecutionContextFromConsumerContext (consumerContext : ConsumerContext)
  : Outcome ExecutionContext :=
  resolveExecutionContext w (identity consumerContext).

(** The test of the [filter] in [getProcessResultForCorrelation]. *)
Definition isResultOfCorrelation (endEvents : list FlowNode) (processModelId' : string)
  (flowNodeInstance : FlowNodeInstance) : bool :=
  let isEndEvent :=
    existsb (fun endEvent => String.eqb (node_id endEvent) (flowNodeId flowNodeInstance))
            endEvents in
  isEndEvent
  && match caller (token flowNodeInstance) with None => true | Some _ => false end
  && String.eqb (processModelId (token flowNodeInstance)) processModelId'.

Definition getProcessResultForCorrelation (context : ConsumerContext)
  (correlationId' processModelId' : string) : Outcome JsValue :=
  processModel <- getProcessModelById w processModelId' ;;
  let endEvents := getEndEvents processModel in
  let flowNodeInstances := queryByCorrelation w correlationId' in
  let endEventInstances :=
    filter (isResultOfCorrelation endEvents processModelId') flowNodeInstances in
  let correlationResult :=
    fold_left (fun result endEventInstance =>
                 objectAssign result (payload (token endEventInstance)))
              endEventInstances [] in
  Returned (JsObject correlationResult).

Definition _convertToConsumerApiFormFieldType (type : string) : JsValue :=
  UserTaskFormFieldType w type.

Definition _convertToConsumerApiFormField (formField : FormField) : UserTaskFormField :=
  mkUserTaskFormField (field_id formField) (field_label formField)
                      (_convertToConsumerApiFormFieldType (field_type formField))
                      (field_defaultValue formField) (field_preferredControl formField).

Definition _convertToConsumerApiUserTask (formFields : list FormField)
  (flowNodeInstance : FlowNodeInstance) : UserTask :=
  let consumerApiFormFields := map _convertToConsumerApiFormField formFields in
  let userTaskConfig := mkUserTaskConfig consumerApiFormFields in
  mkUserTask (flowNodeId flowNodeInstance) (flowNodeId flowNodeInstance)
             (processInstanceId (token flowNodeInstance)) userTaskConfig
             (payload (token flowNodeInstance)).

(** [None] is the [undefined] returned for a flow node that is no user
    task. *)
Definition _convertSuspendedFlowNodeToUserTask (flowNodeInstance : FlowNodeInstance)
  : Outcome (option UserTask) :=
  processModel <- getProcessModelById w (processModelId (token flowNodeInstance)) ;;
  match getFlowNodeById processModel (flowNodeId flowNodeInstance) with
  | Some (mkFlowNode _ (UserTaskNode formFields)) =>
      Returned (Some (_convertToConsumerApiUserTask formFields flowNodeInstance))
  | _ => Returned None
  end.

Fixpoint _convertSuspendedFlowNodes (suspendedFlowNodes : list FlowNodeInstance)
  (suspendedUserTasks : list UserTask) : Outcome (list UserTask) :=
  match suspendedFlowNodes with
  | [] => Returned suspendedUserTasks
  | suspendedFlowNode :: rest =>
      userTask <- _convertSuspendedFlowNodeToUserTask suspendedFlowNode ;;
      match userTask with
      | None => _convertSuspendedFlowNodes rest suspendedUserTasks
      | Some task => _convertSuspendedFlowNodes rest (suspendedUserTasks ++ [task])
      end
  end.

Definition _convertSuspendedFlowNodesToUserTaskList
  (suspendedFlowNodes : list FlowNodeInstance) : Outcome UserTaskList :=
  suspendedUserTasks <- _convertSuspendedFlowNodes suspendedFlowNodes [] ;;
  Returned (mkUserTaskList suspendedUserTasks).

Definition getUserTasksForProcessModel (context : ConsumerContext)
  (processModelId' : string) : Outcome UserTaskList :=
  _convertSuspendedFlowNodesToUserTaskList (querySuspendedByProcessModel w processModelId').

Definition getUserTasksForCorrelation (context : ConsumerContext)
  (correlationId' : string) : Outcome UserTaskList :=
  _convertSuspendedFlowNodesToUserTaskList (querySuspendedByCorrelation w correlationId').

(** The loop of [getUserTasksForProcessModelInCorrelation]. *)
Fixpoint userTasksOfProcessModel (processModelId' : string)
  (suspendedFlowNodes : list FlowNodeInstance) (suspendedUserTasks : list UserTask)
  : Outcome (list UserTask) :=
  match suspendedFlowNodes with
  | [] => Returned suspendedUserTasks
  | suspendedFlowNode :: rest =>
      if negb (String.eqb (processModelId (token suspendedFlowNode)) processModelId')
      then userTasksOfProcessModel processModelId' rest suspendedUserTasks
      else
        userTask <- _convertSuspendedFlowNodeToUserTask suspendedFlowNode ;;
        match userTask with
        | None => userTasksOfProcessModel processModelId' rest suspendedUserTasks
        | Some task =>
            userTasksOfProcessModel processModelId' rest (suspendedUserTasks ++ [task])
        end
  end.

Definition getUserTasksForProcessModelInCorrelation (context : ConsumerContext)
  (processModelId' correlationId' : string) : Outcome UserTaskList :=
  let suspendedFlowNodes := querySuspendedByCorrelation w correlationId' in
  suspendedUserTasks <- userTasksOfProcessModel processModelId' suspendedFlowNodes [] ;;
  Returned (mkUserTaskList suspendedUserTasks).

Definition _getUserTaskResultFromUserTaskConfig (finishedTask : JsValue)
  : Outcome JsValue :=
  userTaskIsNotAnObject <-
    (if isUndefined finishedTask then Returned true
     else
       fields <- getProperty finishedTask "formFields" ;;
       Returned (isUndefined fields
                 || negb (String.eqb (typeof fields) "object")
                 || isArray fields)) ;;
  if (userTaskIsNotAnObject : bool)
  then throw BadRequestError "The UserTasks formFields is not an object."
  else
    fields <- getProperty finishedTask "formFields" ;;
    keys <- objectKeys fields ;;
    if Nat.eqb (List.length keys) 0
    then throw BadRequestError "The UserTasks formFields are empty."
    else Returned fields.

Definition finishedChannel (userTaskId : string) : string :=
  "/processengine/node/" ++ userTaskId ++ "/finished".

Definition finishChannel (userTaskId : string) : string :=
  "/processengine/node/" ++ userTaskId ++ "/finish".

Definition finishMessage (resultForProcessEngine : JsValue) : JsValue :=
  JsObject [("data", JsObject [("token", resultForProcessEngine)])].

(** Everything [finishUserTask] does before it builds its promise. *)
Definition finishUserTaskChecks (context : ConsumerContext)
  (processModelId' correlationId' userTaskId : string) (userTaskResult : JsValue)
  : Outcome (UserTask * JsValue) :=
  executionContext <- _createExecutionContextFromConsumerContext context ;;
  taskList <- getUserTasksForProcessModelInCorrelation context processModelId'
                                                       correlationId' ;;
  match find_first (fun task => String.eqb (key task) userTaskId) (userTasks taskList) with
  | None =>
      throw NotFoundError
            ("Process model '" ++ processModelId' ++ "' in correlation '"
             ++ correlationId' ++ "' does not have a user task '" ++ userTaskId ++ "'")
  | Some userTask =>
      resultForProcessEngine <- _getUserTaskResultFromUserTaskConfig userTaskResult ;;
      Returned (userTask, resultForProcessEngine)
  end.

(** [finishUserTask]: [Returned tt] is the pending promise, which the
    one-time subscription resolves. *)
Definition finishUserTask (eventAggregator : EventAggregator) (context : ConsumerContext)
  (processModelId' correlationId' userTaskId : string) (userTaskResult : JsValue)
  : Outcome unit * EventAggregator :=
  match finishUserTaskChecks context processModelId' correlationId' userTaskId
                             userTaskResult with
  | Returned (userTask, resultForProcessEngine) =>
      let subscribed := subscribeOnce eventAggregator (finishedChannel (id userTask)) in
      let published :=
        publish subscribed (finishChannel (id userTask))
                (finishMessage resultForProcessEngine) in
      (Returned tt, published)
  | Thrown error => (Thrown error, eventAggregator)
  | OutOfFuel => (OutOfFuel, eventAggregator)
  end.

End WithWorld.

End PersistenceService.

(** ** The service over the process model facade
    ([ConsumerApiService] with [IProcessModelService] and
    [IFlowNodeInstanceService]); it lists the results of a correlation. *)

Module FacadeService.

Import PersistenceService.

Record IExecutionContextFacade : Type := mkFacade { facade_identity : string }.

Record CorrelationResult : Type :=
  mkCorrelationResult {
    result_correlationId : string;
    endEventId : string;
    tokenPayload : JsValue }.

Record World : Type :=
  mkWorld {
    getProcessModelById : IExecutionContextFacade -> string -> Outcome Process;
    queryByCorrelation : IExecutionContextFacade -> string -> list FlowNodeInstance }.

Section WithWorld.
Variable w : World.

Definition _createExecutionContextFacadeFromConsumerContext
  (consumerContext : ConsumerContext) : Outcome IExecutionContextFacade :=
  Returned (mkFacade (identity consumerContext)).

(** [!flowNodeInstance.token.caller]: an undefined or an empty caller *)
Definition callerIsFalsy (caller' : option string) : bool :=
  match caller' with
  | None => true
  | Some c => String.eqb c ""
  end.

(** The test of the [filter] in [getProcessResultForCorrelation]. *)
Definition isResultOfCorrelation (endEvents : list FlowNode) (processModelId' : string)
  (flowNodeInstance : FlowNodeInstance) : bool :=
  let isEndEvent :=
    existsb (fun endEvent => String.eqb (node_id endEvent) (flowNodeId flowNodeInstance))
            endEvents in
  isEndEvent
  && callerIsFalsy (caller (token flowNodeInstance))
  && String.eqb (processModelId (token flowNodeInstance)) processModelId'.

Definition toCorrelationResult (endEventInstance : FlowNodeInstance) : CorrelationResult :=
  mkCorrelationResult (correlationId (token endEventInstance))
                      (flowNodeId endEventInstance)
                      (payload (token endEventInstance)).

Definition getProcessResultForCorrelation (context : ConsumerContext)
  (correlationId' processModelId' : string) : Outcome (list CorrelationResult) :=
  executionContextFacade <- _createExecutionContextFacadeFromConsumerContext context ;;
  processModel <- getProcessModelById w executionContextFacade processModelId' ;;
  let endEvents := getEndEvents processModel in
  let flowNodeInstances := queryByCorrelation w executionContextFacade correlationId' in
  if Nat.eqb (List.length flowNodeInstances) 0
  then throw NotFoundError ("No process results for correlation with id '"
                            ++ correlationId' ++ "' found.")
  else
    let endEventInstances :=
      filter (isResultOfCorrelation endEvents processModelId') flowNodeInstances in
    Returned (fold_left (fun results endEventInstance =>
                           results ++ [toCorrelationResult endEventInstance])
                        endEventInstances []).

End WithWorld.

End FacadeService.

(** ** The loops of the code, named
    The loops that the code writes inside a function, as functions of
    their own, for use in statements and proofs. *)

Module Views.

Import Adapter.

(** The loop of [_getClosestLaneIdToElement]. *)
Definition closestIn (ls : list Lane) (elementId : string) : option string :=
  _getClosestLaneIdToElement (mkLaneSet ls) elementId.

(** The loop of [_getLanesThatCanBeAccessed], started with the lanes and
    the warnings gathered so far. *)
Section AccessLoop.
Variable w : World.
Variable identity : IIdentity.

Fixpoint accessLoop (rest : list Lane) (result : list Lane) (log : list string)
  {struct rest} : list Lane * list string :=
  match rest with
  | [] => (result, log)
  | lane :: rest' =>
      if claimIsInvalid lane
      then accessLoop rest' result (log ++ [laneWarning lane])
      else if negb (hasClaim w identity (claimOf lane))
      then accessLoop rest' result log
      else
        let sub :=
          match childLaneSet lane with
          | None => ([], [])
          | Some child => lanesThatCanBeAccessedIn w identity child
          end in
        accessLoop rest' ((result ++ [lane]) ++ fst sub) (log ++ snd sub)
  end.

End AccessLoop.

(** The loop of [_getSubProcessInstances] over the called processes. *)
Section SubLoop.
Variable w : World.
Variable fuel' : nat.
Variable executionContext : ExecutionContext.

Fixpoint subLoop (rest : list IProcessEntity) (result : list IProcessEntity)
  {struct rest} : Outcome (list IProcessEntity) :=
  match rest with
  | [] => Returned result
  | process :: rest' =>
      subProcesses <- _getSubProcessInstances w fuel' executionContext (proc_id process) ;;
      subLoop rest' (result ++ subProcesses)
  end.

End SubLoop.

(** The processes called from the call activities of one instance. *)
Definition calledFrom (w : World) (executionContext : ExecutionContext)
  (parentProcessInstanceId : string) : list IProcessEntity :=
  _getCalledProcessesViaCallerIds w executionContext
    (map node_id
         (_getCallActivitiesForProcessInstance w executionContext parentProcessInstanceId)).

(** [p] was spawned by a call activity of the instance [parent]: its
    [callerId] is the id of a call-activity node instance of [parent]. *)
Definition child (w : World) (parent : string) (p : IProcessEntity) : Prop :=
  In p (processes w)
  /\ exists n, In n (nodeInstances w)
               /\ node_process n = parent
               /\ node_type n = BpmnType_callActivity
               /\ callerId p = Some (node_id n).

(** [p] is reached from the instance [root] through call activities. *)
Inductive descendant (w : World) : string -> IProcessEntity -> Prop :=
| descendant_child : forall parent p,
    child w parent p -> descendant w parent p
| descendant_step : forall parent q p,
    child w parent q -> descendant w (proc_id q) p -> descendant w parent p.

(** No instance is reached from itself. *)
Definition acyclic (w : World) : Prop :=
  forall p, ~ descendant w (proc_id p) p.

(** The call graph below the instance [root] has no cycle: no instance
    reached from [root] is reached from itself. *)
Definition acyclicBelow (w : World) (root : string) : Prop :=
  forall p, descendant w root p -> ~ descendant w (proc_id p) p.

(** A ranking that drops along every call: a decidable certificate of
    acyclicity. *)
Definition rankedb (w : World) (rank : string -> nat) : bool :=
  forallb
    (fun p =>
       forallb
         (fun n =>
            implb (String.eqb (node_type n) BpmnType_callActivity
                   && match callerId p with
                      | None => false
                      | Some c => String.eqb c (node_id n)
                      end)
                  (Nat.ltb (rank (proc_id p)) (rank (node_process n))))
         (nodeInstances w))
    (processes w).

(** What one instance adds to the user tasks of its correlation. *)
Definition contribution (w : World) (executionContext : ExecutionContext)
  (processInstance : IProcessEntity) : list IUserTaskEntity :=
  match _getAccessibleUserTasksForProcessInstance w executionContext processInstance with
  | Returned userTasksForProcessInstance => userTasksForProcessInstance
  | _ => []
  end.

(** The instance is answered with its visible tasks, or with a
    [ForbiddenError]. *)
Definition answeredOrForbidden (w : World) (executionContext : ExecutionContext)
  (processInstance : IProcessEntity) : Prop :=
  (exists tasks,
      _getAccessibleUserTasksForProcessInstance w executionContext processInstance
      = Returned tasks)
  \/ (exists error,
         _getAccessibleUserTasksForProcessInstance w executionContext processInstance
         = Thrown error
         /\ kind error = ForbiddenError).

(** The four malformed shapes of the submitted form fields: undefined,
    not of type object, an array, an object without keys. *)
Definition malformedFormFields (fields : JsValue) : Prop :=
  fields = JsUndefined
  \/ typeof fields <> "object"
  \/ isArray fields = true
  \/ fields = JsObject [].

(** The payload of a finish call carries [fields] under [name]; an
    undefined payload carries nothing. *)
Definition carries (userTaskResult : JsValue) (name : string) (fields : JsValue) : Prop :=
  (userTaskResult = JsUndefined /\ fields = JsUndefined)
  \/ getProperty userTaskResult name = Returned fields.

(** The error kinds of the documented taxonomy. *)
Definition documentedErrors : list ErrorKind :=
  [BadRequestError; NotFoundError; ForbiddenError; UnprocessableEntityError;
   InternalServerError].

(** In the calls of one run, every [publish] comes after the
    subscription on the completion channel. *)
Definition subscribedBeforePublish (calls : list EventAggregatorCall)
  (completion : string) : Prop :=
  forall before channel message after,
    calls = before ++ Publish channel message :: after ->
    In completion (subscribedChannels before).

(** The flow node of the instance is an end event of the process model. *)
Definition isEndEventOf (processModel : PersistenceService.Process)
  (flowNodeInstance : PersistenceService.FlowNodeInstance) : Prop :=
  exists endEvent,
    In endEvent (PersistenceService.flowNodes processModel)
    /\ PersistenceService.node_kind endEvent = PersistenceService.EndEventNode
    /\ PersistenceService.node_id endEvent
       = PersistenceService.flowNodeId flowNodeInstance.

(** The token payloads of the instances, merged in order. *)
Definition mergedPayloads (instances : list PersistenceService.FlowNodeInstance)
  : JsValue :=
  JsObject
    (fold_left objectAssign
               (map (fun i => PersistenceService.payload (PersistenceService.token i))
                    instances)
               []).

End Views.

(** ** Sample data *)

Module Samples.

Import Adapter.

(** A lane set whose first lane nests a lane set that does not hold
    [Task_N]; its second lane [Lane_C] references [Task_N]. *)
Definition lane_B : Lane := mkLane "Lane_B" (Some "y") None (Some ["Task_M"]).
Definition lane_A : Lane :=
  mkLane "Lane_A" (Some "x") (Some (mkLaneSet [lane_B])) None.
Definition lane_C : Lane := mkLane "Lane_C" (Some "z") None (Some ["Task_N"]).
Definition siblingLaneSet : LaneSet := mkLaneSet [lane_A; lane_C].
Definition siblingDefinitions : IDefinition :=
  mkDefinition [mkRootElement "bpmn:Collaboration" None;
                mkRootElement "bpmn:Process" (Some [siblingLaneSet])].

(** A lane without a name next to a named one. *)
Definition lane_unnamed : Lane := mkLane "Lane_U" None None (Some ["Task_U"]).
Definition lane_empty : Lane := mkLane "Lane_E" (Some "") None (Some ["Task_E"]).
Definition mixedLaneSet : LaneSet := mkLaneSet [lane_unnamed; lane_A; lane_empty; lane_C].

(** One correlation: a main instance with two call activities, each of
    which spawned an instance; the first of these spawned one more. *)
Definition defMain : IProcessDefEntity := mkProcessDef "def_1" "main_model" "xml_main" true.
Definition defSub : IProcessDefEntity := mkProcessDef "def_2" "sub_model" "xml_sub" true.
Definition defNested : IProcessDefEntity :=
  mkProcessDef "def_3" "nested_model" "xml_nested" true.

Definition pMain : IProcessEntity :=
  mkProcess "pi_main" "main_model" None "corr_1" false defMain.
Definition pSubA : IProcessEntity :=
  mkProcess "pi_sub_a" "sub_model" (Some "ca_1") "corr_1" true defSub.
Definition pSubB : IProcessEntity :=
  mkProcess "pi_sub_b" "sub_model" (Some "ca_2") "corr_1" true defSub.
Definition pNested : IProcessEntity :=
  mkProcess "pi_nested" "nested_model" (Some "ca_3") "corr_1" true defNested.

(** An instance of another correlation that only has a sub-process. *)
Definition pOrphan : IProcessEntity :=
  mkProcess "pi_orphan" "sub_model" (Some "ca_9") "corr_sub" true defSub.

Definition sampleNodeInstances : list INodeInstanceEntity :=
  [mkNodeInstance "ca_1" "pi_main" BpmnType_callActivity;
   mkNodeInstance "ut_1" "pi_main" "bpmn:UserTask";
   mkNodeInstance "ca_2" "pi_main" BpmnType_callActivity;
   mkNodeInstance "ca_3" "pi_sub_a" BpmnType_callActivity].

Definition sampleNodeDefs : list INodeDefEntity :=
  [mkNodeDef "CallActivity_1" "main_model" BpmnType_callActivity "sub_model";
   mkNodeDef "CallActivity_2" "sub_model" BpmnType_callActivity "nested_model"].

Definition sampleFormFields : option Extensions :=
  Some (mkExtensions (Some [mkNodeDefFormField "f1" "Name" "string" JsUndefined])).

Definition taskMain : IUserTaskEntity :=
  mkUserTaskEntity "ut_1" "Task_N" pMain "wait" sampleFormFields.
Definition taskSub : IUserTaskEntity :=
  mkUserTaskEntity "ut_2" "Task_S" pSubA "wait" sampleFormFields.
Definition taskNested : IUserTaskEntity :=
  mkUserTaskEntity "ut_3" "Task_D" pNested "wait" sampleFormFields.

Definition laneOf (laneId claim task : string) : Lane :=
  mkLane laneId (Some claim) None (Some [task]).

Definition definitionsWith (lane : Lane) : IDefinition :=
  mkDefinition [mkRootElement "bpmn:Process" (Some [mkLaneSet [lane]])].

(** The parser: the three models have one lane each, with the claims
    [main_claim], [sub_claim] and [nested_claim]; the XML of any other
    model is rejected. *)
Definition sampleFromXML (xml : string) : Outcome IDefinition :=
  if String.eqb xml "xml_main"
  then Returned (definitionsWith (laneOf "Lane_Main" "main_claim" "Task_N"))
  else if String.eqb xml "xml_sub"
  then Returned (definitionsWith (laneOf "Lane_Sub" "sub_claim" "Task_S"))
  else if String.eqb xml "xml_nested"
  then Returned (definitionsWith (laneOf "Lane_Nested" "nested_claim" "Task_D"))
  else throw PlainError "unparsable definitions".

(** The claims of an identity given as a list. *)
Definition worldOf (processTable : list IProcessEntity) (claims : list string) : World :=
  mkWorld [defMain; defSub; defNested] processTable sampleNodeInstances sampleNodeDefs
          [taskMain; taskSub; taskNested]
          (fun token => Returned (mkExecutionContext token))
          (fun context => Returned (mkIdentity (context_id context)))
          (fun _ claim => includes claims claim)
          sampleFromXML
          (fun _ task => Returned (mkUserTaskMessageData task))
          (fun _ => 0).

Definition sampleProcesses : list IProcessEntity := [pSubA; pMain; pNested; pSubB; pOrphan].

Definition sampleWorld : World :=
  worldOf sampleProcesses ["main_claim"; "sub_claim"; "nested_claim"].

Definition sampleContext : ExecutionContext := mkExecutionContext "alice".
Definition sampleIdentity : IIdentity := mkIdentity "alice".

Definition sampleRank (processInstanceId : string) : nat :=
  if String.eqb processInstanceId "pi_main" then 2
  else if String.eqb processInstanceId "pi_sub_a" then 1
  else 0.

(** The same table for an identity without the claim of the called model,
    and for one without any claim. *)
Definition restrictedWorld : World := worldOf sampleProcesses ["main_claim"; "nested_claim"].
Definition strangerWorld : World := worldOf sampleProcesses [].

(** A called instance whose process model is not in the datastore. *)
Definition defMissing : IProcessDefEntity :=
  mkProcessDef "def_4" "missing_model" "xml_missing" true.
Definition pBroken : IProcessEntity :=
  mkProcess "pi_broken" "missing_model" (Some "ca_2") "corr_1" true defMissing.
Definition brokenWorld : World :=
  worldOf [pMain; pSubA; pBroken; pNested] ["main_claim"; "nested_claim"].

Definition aliceContext : ConsumerContext := mkConsumerContext "alice".

(** An identity that holds the claims of all sample lanes, and the empty
    claim as well. *)
Definition laneWorld : World := worldOf sampleProcesses ["x"; "y"; "z"; ""].

End Samples.

(** Sample data of the services. *)
Module ServiceSamples.

Import PersistenceService.

Definition nameField : FormField :=
  mkFormField "name" "Name" "string" JsUndefined JsUndefined.

Definition mainModel : Process :=
  mkProcess "main_model"
            [mkFlowNode "Start_1" StartEventNode;
             mkFlowNode "Task_N" (UserTaskNode [nameField]);
             mkFlowNode "End_OK" EndEventNode;
             mkFlowNode "End_Err" EndEventNode].

(** Three end-event instances, the second one reached by a called
    process, and a suspended user task. *)
Definition endOk : FlowNodeInstance :=
  mkFlowNodeInstance "End_OK"
    (mkProcessToken "main_model" "pi_main" "corr_1" None (JsObject [("a", JsNumber 1)])).
Definition endCalled : FlowNodeInstance :=
  mkFlowNodeInstance "End_OK"
    (mkProcessToken "main_model" "pi_sub" "corr_1" (Some "pi_main")
                    (JsObject [("b", JsNumber 2)])).
Definition endErr : FlowNodeInstance :=
  mkFlowNodeInstance "End_Err"
    (mkProcessToken "main_model" "pi_main" "corr_1" None (JsObject [("c", JsNumber 3)])).
Definition waitingTask : FlowNodeInstance :=
  mkFlowNodeInstance "Task_N"
    (mkProcessToken "main_model" "pi_main" "corr_1" None (JsObject [])).

Definition modelById (processModelId' : string) : Outcome Process :=
  if String.eqb processModelId' "main_model" then Returned mainModel
  else throw NotFoundError "ProcessModel not found".

Definition instancesOf (correlationId' : string) : list FlowNodeInstance :=
  if String.eqb correlationId' "corr_1" then [endOk; waitingTask; endCalled; endErr]
  else [].

Definition suspendedOf (correlationId' : string) : list FlowNodeInstance :=
  if String.eqb correlationId' "corr_1" then [waitingTask] else [].

Definition serviceWorld : World :=
  mkWorld modelById instancesOf suspendedOf (fun _ => [waitingTask])
          (fun token => Returned (mkExecutionContext token))
          (fun type => JsString type).

Definition facadeWorld : FacadeService.World :=
  FacadeService.mkWorld (fun _ => modelById) (fun _ => instancesOf).

Definition bobContext : ConsumerContext := mkConsumerContext "bob".

Definition waitingUserTask : UserTask :=
  mkUserTask "Task_N" "Task_N" "pi_main"
             (mkUserTaskConfig
                [mkUserTaskFormField "name" "Name" (JsString "string") JsUndefined
                                     JsUndefined])
             (JsObject []).

End ServiceSamples.

(** ** The adapter over the datastore: process models and their events
    ([getProcessModels], [getProcessModelByKey] and the lookup of start and
    end events of the second listing of [process_engine_adapter.ts]) *)

Module ProcessModels.

Import Adapter.

(** [BpmnType.startEvent] and [BpmnType.endEvent] *)
Definition BpmnType_startEvent : string := "bpmn:StartEvent".
Definition BpmnType_endEvent : string := "bpmn:EndEvent".

Record ConsumerApiEvent : Type :=
  mkConsumerApiEvent {
    event_key : string;
    event_id : string;
    event_process_instance_id : JsValue;
    event_data : JsValue }.

Record ConsumerApiProcessModel : Type :=
  mkConsumerApiProcessModel {
    model_key : string;
    startEvents : list ConsumerApiEvent }.

Record ConsumerApiProcessModelList : Type :=
  mkConsumerApiProcessModelList { process_models : list ConsumerApiProcessModel }.

Section WithWorld.
Variable w : World.

(** The attributes [id] and [startContext] of a node definition entity,
    which the record [INodeDefEntity] does not carry. *)
Variable nodeDefId : INodeDefEntity -> string.
Variable startContext : INodeDefEntity -> JsValue.

(** [processDefEntityType.all(executionContext)] *)
Definition _getProcessModels (executionContext : ExecutionContext)
  : list IProcessDefEntity :=
  processDefs w.

Definition _getStartEventsForProcessModel (executionContext : ExecutionContext)
  (processModelKey : string) : list INodeDefEntity :=
  _getNodesByTypeForProcessModel w executionContext processModelKey BpmnType_startEvent.

Definition _getEndEventsForProcessModel (executionContext : ExecutionContext)
  (processModelKey : string) : list INodeDefEntity :=
  _getNodesByTypeForProcessModel w executionContext processModelKey BpmnType_endEvent.

(** [laneId !== undefined && accessibleLaneIds.includes(laneId)] *)
Definition identityCanAccessEvent (processDefinitions : IDefinition)
  (accessibleLaneIds : list string) (event : INodeDefEntity) : bool :=
  match _getLaneIdForElement processDefinitions (nodeDef_key event) with
  | None => false
  | Some laneId => includes accessibleLaneIds laneId
  end.

Definition _filterAccessibleEvents (executionContext : ExecutionContext)
  (processModelKey : string) (events : list INodeDefEntity)
  : Outcome (list INodeDefEntity) :=
  accessibleLaneIds <- _getIdsOfLanesThatCanBeAccessed w executionContext processModelKey ;;
  if Nat.eqb (List.length accessibleLaneIds) 0
  then throw ForbiddenError ("Access to Process Model '" ++ processModelKey ++ "' not allowed")
  else
    processModel <- _getProcessModelByKey w executionContext processModelKey ;;
    processDefinitions <- _getDefinitionsFromProcessModel w processModel ;;
    let accessibleEventEntities :=
      filter (identityCanAccessEvent processDefinitions accessibleLaneIds) events in
    if Nat.eqb (List.length accessibleEventEntities) 0
    then throw ForbiddenError ("Access to Process Model '" ++ processModelKey
                               ++ "' not allowed")
    else Returned accessibleEventEntities.

Definition _getAccessibleStartEvents (executionContext : ExecutionContext)
  (processModelKey : string) : Outcome (list INodeDefEntity) :=
  let startEvents := _getStartEventsForProcessModel executionContext processModelKey in
  _filterAccessibleEvents executionContext processModelKey startEvents.

Definition _getAccessibleEndEvents (executionContext : ExecutionContext)
  (processModelKey : string) : Outcome (list INodeDefEntity) :=
  let endEvents := _getEndEventsForProcessModel executionContext processModelKey in
  _filterAccessibleEvents executionContext processModelKey endEvents.

Definition _getStartEventEntity (executionContext : ExecutionContext)
  (processModelKey startEventKey : string) : Outcome INodeDefEntity :=
  accessibleStartEventEntities <-
    _getAccessibleStartEvents executionContext processModelKey ;;
  match find_first (fun entity => String.eqb (nodeDef_key entity) startEventKey)
                   accessibleStartEventEntities with
  | None => throw NotFoundError ("Start event " ++ startEventKey ++ " not found.")
  | Some matchingStartEvent => Returned matchingStartEvent
  end.

Definition _getEndEventEntity (executionContext : ExecutionContext)
  (processModelKey endEventKey : string) : Outcome INodeDefEntity :=
  accessibleEndEventEntities <- _getAccessibleEndEvents executionContext processModelKey ;;
  match find_first (fun entity => String.eqb (nodeDef_key entity) endEventKey)
                   accessibleEndEventEntities with
  | None => throw NotFoundError ("End event " ++ endEventKey ++ " not found.")
  | Some matchingEndEvent => Returned matchingEndEvent
  end.

Definition startEventMapper (startEventEntity : INodeDefEntity) : ConsumerApiEvent :=
  mkConsumerApiEvent (nodeDef_key startEventEntity) (nodeDefId startEventEntity)
                     JsUndefined (startContext startEventEntity).

Definition getProcessModelByKey (context : ConsumerContext) (processModelKey : string)
  : Outcome ConsumerApiProcessModel :=
  executionContext <- _createExecutionContextFromConsumerContext w context ;;
  processDef <- _getProcessModelByKey w executionContext processModelKey ;;
  accessibleStartEventEntities <-
    _getAccessibleStartEvents executionContext processModelKey ;;
  if Nat.eqb (List.length accessibleStartEventEntities) 0
  then throw ForbiddenError ("Access to Process Model '" ++ processModelKey
                             ++ "' not allowed")
  else
    let accessibleStartEventEntities' :=
      if negb (isExecutable processDef) then [] else accessibleStartEventEntities in
    let mappedStartEvents := map startEventMapper accessibleStartEventEntities' in
    Returned (mkConsumerApiProcessModel (def_key processDef) mappedStartEvents).

(** The [for] loop of [getProcessModels] with its [try]/[catch] around
    every process model. *)
Fixpoint processModelsOf (context : ConsumerContext)
  (processModels : list IProcessDefEntity) (result : list ConsumerApiProcessModel)
  : Outcome (list ConsumerApiProcessModel) :=
  match processModels with
  | [] => Returned result
  | processModel :: rest =>
      match getProcessModelByKey context (def_key processModel) with
      | Returned mappedProcessModel =>
          processModelsOf context rest (result ++ [mappedProcessModel])
      | Thrown error =>
          if negb (isError error ForbiddenError) then Thrown error
          else processModelsOf context rest result
      | OutOfFuel => OutOfFuel
      end
  end.

Definition getProcessModels (context : ConsumerContext)
  : Outcome ConsumerApiProcessModelList :=
  executionContext <- _createExecutionContextFromConsumerContext w context ;;
  let processModels := _getProcessModels executionContext in
  result <- processModelsOf context processModels [] ;;
  Returned (mkConsumerApiProcessModelList result).

End WithWorld.

End ProcessModels.

(** ** Notions used to state further properties of the adapter *)

Module Relations.

Import Adapter.

(** [xs] is [ys] with some elements left out, order kept. *)
Inductive subseq {A : Type} : list A -> list A -> Prop :=
| subseq_nil : subseq [] []
| subseq_skip : forall x xs ys, subseq xs ys -> subseq xs (x :: ys)
| subseq_keep : forall x xs ys, subseq xs ys -> subseq (x :: xs) (x :: ys).

(** The identity is let into lane [x] of the lane set: [x] is a lane of
    the set, or of a lane set nested below lanes of the set, and the lane
    itself and every lane enclosing it carry a usable name for which the
    identity holds the claim. *)
Inductive grants (w : World) (identity : IIdentity) : LaneSet -> Lane -> Prop :=
| grants_lane : forall s l,
    In l (lanes s) ->
    claimIsInvalid l = false ->
    hasClaim w identity (claimOf l) = true ->
    grants w identity s l
| grants_nested : forall s l c x,
    In l (lanes s) ->
    claimIsInvalid l = false ->
    hasClaim w identity (claimOf l) = true ->
    childLaneSet l = Some c ->
    grants w identity c x ->
    grants w identity s x.

(** The lane sets of the root elements of type [bpmn:Process], in
    document order. *)
Definition processLaneSets (processDefinitions : IDefinition) : list LaneSet :=
  flat_map
    (fun rootElement =>
       if String.eqb (root_type rootElement) "bpmn:Process"
       then match laneSets rootElement with
            | None => []
            | Some sets => sets
            end
       else [])
    (rootElements processDefinitions).

(** No lane of the lane set has a lane set of its own. *)
Definition flat (s : LaneSet) : Prop :=
  forall l, In l (lanes s) -> childLaneSet l = None.

Section Listing.
Variable w : World.
Variable nodeDefId : INodeDefEntity -> string.
Variable startContext : INodeDefEntity -> JsValue.
Variable context : ConsumerContext.

(** The process model is answered, or refused with a [ForbiddenError]. *)
Definition listedOrForbidden (processModel : IProcessDefEntity) : Prop :=
  (exists mapped,
      ProcessModels.getProcessModelByKey w nodeDefId startContext context
                                         (def_key processModel)
      = Returned mapped)
  \/ (exists error,
         ProcessModels.getProcessModelByKey w nodeDefId startContext context
                                            (def_key processModel)
         = Thrown error
         /\ kind error = ForbiddenError).

(** What one process model adds to the list of process models. *)
Definition listing (processModel : IProcessDefEntity)
  : list ProcessModels.ConsumerApiProcessModel :=
  match ProcessModels.getProcessModelByKey w nodeDefId startContext context
                                           (def_key processModel) with
  | Returned mapped => [mapped]
  | _ => []
  end.

End Listing.

(** Below the instance [pid] there is an instance that is reached from
    itself. *)
Definition reachesCycle (w : World) (pid : string) : Prop :=
  exists p, Views.descendant w pid p /\ Views.descendant w (proc_id p) p.

(** The loop of [_getSubProcessModelKeys] over the call activities. *)
Section KeysLoop.
Variable w : World.
Variable fuel' : nat.
Variable executionContext : ExecutionContext.

Fixpoint keysLoop (rest : list INodeDefEntity) (result : list string)
  {struct rest} : Outcome (list string) :=
  match rest with
  | [] => Returned result
  | callActivity :: rest' =>
      keys <- _getSubProcessModelKeys w fuel' executionContext
                                      (subProcessKey callActivity) ;;
      keysLoop rest' (result ++ keys)
  end.

End KeysLoop.

(** The process model [parent] has a call activity that names the
    process model [k]. *)
Definition callsModel (w : World) (parent k : string) : Prop :=
  exists n, In n (nodeDefs w)
            /\ nodeDef_processDefKey n = parent
            /\ nodeDef_type n = BpmnType_callActivity
            /\ subProcessKey n = k.

(** [k] is named by a chain of call activities that starts in the
    process model [root]. *)
Inductive calledModel (w : World) : string -> string -> Prop :=
| calledModel_direct : forall root k,
    callsModel w root k -> calledModel w root k
| calledModel_step : forall root via k,
    callsModel w root via -> calledModel w via k -> calledModel w root k.

(** The public user task made of a user task entity with form fields. *)
Definition publicUserTask (userTask : IUserTaskEntity) : UserTask :=
  mkUserTask (task_key userTask) (task_id userTask) (proc_id (task_process userTask))
             (mkUserTaskConfig
                (map (fun f => mkUserTaskFormField (field_id f) (field_label f)
                                                  (field_type f) (field_defaultValue f))
                     (nodeDefFormFieldsOf (mkUserTaskMessageData userTask)))).

(** The entity has at least one form field. *)
Definition hasFormFields (userTask : IUserTaskEntity) : bool :=
  negb (userTaskHasNoFormFields (mkUserTaskMessageData userTask)).

(** The process engine answers [getUserTaskData] of the entity with the
    entity itself. *)
Definition answersWithItself (w : World) (executionContext : ExecutionContext)
  (userTask : IUserTaskEntity) : Prop :=
  getUserTaskData w executionContext userTask
  = Returned (mkUserTaskMessageData userTask).

(** The identity behind the execution context sees none of the events:
    it has no accessible lane in the process model, or none of the events
    is placed in one. *)
Definition seesNone (w : World) (executionContext : ExecutionContext)
  (processModelKey : string) (events : list INodeDefEntity) : Prop :=
  exists accessibleLaneIds,
    _getIdsOfLanesThatCanBeAccessed w executionContext processModelKey
    = Returned accessibleLaneIds
    /\ (accessibleLaneIds = []
        \/ exists processModel processDefinitions,
            _getProcessModelByKey w executionContext processModelKey
            = Returned processModel
            /\ _getDefinitionsFromProcessModel w processModel
               = Returned processDefinitions
            /\ forall event laneId,
                 In event events ->
                 _getLaneIdForElement processDefinitions (nodeDef_key event)
                 = Some laneId ->
                 ~ In laneId accessibleLaneIds).

End Relations.

(** Sample data for the process models of the adapter. *)
Module ModelSamples.

Import Adapter ProcessModels.

Definition startOfMain : INodeDefEntity :=
  mkNodeDef "StartEvent_1" "main_model" BpmnType_startEvent "".
Definition hiddenStartOfMain : INodeDefEntity :=
  mkNodeDef "StartEvent_2" "main_model" BpmnType_startEvent "".
Definition endOfMain : INodeDefEntity :=
  mkNodeDef "EndEvent_1" "main_model" BpmnType_endEvent "".
Definition startOfDraft : INodeDefEntity :=
  mkNodeDef "StartEvent_D" "draft_model" BpmnType_startEvent "".
Definition startOfSecret : INodeDefEntity :=
  mkNodeDef "StartEvent_S" "secret_model" BpmnType_startEvent "".

Definition defDraft : IProcessDefEntity :=
  mkProcessDef "def_5" "draft_model" "xml_draft" false.
Definition defSecret : IProcessDefEntity :=
  mkProcessDef "def_6" "secret_model" "xml_secret" true.
Definition defUnparsable : IProcessDefEntity :=
  mkProcessDef "def_7" "garbled_model" "xml_garbled" true.

Definition laneWith (laneId claim : string) (refs : list string) : Lane :=
  mkLane laneId (Some claim) None (Some refs).

Definition definitionsOf (ls : list Lane) : IDefinition :=
  mkDefinition [mkRootElement "bpmn:Process" (Some [mkLaneSet ls])].

(** [main_model] has a lane for clerks with the first start event, the
    end event and a task, and a lane for managers with the second start
    event; [draft_model] and [secret_model] have one lane each. *)
Definition modelFromXML (xml : string) : Outcome IDefinition :=
  if String.eqb xml "xml_main"
  then Returned (definitionsOf
                   [laneWith "Lane_Clerk" "clerk" ["StartEvent_1"; "Task_N"; "EndEvent_1"];
                    laneWith "Lane_Manager" "manager" ["StartEvent_2"]])
  else if String.eqb xml "xml_draft"
  then Returned (definitionsOf [laneWith "Lane_Draft" "clerk" ["StartEvent_D"]])
  else if String.eqb xml "xml_secret"
  then Returned (definitionsOf [laneWith "Lane_Secret" "admin" ["StartEvent_S"]])
  else throw PlainError "unparsable definitions".

(** The datastore answers for the user task [Task_Y] before it answers
    for any other. *)
Definition answerMoment (userTask : IUserTaskEntity) : nat :=
  if String.eqb (task_key userTask) "Task_Y" then 1 else 2.

Definition modelWorldOf (defs : list IProcessDefEntity) (tasks : list IUserTaskEntity)
  : World :=
  mkWorld defs [Samples.pMain]
          []
          [startOfMain; hiddenStartOfMain; endOfMain; startOfDraft; startOfSecret]
          tasks
          (fun token => Returned (mkExecutionContext token))
          (fun context => Returned (mkIdentity (context_id context)))
          (fun _ claim => String.eqb claim "clerk")
          modelFromXML
          (fun _ task => Returned (mkUserTaskMessageData task))
          answerMoment.

(** The identity is a clerk. *)
Definition modelWorld : World :=
  modelWorldOf [Samples.defMain; defDraft; defSecret] [Samples.taskMain].

Definition garbledWorld : World :=
  modelWorldOf [Samples.defMain; defUnparsable; defSecret] [].

Definition clerk : ConsumerContext := mkConsumerContext "carol".
Definition clerkContext : ExecutionContext := mkExecutionContext "carol".

Definition idOfNodeDef (n : INodeDefEntity) : string := "id_of_" ++ nodeDef_key n.
Definition contextOfNodeDef (n : INodeDefEntity) : JsValue := JsNull.

(** A user task without form fields. *)
Definition taskWithoutForm : IUserTaskEntity :=
  mkUserTaskEntity "ut_9" "Task_X" Samples.pMain "wait" (Some (mkExtensions (Some []))).
Definition taskWithoutExtensions : IUserTaskEntity :=
  mkUserTaskEntity "ut_8" "Task_Y" Samples.pMain "wait" None.

(** Two instances that call each other. *)
Definition pLoopA : IProcessEntity :=
  mkProcess "pi_a" "main_model" (Some "ca_b") "corr_loop" false Samples.defMain.
Definition pLoopB : IProcessEntity :=
  mkProcess "pi_b" "sub_model" (Some "ca_a") "corr_loop" true Samples.defSub.
Definition loopWorld : World :=
  mkWorld [Samples.defMain; Samples.defSub] [pLoopA; pLoopB]
          [mkNodeInstance "ca_a" "pi_a" BpmnType_callActivity;
           mkNodeInstance "ca_b" "pi_b" BpmnType_callActivity]
          [] []
          (fun token => Returned (mkExecutionContext token))
          (fun context => Returned (mkIdentity (context_id context)))
          (fun _ _ => true)
          modelFromXML
          (fun _ task => Returned (mkUserTaskMessageData task))
          (fun _ => 0).

End ModelSamples.

(** ** The service over the persistence layer: process models and the
    start of a process instance *)

Module ServiceModels.

Import PersistenceService.

Record Event : Type := mkEvent { event_key : string; event_id : string }.

Record ProcessModel : Type :=
  mkProcessModel {
    model_key : string;
    startEvents : list Event;
    endEvents : list Event }.

Record ProcessModelList : Type := mkProcessModelList { processModels : list ProcessModel }.

Record ProcessStartRequestPayload : Type :=
  mkStartRequest { request_correlationId : option string; inputValues : JsValue }.

Record ProcessStartResponsePayload : Type :=
  mkStartResponse { response_correlationId : string }.

(** The calls made on the [IExecuteProcessService]; none of them is
    awaited. *)
Inductive ExecuteProcessCall : Type :=
| Start (executionContext : ExecutionContext) (processModel : Process)
        (correlationId' : string) (inputValues' : JsValue)
| StartAndAwaitSpecificEndEvent (executionContext : ExecutionContext)
        (processModel : Process) (correlationId' : string) (endEventKey : string)
        (inputValues' : JsValue)
| StartAndAwaitEndEvent (executionContext : ExecutionContext) (processModel : Process)
        (correlationId' : string) (inputValues' : JsValue).

(** The receiver a method body runs with: the service, or [undefined]
    for a method that is handed over as a bare callback, as in
    [processModels.map(this._convertToConsumerApiProcessModel)]. *)
Inductive Receiver : Type :=
| TheService
| UndefinedReceiver.

(** [processModelFacade.getStartEvents()] *)
Definition getStartEvents (processModel : Process) : list FlowNode :=
  filter (fun n => match node_kind n with StartEventNode => true | _ => false end)
         (flowNodes processModel).

(** [!s] for an optional string: undefined and the empty string *)
Definition isFalsy (s : option string) : bool :=
  match s with
  | None => true
  | Some s' => String.eqb s' ""
  end.

Section WithWorld.
Variable w : World.
(** What [processModelPersistance.getProcessModels()] resolves to. *)
Variable storedProcessModels : list Process.
(** The numeric members of the enum [StartCallbackType] of the contracts,
    two of which the code names. *)
Variable StartCallbackType : list Z.
Variable CallbackOnProcessInstanceCreated : Z.
Variable CallbackOnEndEventReached : Z.
(** The identifier [uuid.v4()] hands out. *)
Variable uuid_v4 : string.
(** The text that a template literal gives a number. *)
Variable numberToString : Z -> string.

Definition _convertToConsumerApiEvent (event : FlowNode) : Event :=
  mkEvent (node_id event) (node_id event).

(** The first statement reads [this.processModelFacadeFactory]. *)
Definition _convertToConsumerApiProcessModel (this : Receiver) (processModel : Process)
  : Outcome ProcessModel :=
  match this with
  | UndefinedReceiver =>
      throw TypeError "Cannot read property 'processModelFacadeFactory' of undefined"
  | TheService =>
      let startEvents' := getStartEvents processModel in
      let consumerApiStartEvents := map _convertToConsumerApiEvent startEvents' in
      let endEvents' := getEndEvents processModel in
      let consumerApiEndEvents := map _convertToConsumerApiEvent endEvents' in
      Returned (mkProcessModel (process_id processModel) consumerApiStartEvents
                               consumerApiEndEvents)
  end.

(** [Array.prototype.map] with a callback that may throw *)
Fixpoint arrayMap {A B : Type} (callback : A -> Outcome B) (xs : list A)
  : Outcome (list B) :=
  match xs with
  | [] => Returned []
  | x :: rest =>
      y <- callback x ;;
      ys <- arrayMap callback rest ;;
      Returned (y :: ys)
  end.

Definition getProcessModels (context : ConsumerContext) : Outcome ProcessModelList :=
  let processModels' := storedProcessModels in
  consumerApiProcessModels <-
    arrayMap (_convertToConsumerApiProcessModel UndefinedReceiver) processModels' ;;
  Returned (mkProcessModelList consumerApiProcessModels).

Definition getProcessModelByKey (context : ConsumerContext) (processModelKey : string)
  : Outcome ProcessModel :=
  processModel <- getProcessModelById w processModelKey ;;
  _convertToConsumerApiProcessModel TheService processModel.

(** [startProcessInstance] on the calls recorded so far; an omitted
    [startCallbackType] takes its default. *)
Definition startProcessInstance (executeProcessService : list ExecuteProcessCall)
  (context : ConsumerContext) (processModelId' startEventId : string)
  (payload' : ProcessStartRequestPayload) (startCallbackType : option Z)
  (endEventKey : option string)
  : Outcome ProcessStartResponsePayload * list ExecuteProcessCall :=
  let startCallbackType' :=
    match startCallbackType with
    | Some given => given
    | None => CallbackOnProcessInstanceCreated
    end in
  if negb (existsb (Z.eqb startCallbackType') StartCallbackType)
  then (throw BadRequestError
              (numberToString startCallbackType' ++ " is not a valid return option!"),
        executeProcessService)
  else if Z.eqb startCallbackType' CallbackOnEndEventReached && isFalsy endEventKey
  then (throw BadRequestError
              "Must provide an EndEventKey, when using callback type 'CallbackOnEndEventReached'!",
        executeProcessService)
  else
    match _createExecutionContextFromConsumerContext w context with
    | Returned executionContext =>
        let correlationId' :=
          if isFalsy (request_correlationId payload') then uuid_v4
          else match request_correlationId payload' with
               | Some given => given
               | None => uuid_v4
               end in
        match getProcessModelById w processModelId' with
        | Returned processModel =>
            let call :=
              if Z.eqb startCallbackType' CallbackOnProcessInstanceCreated
              then Start executionContext processModel correlationId'
                         (inputValues payload')
              else
                match endEventKey with
                | Some endEventKey' =>
                    if Z.eqb startCallbackType' CallbackOnEndEventReached
                       && negb (isFalsy endEventKey)
                    then StartAndAwaitSpecificEndEvent
                           executionContext processModel correlationId' endEventKey'
                           (inputValues payload')
                    else StartAndAwaitEndEvent executionContext processModel
                                               correlationId' (inputValues payload')
                | None =>
                    StartAndAwaitEndEvent executionContext processModel correlationId'
                                          (inputValues payload')
                end in
            (Returned (mkStartResponse correlationId'), executeProcessService ++ [call])
        | Thrown error => (Thrown error, executeProcessService)
        | OutOfFuel => (OutOfFuel, executeProcessService)
        end
    | Thrown error => (Thrown error, executeProcessService)
    | OutOfFuel => (OutOfFuel, executeProcessService)
    end.

End WithWorld.

(** The correlation a call on the execute process service starts in. *)
Definition correlationOf (call : ExecuteProcessCall) : string :=
  match call with
  | Start _ _ correlationId' _
  | StartAndAwaitSpecificEndEvent _ _ correlationId' _ _
  | StartAndAwaitEndEvent _ _ correlationId' _ => correlationId'
  end.

End ServiceModels.

(** ** The service over the facade: process models and the start of a
    process instance ([ConsumerApiService] of the third listing, after
    [initialize]) with the converter of [createProcessModelConverter] *)

Module FacadeModels.

Import PersistenceService.

(** [Model.Types.Process] with its executable flag *)
Record ProcessModel : Type :=
  mkModel {
    model_id : string;
    isExecutable : bool;
    model_flowNodes : list FlowNode }.

Record Event : Type := mkEvent { event_id : string }.

Record ConsumerProcessModel : Type :=
  mkConsumerProcessModel {
    consumer_id : string;
    startEvents : list Event;
    endEvents : list Event }.

Record ProcessModelList : Type :=
  mkProcessModelList { processModels : list ConsumerProcessModel }.

(** The process model facade *)
Definition getIsExecutable (processModel : ProcessModel) : bool :=
  isExecutable processModel.

Definition getStartEvents (processModel : ProcessModel) : list FlowNode :=
  filter (fun n => match node_kind n with StartEventNode => true | _ => false end)
         (model_flowNodes processModel).

Definition getEndEvents (processModel : ProcessModel) : list FlowNode :=
  filter (fun n => match node_kind n with EndEventNode => true | _ => false end)
         (model_flowNodes processModel).

Definition consumerApiEventConverter (event : FlowNode) : Event :=
  mkEvent (node_id event).

(** The function [createProcessModelConverter] returns. *)
Definition convertProcessModel (processModel : ProcessModel) : ConsumerProcessModel :=
  let processModelIsExecutable := getIsExecutable processModel in
  let consumerApiStartEvents :=
    if processModelIsExecutable
    then map consumerApiEventConverter (getStartEvents processModel)
    else [] in
  let consumerApiEndEvents :=
    if processModelIsExecutable
    then map consumerApiEventConverter (getEndEvents processModel)
    else [] in
  mkConsumerProcessModel (model_id processModel) consumerApiStartEvents
                         consumerApiEndEvents.

Section WithWorld.
(** [processModelService.getProcessModels] and [getProcessModelById] *)
Variable processModelsOf : FacadeService.IExecutionContextFacade
                           -> Outcome (list ProcessModel).
Variable processModelByIdOf : FacadeService.IExecutionContextFacade -> string
                              -> Outcome ProcessModel.
(** The numeric members of the enum [StartCallbackType] of the contracts. *)
Variable StartCallbackType : list Z.
Variable CallbackOnProcessInstanceCreated : Z.
Variable CallbackOnEndEventReached : Z.
(** The text that a template literal gives a number. *)
Variable numberToString : Z -> string.
(** [processModelExecutionAdapter.startProcessInstance] *)
Variable adapterStartProcessInstance :
  FacadeService.IExecutionContextFacade -> string -> string
  -> ServiceModels.ProcessStartRequestPayload -> Z -> option string
  -> Outcome ServiceModels.ProcessStartResponsePayload.

Definition getProcessModels (context : ConsumerContext) : Outcome ProcessModelList :=
  executionContextFacade <-
    FacadeService._createExecutionContextFacadeFromConsumerContext context ;;
  processModels' <- processModelsOf executionContextFacade ;;
  let consumerApiProcessModels := map convertProcessModel processModels' in
  Returned (mkProcessModelList consumerApiProcessModels).

Definition getProcessModelById (context : ConsumerContext) (processModelKey : string)
  : Outcome ConsumerProcessModel :=
  executionContextFacade <-
    FacadeService._createExecutionContextFacadeFromConsumerContext context ;;
  processModel <- processModelByIdOf executionContextFacade processModelKey ;;
  Returned (convertProcessModel processModel).

(** [flowNodes.some(flowNode => flowNode.id === id)] for an id that may
    be undefined *)
Definition hasFlowNode (processModel : ProcessModel) (id' : option string) : bool :=
  existsb (fun flowNode =>
             match id' with
             | Some given => String.eqb (node_id flowNode) given
             | None => false
             end)
          (model_flowNodes processModel).

Definition _validateStartRequest (processModel : ProcessModel) (startEventId : string)
  (endEventId : option string) (startCallbackType : Z) : Outcome unit :=
  if negb (existsb (Z.eqb startCallbackType) StartCallbackType)
  then throw BadRequestError
             (numberToString startCallbackType ++ " is not a valid return option!")
  else if negb (isExecutable processModel)
  then throw BadRequestError "The process model is not executable!"
  else
    let hasMatchingStartEvent := hasFlowNode processModel (Some startEventId) in
    if negb hasMatchingStartEvent
    then throw NotFoundError ("StartEvent with ID '" ++ startEventId ++ "' not found!")
    else if Z.eqb startCallbackType CallbackOnEndEventReached
    then
      if ServiceModels.isFalsy endEventId
      then throw BadRequestError
                 "Must provide an EndEventId, when using callback type 'CallbackOnEndEventReached'!"
      else
        let hasMatchingEndEvent := hasFlowNode processModel endEventId in
        if negb hasMatchingEndEvent
        then throw NotFoundError ("EndEvent with ID '" ++ startEventId ++ "' not found!")
        else Returned tt
    else Returned tt.

Definition startProcessInstance (context : ConsumerContext)
  (processModelId' startEventId : string)
  (payload' : ServiceModels.ProcessStartRequestPayload) (startCallbackType : option Z)
  (endEventId : option string) : Outcome ServiceModels.ProcessStartResponsePayload :=
  let startCallbackType' :=
    match startCallbackType with
    | Some given => given
    | None => CallbackOnProcessInstanceCreated
    end in
  executionContextFacade <-
    FacadeService._createExecutionContextFacadeFromConsumerContext context ;;
  processModel <- processModelByIdOf executionContextFacade processModelId' ;;
  _ <- _validateStartRequest processModel startEventId endEventId startCallbackType' ;;
  adapterStartProcessInstance executionContextFacade processModelId' startEventId
                              payload' startCallbackType' endEventId.

End WithWorld.

End FacadeModels.

(** ** The user task converter: expressions in labels and defaults
    ([UserTaskConverter._evaluateExpressionWithOldToken]) *)

Module Expressions.

(** [!v] *)
Definition isFalsyValue (v : JsValue) : bool :=
  match v with
  | JsUndefined | JsNull => true
  | JsBoolean b => negb b
  | JsNumber n => Z.eqb n 0
  | JsString s => String.eqb s ""
  | JsArray _ | JsObject _ => false
  end.

(** [s.charAt(0)] *)
Definition charAt0 (s : string) : string :=
  match s with
  | EmptyString => ""
  | String c _ => String c ""
  end.

(** [s.substr(start, length)] for a length that may have gone below
    zero, where [substr] gives the empty string as it does for zero. *)
Definition substr (s : string) (start length' : nat) : string :=
  String.substring start length' s.

Section WithScripts.
(** [new Function('token', functionString).call(undefined, token)] *)
Variable callFunction : string -> JsValue -> Outcome JsValue.

Definition _evaluateExpressionWithOldToken (expression oldTokenFormat : JsValue)
  : Outcome JsValue :=
  let result := expression in
  if isFalsyValue expression then Returned result
  else
    match expression with
    | JsString expression' =>
        let expressionStartsOn := "${" in
        let expressionEndsOn := "}" in
        let isExpression := String.eqb (charAt0 expression') "$" in
        if negb isExpression then Returned result
        else
          let finalExpressionLength :=
            String.length expression' - String.length expressionStartsOn
            - String.length expressionEndsOn in
          let expressionBody :=
            substr expression' (String.length expressionStartsOn)
                   finalExpressionLength in
          let functionString := ("return " ++ expressionBody)%string in
          result' <- callFunction functionString oldTokenFormat ;;
          Returned (if isUndefined result' then JsNull else result')
    | _ => throw TypeError "expression.charAt is not a function"
    end.

End WithScripts.

End Expressions.

(** Sample data for the start of a process instance *)

Module StartSamples.

Import PersistenceService.

Definition orderModel : FacadeModels.ProcessModel :=
  FacadeModels.mkModel "order"
    true
    [mkFlowNode "Start_Order" StartEventNode;
     mkFlowNode "Task_Check" (UserTaskNode []);
     mkFlowNode "End_Order" EndEventNode].

Definition draftModel : FacadeModels.ProcessModel :=
  FacadeModels.mkModel "draft" false [mkFlowNode "Start_Draft" StartEventNode].

Definition facadeModelById (_ : FacadeService.IExecutionContextFacade)
  (processModelId' : string) : Outcome FacadeModels.ProcessModel :=
  if String.eqb processModelId' "order" then Returned orderModel
  else if String.eqb processModelId' "draft" then Returned draftModel
  else throw NotFoundError "ProcessModel not found".

(** An execution adapter that answers in the correlation of the request. *)
Definition echoAdapter (_ : FacadeService.IExecutionContextFacade)
  (processModelId' startEventId : string)
  (payload' : ServiceModels.ProcessStartRequestPayload) (startCallbackType : Z)
  (endEventId : option string) : Outcome ServiceModels.ProcessStartResponsePayload :=
  Returned (ServiceModels.mkStartResponse
              (match ServiceModels.request_correlationId payload' with
               | Some given => given
               | None => "generated"
               end)).

Definition plainRequest : ServiceModels.ProcessStartRequestPayload :=
  ServiceModels.mkStartRequest (Some "corr_9") (JsObject []).

(** Decimal digits, the text of the small integers of the samples. *)
Definition decimalText (n : Z) : string := NilZero.string_of_int (Z.to_int n).

(** A script engine that knows one function body. *)
Definition tokenName (functionString : string) (token : JsValue) : Outcome JsValue :=
  if String.eqb functionString "return token.name" then getProperty token "name"
  else Returned JsUndefined.

End StartSamples.

(** ** The adapter, first listing: [finishUserTask]
    The first listing of [process_engine_adapter.ts] differs from the
    second in what it publishes: the token of its message is the validated
    form fields. *)

Module FirstListing.

Import Adapter.

Section WithWorld.
Variable w : World.
(** [getUserTasksForProcessModelInCorrelation] of this listing, which
    reads a storage service that the sources do not include. *)
Variable userTasksForProcessModelInCorrelation :
  ConsumerContext -> string -> string -> Outcome UserTaskList.

Definition proceedMessage (executionContext : ExecutionContext)
  (resultForProcessEngine : JsValue) : JsValue :=
  JsObject
    [("data", JsObject [("action", JsString MessageAction_proceed);
                        ("token", resultForProcessEngine)]);
     ("metadata", JsObject [("context", JsString (context_id executionContext))])].

Definition finishUserTask (eventAggregator : EventAggregator)
  (context : ConsumerContext) (processModelId' correlationId' userTaskId : string)
  (userTaskResult : JsValue) : Outcome unit * EventAggregator :=
  match _createExecutionContextFromConsumerContext w context with
  | Returned executionContext =>
      match userTasksForProcessModelInCorrelation context processModelId'
                                                  correlationId' with
      | Returned userTasks' =>
          match find_first (fun task => String.eqb (key task) userTaskId)
                           (user_tasks userTasks') with
          | None =>
              (throw NotFoundError
                     ("Process model '" ++ processModelId' ++ "' in correlation '"
                      ++ correlationId' ++ "' does not have a user task '"
                      ++ userTaskId ++ "'"),
               eventAggregator)
          | Some userTask =>
              match _getUserTaskResultFromUserTaskConfig userTaskResult with
              | Returned resultForProcessEngine =>
                  let subscribed :=
                    subscribe eventAggregator (nodeChannel (id userTask)) in
                  let published :=
                    publish subscribed (nodeChannel (id userTask))
                            (proceedMessage executionContext resultForProcessEngine) in
                  (Returned tt, published)
              | Thrown error => (Thrown error, eventAggregator)
              | OutOfFuel => (OutOfFuel, eventAggregator)
              end
          end
      | Thrown error => (Thrown error, eventAggregator)
      | OutOfFuel => (OutOfFuel, eventAggregator)
      end
  | Thrown error => (Thrown error, eventAggregator)
  | OutOfFuel => (OutOfFuel, eventAggregator)
  end.

End WithWorld.

End FirstListing.

(** * Properties *)

(** ** Lane trees *)

Module LaneTrees.

(** Induction over a lane set with the nested lane sets as premises. *)
Lemma LaneSet_forest_ind (Q : LaneSet -> Prop) :
  (forall ls,
      Forall (fun l => forall c, childLaneSet l = Some c -> Q c) ls ->
      Q (mkLaneSet ls)) ->
  forall s, Q s.
Proof.
  intros step.
  apply (LaneSet_tree_ind (fun l => forall c, childLaneSet l = Some c -> Q c) Q).
  - intros i n r c H. discriminate H.
  - intros i n c r Hc c' H. simpl in H. injection H as <-. exact Hc.
  - exact step.
Qed.

Lemma lanesOfTree_cons l rest :
  lanesOfTree (mkLaneSet (l :: rest))
  = l :: match childLaneSet l with
         | None => []
         | Some c => lanesOfTree c
         end ++ lanesOfTree (mkLaneSet rest).
Proof. reflexivity. Qed.

End LaneTrees.

(** ** Lane lookup *)

Module LaneLookup.

Import Adapter Views Samples LaneTrees.

Lemma closestIn_nil elementId : closestIn [] elementId = None.
Proof. reflexivity. Qed.

Lemma closestIn_nested i n child refs rest elementId :
  closestIn (mkLane i n (Some child) refs :: rest) elementId
  = _getClosestLaneIdToElement child elementId.
Proof. destruct child; reflexivity. Qed.

Lemma closestIn_leaf i n refs rest elementId :
  closestIn (mkLane i n None refs :: rest) elementId
  = if references (mkLane i n None refs) elementId then Some i
    else closestIn rest elementId.
Proof. unfold references; destruct refs as [refs|]; reflexivity. Qed.

(** Whatever the lookup returns is the id of a lane of the tree that has
    no child lane set and references the element. *)
Lemma closest_sound elementId :
  forall laneSet laneId,
    _getClosestLaneIdToElement laneSet elementId = Some laneId ->
    exists lane, In lane (lanesOfTree laneSet) /\ lane_id lane = laneId
                 /\ childLaneSet lane = None /\ references lane elementId = true.
Proof.
  intros laneSet. pattern laneSet. apply LaneSet_forest_ind. clear laneSet.
  intros ls Hall.
  induction Hall as [|l rest Hl _ IH]; intros laneId H.
  - discriminate.
  - fold (closestIn (l :: rest) elementId) in H.
    rewrite lanesOfTree_cons.
    destruct l as [i n [child|] refs].
    + rewrite closestIn_nested in H.
      destruct (Hl child eq_refl laneId H) as (lane & Hin & Hrest).
      exists lane. split; [|exact Hrest].
      right. apply in_or_app. left. exact Hin.
    + rewrite closestIn_leaf in H.
      destruct (references (mkLane i n None refs) elementId) eqn:Href.
      * injection H as <-. exists (mkLane i n None refs).
        repeat split; try assumption. left. reflexivity.
      * destruct (IH laneId H) as (lane & Hin & Hrest).
        exists lane. split; [|exact Hrest].
        right. simpl. exact Hin.
Qed.

(** The part of the claim the code keeps: a lane set whose only lane [A]
    nests a lane [B] that references the node is answered with [B]. *)
Lemma closest_single_nested a n refsA b m refsB elementId :
  references (mkLane b m None refsB) elementId = true ->
  _getClosestLaneIdToElement
    (mkLaneSet [mkLane a n (Some (mkLaneSet [mkLane b m None refsB])) refsA]) elementId
  = Some b.
Proof.
  intros H.
  fold (closestIn [mkLane a n (Some (mkLaneSet [mkLane b m None refsB])) refsA] elementId).
  rewrite closestIn_nested.
  fold (closestIn [mkLane b m None refsB] elementId).
  rewrite closestIn_leaf, H. reflexivity.
Qed.

(** C1, at the failing input: [Lane_C] is a lane of the lane set, has no
    child lane set and is the only lane that references [Task_N], yet the
    lookup stops in the child lane set of the first lane, [Lane_A], and
    answers [undefined]; [_getLaneIdForElement] then has no lane for
    [Task_N] either. *)
Theorem C1_lane_after_nested_lane_set_is_not_found :
  In lane_C (lanesOfTree siblingLaneSet)
  /\ references lane_C "Task_N" = true
  /\ (forall lane, In lane (lanesOfTree siblingLaneSet) ->
                   references lane "Task_N" = true -> lane = lane_C)
  /\ _getClosestLaneIdToElement siblingLaneSet "Task_N" = None
  /\ _getLaneIdForElement siblingDefinitions "Task_N" = None.
Proof.
  repeat split.
  - simpl. auto.
  - intros lane Hin Href. simpl in Hin.
    destruct Hin as [<-|[<-|[<-|[]]]]; try reflexivity; discriminate Href.
Qed.

End LaneLookup.

(** ** Lane access *)

Module LaneAccess.

Import Adapter Views Samples LaneTrees.

Lemma accessible_as_loop w identity ls :
  lanesThatCanBeAccessedIn w identity (mkLaneSet ls) = accessLoop w identity ls [] [].
Proof. reflexivity. Qed.

(** The loop only ever appends to what it was started with. *)
Lemma accessLoop_acc w identity ls :
  forall result log,
    accessLoop w identity ls result log
    = (result ++ fst (accessLoop w identity ls [] []),
       log ++ snd (accessLoop w identity ls [] [])).
Proof.
  induction ls as [|lane rest IH]; intros result log; simpl.
  - now rewrite !app_nil_r.
  - destruct (claimIsInvalid lane).
    + rewrite (IH result (log ++ _)), (IH [] [laneWarning lane]). simpl.
      now rewrite <- app_assoc.
    + destruct (negb (hasClaim w identity (claimOf lane))).
      * apply IH.
      * rewrite (IH ((result ++ [lane]) ++ _) (log ++ _)), (IH (lane :: _) (snd _)).
        simpl. now rewrite <- !app_assoc.
Qed.

(** A lane without a usable name is passed over: a warning, and on with
    the remaining lanes. *)
Lemma accessLoop_skip w identity lane rest :
  claimIsInvalid lane = true ->
  accessLoop w identity (lane :: rest) [] []
  = (fst (accessLoop w identity rest [] []),
     laneWarning lane :: snd (accessLoop w identity rest [] [])).
Proof.
  intros H. simpl. rewrite H. now rewrite accessLoop_acc.
Qed.

(** Every lane handed out has a usable name and is a lane of the tree. *)
Lemma accessible_lanes_valid w identity :
  forall laneSet lane,
    In lane (fst (lanesThatCanBeAccessedIn w identity laneSet)) ->
    claimIsInvalid lane = false /\ In lane (lanesOfTree laneSet).
Proof.
  intros laneSet. pattern laneSet. apply LaneSet_forest_ind. clear laneSet.
  intros ls Hall. rewrite accessible_as_loop.
  induction Hall as [|l rest Hl _ IH]; intros lane Hin.
  - contradiction.
  - rewrite lanesOfTree_cons.
    simpl in Hin.
    destruct (claimIsInvalid l) eqn:Hinv.
    + rewrite accessLoop_acc in Hin. simpl in Hin.
      destruct (IH lane Hin) as [Hv Ht]. split; [exact Hv|].
      right. apply in_or_app. right. exact Ht.
    + destruct (negb (hasClaim w identity (claimOf l))).
      * destruct (IH lane Hin) as [Hv Ht]. split; [exact Hv|].
        right. apply in_or_app. right. exact Ht.
      * rewrite accessLoop_acc in Hin. simpl in Hin.
        destruct Hin as [<-|Hin]; [split; [exact Hinv | left; reflexivity]|].
        apply in_app_or in Hin. destruct Hin as [Hin|Hin].
        -- destruct (childLaneSet l) as [child|] eqn:Hchild; [|contradiction].
           destruct (Hl child eq_refl lane Hin) as [Hv Ht]. split; [exact Hv|].
           right. apply in_or_app. left. exact Ht.
        -- destruct (IH lane Hin) as [Hv Ht]. split; [exact Hv|].
           right. apply in_or_app. right. exact Ht.
Qed.

Lemma invalid_name lane :
  lane_name lane = None \/ lane_name lane = Some "" -> claimIsInvalid lane = true.
Proof. unfold claimIsInvalid. intros [-> | ->]; reflexivity. Qed.

Lemma unique_by_id (xs : list Lane) a b :
  NoDup (map lane_id xs) -> In a xs -> In b xs -> lane_id a = lane_id b -> a = b.
Proof.
  induction xs as [|x rest IH]; simpl; intros Hnd Ha Hb Hid; [contradiction|].
  inversion Hnd as [|? ? Hnotin Hnd']; subst.
  destruct Ha as [<-|Ha], Hb as [<-|Hb]; auto.
  - exfalso. apply Hnotin. rewrite Hid. now apply in_map.
  - exfalso. apply Hnotin. rewrite <- Hid. now apply in_map.
Qed.

(** C3: a lane whose name is undefined or empty is never among the
    lanes [_getLanesThatCanBeAccessed] hands out, whatever claims the
    identity holds; with lane ids unique in the tree its id is not among
    the ids handed out either; and such a lane is skipped with one warning
    while the loop goes on with the remaining lanes. *)
Theorem C3_unnamed_lane_is_never_accessible :
  forall (w : World) (identity : IIdentity) (lane : Lane),
    lane_name lane = None \/ lane_name lane = Some "" ->
    (forall laneSet : option LaneSet,
        ~ In lane (fst (_getLanesThatCanBeAccessed w identity laneSet)))
    /\ (forall laneSet : LaneSet,
           In lane (lanesOfTree laneSet) ->
           NoDup (map lane_id (lanesOfTree laneSet)) ->
           ~ In (lane_id lane)
                (map lane_id (fst (_getLanesThatCanBeAccessed w identity (Some laneSet)))))
    /\ (forall rest : list Lane,
           _getLanesThatCanBeAccessed w identity (Some (mkLaneSet (lane :: rest)))
           = (fst (_getLanesThatCanBeAccessed w identity (Some (mkLaneSet rest))),
              laneWarning lane
              :: snd (_getLanesThatCanBeAccessed w identity (Some (mkLaneSet rest))))).
Proof.
  intros w identity lane Hname.
  pose proof (invalid_name lane Hname) as Hinv.
  split; [|split].
  - intros [laneSet|] Hin; simpl in Hin; [|contradiction].
    apply accessible_lanes_valid in Hin. destruct Hin as [Hv _]. congruence.
  - intros laneSet Htree Hnd Hin. simpl in Hin.
    apply in_map_iff in Hin. destruct Hin as (other & Hid & Hin).
    apply accessible_lanes_valid in Hin. destruct Hin as [Hv Hother].
    assert (other = lane) by (eapply unique_by_id; eauto).
    subst other. congruence.
  - intros rest. unfold _getLanesThatCanBeAccessed.
    rewrite !accessible_as_loop. now apply accessLoop_skip.
Qed.

(** The identity holds every claim, the empty one included: the two
    lanes without a usable name stay out, with a warning each. *)
Lemma C3_witness :
  _getLanesThatCanBeAccessed laneWorld sampleIdentity (Some mixedLaneSet)
  = ([lane_A; lane_B; lane_C],
     ["lane with id Lane_U has no claim/title"; "lane with id Lane_E has no claim/title"])
  /\ ~ In lane_unnamed
          (fst (_getLanesThatCanBeAccessed laneWorld sampleIdentity (Some mixedLaneSet)))
  /\ ~ In "Lane_U"
          (map lane_id
               (fst (_getLanesThatCanBeAccessed laneWorld sampleIdentity
                                                (Some mixedLaneSet)))).
Proof.
  pose proof (C3_unnamed_lane_is_never_accessible laneWorld sampleIdentity lane_unnamed
                                                  (or_introl eq_refl))
    as (Hlane & Hid & Hskip).
  split; [reflexivity|]. split; [apply Hlane|].
  apply (Hid mixedLaneSet).
  - simpl. auto.
  - simpl. repeat constructor; simpl; intuition discriminate.
Defined.

End LaneAccess.

(** ** Correlation resolution *)

Module Correlation.

Import Adapter Views Samples.

Section MainInstance.
Variable w : World.
Variable executionContext : ExecutionContext.

(** No instance carries the correlation id: [NotFoundError]. *)
Lemma main_instance_unknown_correlation correlationId' :
  (forall p, In p (processes w) -> correlationId p <> correlationId') ->
  exists msg,
    _getMainProcessInstanceIdFromCorrelation w executionContext correlationId'
    = Thrown (mkError NotFoundError msg).
Proof.
  intros Hnone. unfold _getMainProcessInstanceIdFromCorrelation.
  assert (Hempty : filter (fun p => String.eqb (correlationId p) correlationId')
                          (processes w) = []).
  { induction (processes w) as [|p ps IH]; [reflexivity|]. simpl.
    destruct (String.eqb_spec (correlationId p) correlationId') as [E|_].
    - exfalso. apply (Hnone p); [left; reflexivity | exact E].
    - apply IH. intros q Hq. apply Hnone. right. exact Hq. }
  rewrite Hempty. simpl. eexists. reflexivity.
Qed.

(** Some instance carries the correlation id, and every one that does is
    a sub-process: the [TypeError] of reading [id] from [undefined]. *)
Lemma main_instance_only_sub_processes correlationId' p0 :
  In p0 (processes w) -> correlationId p0 = correlationId' ->
  (forall p, In p (processes w) -> correlationId p = correlationId' ->
             isSubProcess p = true) ->
  _getMainProcessInstanceIdFromCorrelation w executionContext correlationId'
  = Thrown (mkError TypeError "Cannot read property 'id' of undefined").
Proof.
  intros Hin Hcorr Hsub. unfold _getMainProcessInstanceIdFromCorrelation.
  set (matching := filter _ (processes w)).
  assert (Hp0 : In p0 matching).
  { apply filter_In. split; [exact Hin|]. now apply String.eqb_eq. }
  destruct matching as [|m ms] eqn:Hm; [contradiction|].
  cbn [List.length Nat.eqb].
  destruct (find_first _ (m :: ms)) as [mainProcess|] eqn:Hfind; [|reflexivity].
  apply find_some in Hfind. destruct Hfind as [Hmain Hflag].
  rewrite <- Hm in Hmain. apply filter_In in Hmain. destruct Hmain as [Hmain Hc].
  apply String.eqb_eq in Hc. rewrite (Hsub _ Hmain Hc) in Hflag. discriminate.
Qed.

(** A main instance of the correlation exists: its id is found, and the
    instance fetched by that id is in the table. *)
Lemma main_instance_found correlationId' :
  (exists m, In m (processes w) /\ correlationId m = correlationId'
             /\ isSubProcess m = false) ->
  exists m0 main,
    In m0 (processes w) /\ correlationId m0 = correlationId'
    /\ isSubProcess m0 = false
    /\ _getMainProcessInstanceIdFromCorrelation w executionContext correlationId'
       = Returned (proc_id m0)
    /\ _getProcessInstanceById w executionContext (proc_id m0) = Returned main
    /\ In main (processes w) /\ proc_id main = proc_id m0.
Proof.
  intros (m & Hin & Hcorr & Hflag).
  unfold _getMainProcessInstanceIdFromCorrelation, _getProcessInstanceById.
  set (matching := filter _ (processes w)).
  assert (Hm : In m matching).
  { apply filter_In. split; [exact Hin|]. now apply String.eqb_eq. }
  destruct (find_first (fun process => Bool.eqb (isSubProcess process) false) matching)
    as [m0|] eqn:Hfind.
  - pose proof (find_some _ _ Hfind) as [Hm0 Hflag0].
    apply filter_In in Hm0. destruct Hm0 as [Hm0 Hc0].
    apply String.eqb_eq in Hc0. apply Bool.eqb_prop in Hflag0.
    destruct (find_first (fun p => String.eqb (proc_id p) (proc_id m0)) (processes w))
      as [main|] eqn:Hget.
    + pose proof (find_some _ _ Hget) as [Hmain Hid]. apply String.eqb_eq in Hid.
      exists m0, main.
      split; [exact Hm0|]. split; [exact Hc0|]. split; [exact Hflag0|].
      split; [clearbody matching; destruct matching; [contradiction | reflexivity]|].
      split; [rewrite Hget; reflexivity|]. split; assumption.
    + exfalso. pose proof (find_none _ _ Hget m0 Hm0) as Hno.
      cbv beta in Hno. rewrite String.eqb_refl in Hno. discriminate.
  - exfalso. pose proof (find_none _ _ Hfind m Hm) as Hno.
    cbv beta in Hno. rewrite Hflag in Hno. discriminate.
Qed.

End MainInstance.

(** C4, at the failing input: the only instance with the correlation id
    [corr_sub] is a sub-process instance, so no instance with that
    correlation id and [isSubProcess = false] exists; the lookup of the main
    instance, and with it the resolution of the instances of the
    correlation, ends in a [TypeError], not in a [NotFoundError]. *)
Theorem C4_correlation_of_sub_processes_only_is_a_TypeError :
  (forall p, In p (processes sampleWorld) -> correlationId p = "corr_sub" ->
             isSubProcess p = true)
  /\ _getMainProcessInstanceIdFromCorrelation sampleWorld sampleContext "corr_sub"
     = Thrown (mkError TypeError "Cannot read property 'id' of undefined")
  /\ (forall fuel,
         _getProcessInstancesForCorrelation sampleWorld fuel sampleContext "corr_sub"
         = Thrown (mkError TypeError "Cannot read property 'id' of undefined"))
  /\ isError (mkError TypeError "Cannot read property 'id' of undefined") NotFoundError
     = false.
Proof.
  assert (Hsub : forall p, In p (processes sampleWorld) -> correlationId p = "corr_sub" ->
                           isSubProcess p = true).
  { intros p Hin Hc. simpl in Hin.
    destruct Hin as [<-|[<-|[<-|[<-|[<-|[]]]]]]; try reflexivity; discriminate Hc. }
  repeat split; try assumption.
Qed.

Section SubProcesses.
Variable w : World.
Variable executionContext : ExecutionContext.

Lemma sub_instances_as_loop fuel parent :
  _getSubProcessInstances w (S fuel) executionContext parent
  = subLoop w fuel executionContext (calledFrom w executionContext parent)
            (calledFrom w executionContext parent).
Proof. reflexivity. Qed.

(** The two queries of one step find exactly the children. *)
Lemma calledFrom_child parent p :
  In p (calledFrom w executionContext parent) <-> child w parent p.
Proof.
  unfold calledFrom, _getCalledProcessesViaCallerIds, child.
  set (nodes := _getCallActivitiesForProcessInstance w executionContext parent).
  assert (Hnodes : forall n, In n nodes <->
                             In n (nodeInstances w) /\ node_process n = parent
                             /\ node_type n = BpmnType_callActivity).
  { intros n. unfold nodes, _getCallActivitiesForProcessInstance.
    rewrite filter_In, andb_true_iff, !String.eqb_eq. tauto. }
  split.
  - intros Hin.
    destruct (Nat.eqb (List.length (map node_id nodes)) 0); [contradiction|].
    apply filter_In in Hin. destruct Hin as [Hp Hcaller].
    split; [exact Hp|].
    destruct (callerId p) as [c|]; [|discriminate].
    unfold includes in Hcaller. apply existsb_exists in Hcaller.
    destruct Hcaller as (i & Hi & Heq). apply String.eqb_eq in Heq. subst i.
    apply in_map_iff in Hi. destruct Hi as (n & Hid & Hn).
    apply Hnodes in Hn. destruct Hn as (Hn & Hproc & Htype).
    exists n. repeat split; try assumption. now rewrite Hid.
  - intros (Hp & n & Hn & Hproc & Htype & Hcaller).
    assert (Hin : In n nodes) by (apply Hnodes; auto).
    destruct (map node_id nodes) as [|i ids] eqn:Hids.
    + destruct nodes; [contradiction | discriminate].
    + cbn [List.length Nat.eqb]. apply filter_In. split; [exact Hp|].
      rewrite Hcaller. unfold includes. apply existsb_exists.
      exists (node_id n). split; [|apply String.eqb_refl].
      rewrite <- Hids. now apply in_map.
Qed.

Lemma descendant_inv parent p :
  descendant w parent p <->
  child w parent p \/ exists q, child w parent q /\ descendant w (proc_id q) p.
Proof.
  split.
  - intros H. inversion H; subst; [left; assumption | right; eauto].
  - intros [H | (q & Hq & H)]; [now apply descendant_child | eapply descendant_step; eauto].
Qed.

Lemma descendant_then_child a q p :
  descendant w a q -> child w (proc_id q) p -> descendant w a p.
Proof.
  induction 1 as [parent q Hc | parent r q Hc _ IH]; intros Hp.
  - eapply descendant_step; [exact Hc|]. now apply descendant_child.
  - eapply descendant_step; [exact Hc|]. now apply IH.
Qed.

(** When every instance of [rest] is resolved, the loop appends what was
    found below each of them. *)
Lemma subLoop_returned fuel :
  forall rest result,
    (forall p, In p rest ->
               exists l, _getSubProcessInstances w fuel executionContext (proc_id p)
                         = Returned l
                         /\ forall x, In x l <-> descendant w (proc_id p) x) ->
    exists subs,
      subLoop w fuel executionContext rest result = Returned (result ++ subs)
      /\ forall x, In x subs <-> exists p, In p rest /\ descendant w (proc_id p) x.
Proof.
  induction rest as [|p rest IH]; intros result Hall.
  - exists []. split; [simpl; now rewrite app_nil_r|].
    intros x. split; [contradiction | intros (p & [] & _)].
  - destruct (Hall p (or_introl eq_refl)) as (l & Hl & Hspec).
    destruct (IH (result ++ l) (fun q Hq => Hall q (or_intror Hq))) as (subs & Hsubs & Hin).
    exists (l ++ subs). split.
    + simpl. rewrite Hl. simpl. rewrite Hsubs. now rewrite app_assoc.
    + intros x. rewrite in_app_iff, Hspec, Hin. split.
      * intros [H | (q & Hq & H)]; [exists p | exists q]; split; auto;
          [left; reflexivity | right; exact Hq].
      * intros (q & [<- | Hq] & H); [left; exact H | right; exists q; auto].
Qed.

(** Termination and correctness of the discovery below an instance
    [pid] that was reached from [root] through the chain [ancestors]: the
    chain never repeats an id when the graph below [root] is acyclic, so it
    is no longer than the set [ids] of all ids. *)
Lemma sub_instances_total (root : string) (ids : list string) :
  acyclicBelow w root ->
  (forall p, In p (processes w) -> In (proc_id p) ids) ->
  forall fuel pid ancestors,
    NoDup (pid :: ancestors) ->
    incl (pid :: ancestors) ids ->
    (forall a, In a ancestors -> exists q, proc_id q = pid /\ descendant w a q) ->
    (pid = root \/ exists q, proc_id q = pid /\ descendant w root q) ->
    List.length ids - List.length ancestors <= fuel ->
    exists l,
      _getSubProcessInstances w fuel executionContext pid = Returned l
      /\ forall x, In x l <-> descendant w pid x.
Proof.
  intros Hacyclic Hids.
  induction fuel as [|fuel IH]; intros pid ancestors Hnd Hincl Hanc Hroot Hfuel.
  - exfalso. pose proof (NoDup_incl_length Hnd Hincl) as Hlen. simpl in Hlen. lia.
  - rewrite sub_instances_as_loop.
    destruct (subLoop_returned fuel (calledFrom w executionContext pid)
                               (calledFrom w executionContext pid)) as (subs & Hsubs & Hin).
    + intros p Hp. apply calledFrom_child in Hp.
      assert (Hreach : forall a, In a (pid :: ancestors) -> descendant w a p).
      { intros a [<- | Ha]; [now apply descendant_child|].
        destruct (Hanc a Ha) as (q & Hq & Hdesc). subst pid.
        eapply descendant_then_child; eauto. }
      assert (Hbelow : descendant w root p).
      { destruct Hroot as [-> | (q & Hq & Hdesc)]; [now apply descendant_child|].
        subst pid. eapply descendant_then_child; eauto. }
      apply (IH (proc_id p) (pid :: ancestors)).
      * constructor; [|exact Hnd].
        intros Hrep. apply (Hacyclic p Hbelow). now apply Hreach.
      * intros a [<- | Ha]; [apply Hids; apply Hp | now apply Hincl].
      * intros a Ha. exists p. split; [reflexivity | now apply Hreach].
      * right. exists p. split; [reflexivity | exact Hbelow].
      * pose proof (NoDup_incl_length Hnd Hincl) as Hlen. simpl in *. lia.
    + exists (calledFrom w executionContext pid ++ subs). split; [exact Hsubs|].
      intros x. rewrite in_app_iff, calledFrom_child, Hin, descendant_inv.
      split.
      * intros [H | (p & Hp & H)]; [left; exact H|].
        right. exists p. split; [now apply calledFrom_child | exact H].
      * intros [H | (p & Hp & H)]; [left; exact H|].
        right. exists p. split; [now apply calledFrom_child | exact H].
Qed.

Lemma acyclic_below root : acyclic w -> acyclicBelow w root.
Proof. intros H p _. apply H. Qed.

(** A ranking that drops along every call rules out cycles. *)
Lemma ranked_child rank parent p :
  rankedb w rank = true -> child w parent p -> rank (proc_id p) < rank parent.
Proof.
  unfold rankedb. intros Hr (Hp & n & Hn & Hproc & Htype & Hcaller).
  rewrite forallb_forall in Hr. specialize (Hr p Hp).
  rewrite forallb_forall in Hr. specialize (Hr n Hn).
  rewrite Htype, Hcaller, !String.eqb_refl in Hr. simpl in Hr.
  apply Nat.ltb_lt in Hr. now rewrite Hproc in Hr.
Qed.

Lemma ranked_descendant rank parent p :
  rankedb w rank = true -> descendant w parent p -> rank (proc_id p) < rank parent.
Proof.
  intros Hr. induction 1 as [parent p Hc | parent q p Hc _ IH].
  - eapply ranked_child; eauto.
  - pose proof (ranked_child rank parent q Hr Hc). lia.
Qed.

Lemma ranked_acyclic rank : rankedb w rank = true -> acyclic w.
Proof.
  intros Hr p Hp. pose proof (ranked_descendant rank _ _ Hr Hp). lia.
Qed.

End SubProcesses.

(** C5: for a correlation that has a main instance (one with
    [isSubProcess = false]) and whose call graph below a main instance has
    no cycle, [_getProcessInstancesForCorrelation] returns, with any
    recursion budget above the number of instances in the datastore, the
    main instance first, followed by exactly the instances reached from it
    through call activities: none missing, none added. *)
Theorem C5_instances_of_a_correlation_are_main_then_descendants :
  forall (w : World) (executionContext : ExecutionContext) (correlationId' : string),
    (exists m, In m (processes w) /\ correlationId m = correlationId'
               /\ isSubProcess m = false) ->
    (forall m, In m (processes w) -> correlationId m = correlationId' ->
               isSubProcess m = false -> acyclicBelow w (proc_id m)) ->
    forall fuel,
      List.length (processes w) < fuel ->
      exists main subs,
        _getProcessInstancesForCorrelation w fuel executionContext correlationId'
        = Returned (main :: subs)
        /\ In main (processes w)
        /\ _getMainProcessInstanceIdFromCorrelation w executionContext correlationId'
           = Returned (proc_id main)
        /\ (exists m0, In m0 (processes w) /\ correlationId m0 = correlationId'
                       /\ isSubProcess m0 = false /\ proc_id main = proc_id m0)
        /\ forall p, In p subs <-> descendant w (proc_id main) p.
Proof.
  intros w executionContext correlationId' Hmain Hacyclic fuel Hfuel.
  destruct (main_instance_found w executionContext correlationId' Hmain)
    as (m0 & main & Hm0 & Hcorr & Hflag & Hid & Hget & Hin & Heq).
  destruct (sub_instances_total w executionContext (proc_id m0)
                                (map proc_id (processes w))
                                (Hacyclic m0 Hm0 Hcorr Hflag)
                                (fun p Hp => in_map proc_id _ _ Hp)
                                fuel (proc_id m0) [])
    as (subs & Hsubs & Hspec).
  - constructor; [intros [] | constructor].
  - intros a [<- | []]. now apply in_map.
  - intros a [].
  - now left.
  - rewrite length_map. simpl. lia.
  - exists main, subs.
    split.
    + unfold _getProcessInstancesForCorrelation. rewrite Hid. simpl.
      rewrite Hget. simpl. rewrite Hsubs. reflexivity.
    + split; [exact Hin|]. split; [now rewrite Heq|].
      split; [exists m0; auto|]. rewrite Heq. exact Hspec.
Qed.

(** The correlation [corr_1] of the sample table: the main instance, its
    two called instances and the instance nested below the first of them
    are returned, main instance first. *)
Example sample_correlation_has_four_instances :
  _getProcessInstancesForCorrelation sampleWorld 6 sampleContext "corr_1"
  = Returned [pMain; pSubA; pSubB; pNested].
Proof. reflexivity. Qed.

Lemma sampleWorld_acyclic : acyclic sampleWorld.
Proof. apply (ranked_acyclic sampleWorld sampleRank). reflexivity. Qed.

Lemma C5_witness :
  exists main subs,
    _getProcessInstancesForCorrelation sampleWorld 6 sampleContext "corr_1"
    = Returned (main :: subs)
    /\ In main (processes sampleWorld)
    /\ _getMainProcessInstanceIdFromCorrelation sampleWorld sampleContext "corr_1"
       = Returned (proc_id main)
    /\ (exists m0, In m0 (processes sampleWorld) /\ correlationId m0 = "corr_1"
                   /\ isSubProcess m0 = false /\ proc_id main = proc_id m0)
    /\ forall p, In p subs <-> descendant sampleWorld (proc_id main) p.
Proof.
  apply (C5_instances_of_a_correlation_are_main_then_descendants
           sampleWorld sampleContext "corr_1").
  - exists pMain. simpl. auto.
  - intros m _ _ _. apply acyclic_below. exact sampleWorld_acyclic.
  - simpl. lia.
Defined.

End Correlation.

(** ** Visibility of user tasks *)

Module Visibility.

Import Adapter Views Samples.

Section Aggregation.
Variable w : World.
Variable executionContext : ExecutionContext.

Lemma forbidden_is_caught error :
  kind error = ForbiddenError -> negb (isError error ForbiddenError) = false.
Proof. unfold isError. intros ->. reflexivity. Qed.

Lemma other_error_is_rethrown error :
  kind error <> ForbiddenError -> negb (isError error ForbiddenError) = true.
Proof. unfold isError. destruct (kind error); intros H; try reflexivity. now elim H. Qed.

(** Instances that are answered or forbidden add their contribution. *)
Lemma aggregate_answered :
  forall instances userTasks,
    (forall p, In p instances -> answeredOrForbidden w executionContext p) ->
    userTasksOfInstances w executionContext instances userTasks
    = Returned (userTasks ++ flat_map (contribution w executionContext) instances).
Proof.
  induction instances as [|p rest IH]; intros userTasks Hall; simpl.
  - now rewrite app_nil_r.
  - unfold contribution at 1.
    destruct (Hall p (or_introl eq_refl)) as [(tasks & ->) | (error & -> & Hkind)].
    + rewrite IH by (intros q Hq; apply Hall; now right). now rewrite app_assoc.
    + rewrite (forbidden_is_caught error Hkind). simpl.
      apply IH. intros q Hq. apply Hall. now right.
Qed.

(** The first error that is no [ForbiddenError] ends the loop. *)
Lemma aggregate_aborted :
  forall before p after error userTasks,
    (forall q, In q before -> answeredOrForbidden w executionContext q) ->
    _getAccessibleUserTasksForProcessInstance w executionContext p = Thrown error ->
    kind error <> ForbiddenError ->
    userTasksOfInstances w executionContext (before ++ p :: after) userTasks
    = Thrown error.
Proof.
  induction before as [|q rest IH]; intros p after error userTasks Hall Hp Hkind; simpl.
  - rewrite Hp, (other_error_is_rethrown error Hkind). reflexivity.
  - destruct (Hall q (or_introl eq_refl)) as [(tasks & ->) | (e & -> & Hq)].
    + apply IH; auto. intros r Hr. apply Hall. now right.
    + rewrite (forbidden_is_caught e Hq). apply IH; auto.
      intros r Hr. apply Hall. now right.
Qed.

End Aggregation.

(** C6: over the instances of a correlation, an instance answered with
    a [ForbiddenError] adds no task and the loop goes on, so the result is
    the tasks of the answered instances in order; the first instance that
    fails with any other error makes the whole call fail with that error. *)
Theorem C6_forbidden_is_skipped_and_other_errors_abort :
  forall (w : World) (fuel : nat) (executionContext : ExecutionContext)
         (correlationId' : string) (instances : list IProcessEntity),
    _getProcessInstancesForCorrelation w fuel executionContext correlationId'
    = Returned instances ->
    ((forall p, In p instances -> answeredOrForbidden w executionContext p) ->
     _getUserTasksForCorrelation w fuel executionContext correlationId'
     = Returned (flat_map (contribution w executionContext) instances))
    /\ (forall p error,
           _getAccessibleUserTasksForProcessInstance w executionContext p = Thrown error ->
           contribution w executionContext p = [])
    /\ (forall before p after error,
           instances = before ++ p :: after ->
           (forall q, In q before -> answeredOrForbidden w executionContext q) ->
           _getAccessibleUserTasksForProcessInstance w executionContext p = Thrown error ->
           kind error <> ForbiddenError ->
           _getUserTasksForCorrelation w fuel executionContext correlationId'
           = Thrown error).
Proof.
  intros w fuel executionContext correlationId' instances Hinst.
  unfold _getUserTasksForCorrelation. rewrite Hinst. simpl.
  split; [|split].
  - intros Hall. now rewrite aggregate_answered.
  - intros p error Hp. unfold contribution. now rewrite Hp.
  - intros before p after error -> Hall Hp Hkind. now apply aggregate_aborted.
Qed.

Lemma C6_witness :
  _getUserTasksForCorrelation restrictedWorld 6 sampleContext "corr_1"
  = Returned [taskMain; taskNested]
  /\ _getUserTasksForCorrelation brokenWorld 6 sampleContext "corr_1"
     = Thrown (mkError NotFoundError "Process model with key missing_model not found.").
Proof.
  split.
  - apply (C6_forbidden_is_skipped_and_other_errors_abort
             restrictedWorld 6 sampleContext "corr_1" [pMain; pSubA; pSubB; pNested]
             eq_refl).
    intros p [<-|[<-|[<-|[<-|[]]]]].
    + left. eexists. reflexivity.
    + right. eexists. split; reflexivity.
    + right. eexists. split; reflexivity.
    + left. eexists. reflexivity.
  - apply (proj2 (proj2 (C6_forbidden_is_skipped_and_other_errors_abort
                           brokenWorld 6 sampleContext "corr_1"
                           [pMain; pSubA; pBroken; pNested] eq_refl))
             [pMain; pSubA] pBroken [pNested]).
    + reflexivity.
    + intros q [<-|[<-|[]]].
      * left. eexists. reflexivity.
      * right. eexists. split; reflexivity.
    + reflexivity.
    + discriminate.
Defined.

Section Gate.
Variable w : World.
Variable executionContext : ExecutionContext.

(** The concatenation over the models is empty when every model has no
    accessible lane. *)
Lemma no_lane_in_any_model :
  forall keys,
    (forall processModelKey, In processModelKey keys ->
       _getIdsOfLanesThatCanBeAccessed w executionContext processModelKey = Returned []) ->
    accessibleLaneIdsOfModels w executionContext keys [] = Returned [].
Proof.
  induction keys as [|k rest IH]; intros Hall; simpl; [reflexivity|].
  rewrite (Hall k (or_introl eq_refl)). simpl.
  apply IH. intros k' Hk'. apply Hall. now right.
Qed.

End Gate.

(** C2: when the identity has no accessible lane in any process model of
    the requested scope, the accessor fails with a [ForbiddenError] instead
    of returning tasks: [getUserTasksForCorrelation] over the models of the
    correlation, [getUserTasksForProcessModel] over the model, and
    [getUserTasksForProcessModelInCorrelation] over the model once it is
    known to be part of the correlation. *)
Theorem C2_no_accessible_lane_is_forbidden :
  forall (w : World) (fuel : nat) (context : ConsumerContext)
         (executionContext : ExecutionContext),
    _createExecutionContextFromConsumerContext w context = Returned executionContext ->
    (forall correlationId' keys,
        _getProcessModelKeysForCorrelation w fuel executionContext correlationId'
        = Returned keys ->
        (forall processModelKey, In processModelKey keys ->
           _getIdsOfLanesThatCanBeAccessed w executionContext processModelKey
           = Returned []) ->
        getUserTasksForCorrelation w fuel context correlationId'
        = Thrown (mkError ForbiddenError
                          ("Access to correlation '" ++ correlationId' ++ "' not allowed")))
    /\ (forall processModelKey,
           _getIdsOfLanesThatCanBeAccessed w executionContext processModelKey
           = Returned [] ->
           getUserTasksForProcessModel w context processModelKey
           = Thrown (mkError ForbiddenError
                             ("Access to Process Model '" ++ processModelKey
                              ++ "' not allowed")))
    /\ (forall processModelKey correlationId',
           _processModelBelongsToCorrelation w fuel executionContext correlationId'
                                             processModelKey = Returned true ->
           _getIdsOfLanesThatCanBeAccessed w executionContext processModelKey
           = Returned [] ->
           getUserTasksForProcessModelInCorrelation w fuel context processModelKey
                                                    correlationId'
           = Thrown (mkError ForbiddenError
                             ("Access to Process Model '" ++ processModelKey
                              ++ "' not allowed"))).
Proof.
  intros w fuel context executionContext Hctx.
  split; [|split].
  - intros correlationId' keys Hkeys Hnone.
    unfold getUserTasksForCorrelation. rewrite Hctx. simpl.
    rewrite Hkeys. simpl. rewrite (no_lane_in_any_model w executionContext keys Hnone).
    reflexivity.
  - intros processModelKey Hnone.
    unfold getUserTasksForProcessModel, _getAccessibleUserTasksForProcessModel.
    rewrite Hctx. simpl. rewrite Hnone. reflexivity.
  - intros processModelKey correlationId' Hbelongs Hnone.
    unfold getUserTasksForProcessModelInCorrelation.
    rewrite Hctx. simpl. rewrite Hbelongs. simpl. rewrite Hnone. reflexivity.
Qed.

(** The sample correlation exists and so do its three models, but the
    identity holds none of their claims. *)
Lemma C2_witness :
  getUserTasksForCorrelation strangerWorld 6 aliceContext "corr_1"
  = Thrown (mkError ForbiddenError "Access to correlation 'corr_1' not allowed")
  /\ getUserTasksForProcessModel strangerWorld aliceContext "sub_model"
     = Thrown (mkError ForbiddenError "Access to Process Model 'sub_model' not allowed")
  /\ getUserTasksForProcessModelInCorrelation strangerWorld 6 aliceContext
                                              "sub_model" "corr_1"
     = Thrown (mkError ForbiddenError "Access to Process Model 'sub_model' not allowed").
Proof.
  pose proof (C2_no_accessible_lane_is_forbidden strangerWorld 6 aliceContext
                                                 sampleContext eq_refl)
    as (Hcorrelation & Hmodel & Hboth).
  split; [|split].
  - apply (Hcorrelation "corr_1" ["main_model"; "sub_model"; "nested_model"] eq_refl).
    intros k [<-|[<-|[<-|[]]]]; reflexivity.
  - apply (Hmodel "sub_model"). reflexivity.
  - apply (Hboth "sub_model" "corr_1"); reflexivity.
Defined.

End Visibility.

(** ** Validation of the finish payload *)

Module Payload.

Import Views.

Lemma carried_payload_is_defined userTaskResult name fields :
  getProperty userTaskResult name = Returned fields ->
  isUndefined userTaskResult = false.
Proof. destruct userTaskResult; simpl; intros H; try reflexivity; discriminate H. Qed.

Lemma malformed_cases fields :
  malformedFormFields fields ->
  isUndefined fields || negb (String.eqb (typeof fields) "object") || isArray fields = true
  \/ fields = JsObject [].
Proof.
  intros [-> | [Htype | [Harr | ->]]].
  - left. reflexivity.
  - left. destruct (String.eqb_spec (typeof fields) "object") as [E|_]; [now elim Htype|].
    simpl. now rewrite orb_true_r.
  - left. rewrite Harr. now rewrite orb_true_r.
  - right. reflexivity.
Qed.

(** The service rejects each malformed shape with a [BadRequestError]. *)
Lemma service_rejects_malformed userTaskResult fields :
  carries userTaskResult "formFields" fields ->
  malformedFormFields fields ->
  exists msg,
    PersistenceService._getUserTaskResultFromUserTaskConfig userTaskResult
    = Thrown (mkError BadRequestError msg).
Proof.
  unfold PersistenceService._getUserTaskResultFromUserTaskConfig.
  intros [[-> ->] | Hget] Hbad.
  - eexists. reflexivity.
  - rewrite (carried_payload_is_defined _ _ _ Hget), Hget. simpl.
    destruct (malformed_cases fields Hbad) as [-> | ->]; eexists; reflexivity.
Qed.

(** So does the adapter, whose field is [form_fields]. *)
Lemma adapter_rejects_malformed userTaskResult fields :
  carries userTaskResult "form_fields" fields ->
  malformedFormFields fields ->
  exists msg,
    Adapter._getUserTaskResultFromUserTaskConfig userTaskResult
    = Thrown (mkError BadRequestError msg).
Proof.
  unfold Adapter._getUserTaskResultFromUserTaskConfig.
  intros [[-> ->] | Hget] Hbad.
  - eexists. reflexivity.
  - rewrite (carried_payload_is_defined _ _ _ Hget), Hget. simpl.
    destruct (malformed_cases fields Hbad) as [-> | ->]; eexists; reflexivity.
Qed.

(** C10: form fields that are exactly [null] pass the not-an-object
    test and make [Object.keys] throw a [TypeError], in the service and in
    the adapter alike; a [finishUserTask] of the service that has found its
    task then fails with that [TypeError], which is none of the documented
    error kinds, and touches the event aggregator no more than a rejected
    call does. *)
Theorem C10_null_form_fields_end_in_a_TypeError :
  forall (userTaskResult : JsValue),
    getProperty userTaskResult "formFields" = Returned JsNull ->
    PersistenceService._getUserTaskResultFromUserTaskConfig userTaskResult
    = Thrown (mkError TypeError "Cannot convert undefined or null to object")
    /\ (forall (w : PersistenceService.World) (eventAggregator : EventAggregator)
               (context : PersistenceService.ConsumerContext)
               (processModelId' correlationId' userTaskId : string)
               executionContext taskList userTask,
           PersistenceService._createExecutionContextFromConsumerContext w context
           = Returned executionContext ->
           PersistenceService.getUserTasksForProcessModelInCorrelation
             w context processModelId' correlationId' = Returned taskList ->
           find_first (fun task => String.eqb (PersistenceService.key task) userTaskId)
                      (PersistenceService.userTasks taskList) = Some userTask ->
           PersistenceService.finishUserTask w eventAggregator context processModelId'
                                             correlationId' userTaskId userTaskResult
           = (Thrown (mkError TypeError "Cannot convert undefined or null to object"),
              eventAggregator))
    /\ ~ In TypeError documentedErrors
    /\ (forall adapterResult,
           getProperty adapterResult "form_fields" = Returned JsNull ->
           Adapter._getUserTaskResultFromUserTaskConfig adapterResult
           = Thrown (mkError TypeError "Cannot convert undefined or null to object")).
Proof.
  intros userTaskResult Hget.
  assert (Hvalidation :
            PersistenceService._getUserTaskResultFromUserTaskConfig userTaskResult
            = Thrown (mkError TypeError "Cannot convert undefined or null to object")).
  { unfold PersistenceService._getUserTaskResultFromUserTaskConfig.
    rewrite (carried_payload_is_defined _ _ _ Hget), Hget. reflexivity. }
  split; [exact Hvalidation|]. split; [|split].
  - intros w eventAggregator context processModelId' correlationId' userTaskId
           executionContext taskList userTask Hctx Hlist Hfind.
    unfold PersistenceService.finishUserTask, PersistenceService.finishUserTaskChecks.
    rewrite Hctx. simpl. rewrite Hlist. simpl. rewrite Hfind, Hvalidation. reflexivity.
  - unfold documentedErrors. simpl. intros [H|[H|[H|[H|[H|[]]]]]]; discriminate H.
  - intros adapterResult Hadapter.
    unfold Adapter._getUserTaskResultFromUserTaskConfig.
    rewrite (carried_payload_is_defined _ _ _ Hadapter), Hadapter. reflexivity.
Qed.

Lemma C10_witness :
  PersistenceService._getUserTaskResultFromUserTaskConfig
    (JsObject [("formFields", JsNull)])
  = Thrown (mkError TypeError "Cannot convert undefined or null to object")
  /\ PersistenceService.finishUserTask ServiceSamples.serviceWorld []
       ServiceSamples.bobContext "main_model" "corr_1" "Task_N"
       (JsObject [("formFields", JsNull)])
     = (Thrown (mkError TypeError "Cannot convert undefined or null to object"), []).
Proof.
  pose proof (C10_null_form_fields_end_in_a_TypeError
                (JsObject [("formFields", JsNull)]) eq_refl)
    as (Hvalidation & Hfinish & _).
  split; [exact Hvalidation|].
  apply (Hfinish ServiceSamples.serviceWorld [] ServiceSamples.bobContext
                 "main_model" "corr_1" "Task_N"
                 (PersistenceService.mkExecutionContext "bob")
                 (PersistenceService.mkUserTaskList [ServiceSamples.waitingUserTask])
                 ServiceSamples.waitingUserTask); reflexivity.
Defined.

End Payload.

(** ** The finish-task rendezvous *)

Module Rendezvous.

Import Views ServiceSamples.

(** What a call of the service's [finishUserTask] amounts to. *)
Lemma service_finish_cases (w : PersistenceService.World) eventAggregator context
      processModelId' correlationId' userTaskId userTaskResult :
  (exists userTask resultForProcessEngine,
      PersistenceService.finishUserTaskChecks w context processModelId' correlationId'
                                              userTaskId userTaskResult
      = Returned (userTask, resultForProcessEngine)
      /\ PersistenceService.finishUserTask w eventAggregator context processModelId'
                                           correlationId' userTaskId userTaskResult
         = (Returned tt,
            eventAggregator
              ++ [SubscribeOnce
                    (PersistenceService.finishedChannel (PersistenceService.id userTask));
                  Publish
                    (PersistenceService.finishChannel (PersistenceService.id userTask))
                    (PersistenceService.finishMessage resultForProcessEngine)]))
  \/ (exists outcome,
         (forall u, outcome <> Returned u)
         /\ PersistenceService.finishUserTask w eventAggregator context processModelId'
                                              correlationId' userTaskId userTaskResult
            = (outcome, eventAggregator)).
Proof.
  unfold PersistenceService.finishUserTask.
  destruct (PersistenceService.finishUserTaskChecks w context processModelId'
              correlationId' userTaskId userTaskResult) as [[userTask result]|error|].
  - left. exists userTask, result. split; [reflexivity|].
    unfold publish, subscribeOnce. now rewrite <- app_assoc.
  - right. exists (Thrown error). split; [discriminate | reflexivity].
  - right. exists OutOfFuel. split; [discriminate | reflexivity].
Qed.

(** What a call of the adapter's [finishUserTask] amounts to. *)
Lemma adapter_finish_cases (w : Adapter.World) fuel eventAggregator context
      processModelKey correlationId' userTaskId userTaskResult :
  (exists executionContext userTask,
      Adapter.finishUserTaskChecks w fuel context processModelKey correlationId'
                                   userTaskId userTaskResult
      = Returned (executionContext, userTask)
      /\ Adapter.finishUserTask w fuel eventAggregator context processModelKey
                                correlationId' userTaskId userTaskResult
         = (Returned tt,
            eventAggregator
              ++ [Subscribe (Adapter.nodeChannel (Adapter.id userTask));
                  Publish (Adapter.nodeChannel (Adapter.id userTask))
                          (Adapter.proceedMessage executionContext userTaskResult)]))
  \/ (exists outcome,
         (forall u, outcome <> Returned u)
         /\ Adapter.finishUserTask w fuel eventAggregator context processModelKey
                                   correlationId' userTaskId userTaskResult
            = (outcome, eventAggregator)).
Proof.
  unfold Adapter.finishUserTask.
  destruct (Adapter.finishUserTaskChecks w fuel context processModelKey correlationId'
              userTaskId userTaskResult) as [[executionContext userTask]|error|].
  - left. exists executionContext, userTask. split; [reflexivity|].
    unfold publish, subscribe. now rewrite <- app_assoc.
  - right. exists (Thrown error). split; [discriminate | reflexivity].
  - right. exists OutOfFuel. split; [discriminate | reflexivity].
Qed.

(** A subscription followed by one publish: the publish comes second. *)
Lemma subscription_then_publish subscription target message completion :
  subscribedChannels [subscription] = [completion] ->
  subscribedBeforePublish [subscription; Publish target message] completion.
Proof.
  intros Hsub before channel msg after Heq.
  destruct before as [|c0 before]; simpl in Heq.
  - injection Heq as E _. subst subscription. discriminate Hsub.
  - injection Heq as <- Heq.
    destruct before as [|c1 before]; simpl in Heq.
    + change (In completion (subscribedChannels [subscription])).
      rewrite Hsub. now left.
    + injection Heq as _ Heq. destruct before; discriminate Heq.
Qed.

Lemma subscription_stays (ea : EventAggregator) subscription completion target message :
  subscribedChannels [subscription] = [completion] ->
  In completion (subscribedChannels (ea ++ [subscription; Publish target message])).
Proof.
  intros Hsub. induction ea as [|c ea IH].
  - destruct subscription; simpl in *; try discriminate Hsub;
      injection Hsub as ->; now left.
  - destruct c; simpl; auto.
Qed.

(** What a call of [finishUserTask] of the first listing amounts to. *)
Lemma first_listing_finish_cases (w : Adapter.World) accessor eventAggregator context
      processModelId' correlationId' userTaskId userTaskResult :
  (exists executionContext taskList userTask fields,
      Adapter._createExecutionContextFromConsumerContext w context
      = Returned executionContext
      /\ accessor context processModelId' correlationId' = Returned taskList
      /\ find_first (fun task => String.eqb (Adapter.key task) userTaskId)
                    (Adapter.user_tasks taskList) = Some userTask
      /\ Adapter._getUserTaskResultFromUserTaskConfig userTaskResult = Returned fields
      /\ FirstListing.finishUserTask w accessor eventAggregator context processModelId'
                                     correlationId' userTaskId userTaskResult
         = (Returned tt,
            eventAggregator
              ++ [Subscribe (Adapter.nodeChannel (Adapter.id userTask));
                  Publish (Adapter.nodeChannel (Adapter.id userTask))
                          (FirstListing.proceedMessage executionContext fields)]))
  \/ (exists outcome,
         (forall u, outcome <> Returned u)
         /\ FirstListing.finishUserTask w accessor eventAggregator context
                                        processModelId' correlationId' userTaskId
                                        userTaskResult
            = (outcome, eventAggregator)).
Proof.
  unfold FirstListing.finishUserTask.
  destruct (Adapter._createExecutionContextFromConsumerContext w context)
    as [executionContext|error|];
    [|right; exists (Thrown error); split; [discriminate | reflexivity]
     |right; exists OutOfFuel; split; [discriminate | reflexivity]].
  destruct (accessor context processModelId' correlationId') as [taskList|error|];
    [|right; exists (Thrown error); split; [discriminate | reflexivity]
     |right; exists OutOfFuel; split; [discriminate | reflexivity]].
  destruct (find_first _ (Adapter.user_tasks taskList)) as [userTask|] eqn:Hfind;
    [|right; eexists; split; [|reflexivity]; discriminate].
  destruct (Adapter._getUserTaskResultFromUserTaskConfig userTaskResult)
    as [fields|error|];
    [|right; exists (Thrown error); split; [discriminate | reflexivity]
     |right; exists OutOfFuel; split; [discriminate | reflexivity]].
  left. exists executionContext, taskList, userTask, fields.
  repeat (split; [reflexivity || exact Hfind|]).
  unfold publish, subscribe. now rewrite <- app_assoc.
Qed.

(** C8: a run of [finishUserTask] that passes its checks (the execution
    context is resolved, the task is found by its key among the visible
    tasks of the process model in the correlation, the payload passes the
    validation) hands out its pending promise after exactly two calls on
    the event aggregator, the subscription on the completion channel of the
    task first and the publish of the message second; the subscription is
    in place when the publish is made and afterwards.  No run hands out its
    promise in another way.  This holds for the service ([subscribeOnce] on
    [.../finished], [publish] on [.../finish]), for the adapter of the
    second listing and for the adapter of the first listing ([subscribe]
    and [publish] on the node channel). *)
Theorem C8_subscription_precedes_publish :
  (forall (w : PersistenceService.World) (eventAggregator : EventAggregator)
          (context : PersistenceService.ConsumerContext)
          (processModelId' correlationId' userTaskId : string)
          (userTaskResult : JsValue),
      let run :=
        PersistenceService.finishUserTask w eventAggregator context processModelId'
                                          correlationId' userTaskId userTaskResult in
      (forall executionContext taskList userTask fields,
          PersistenceService._createExecutionContextFromConsumerContext w context
          = Returned executionContext ->
          PersistenceService.getUserTasksForProcessModelInCorrelation
            w context processModelId' correlationId' = Returned taskList ->
          find_first (fun task => String.eqb (PersistenceService.key task) userTaskId)
                     (PersistenceService.userTasks taskList) = Some userTask ->
          PersistenceService._getUserTaskResultFromUserTaskConfig userTaskResult
          = Returned fields ->
          let completion :=
            PersistenceService.finishedChannel (PersistenceService.id userTask) in
          let calls :=
            [SubscribeOnce completion;
             Publish (PersistenceService.finishChannel (PersistenceService.id userTask))
                     (PersistenceService.finishMessage fields)] in
          run = (Returned tt, eventAggregator ++ calls)
          /\ subscribedBeforePublish calls completion
          /\ In completion (subscribedChannels (eventAggregator ++ calls)))
      /\ (fst run = Returned tt ->
          exists userTask resultForProcessEngine calls,
            let completion :=
              PersistenceService.finishedChannel (PersistenceService.id userTask) in
            PersistenceService.finishUserTaskChecks w context processModelId'
                                                    correlationId' userTaskId
                                                    userTaskResult
            = Returned (userTask, resultForProcessEngine)
            /\ snd run = eventAggregator ++ calls
            /\ calls = [SubscribeOnce completion;
                        Publish
                          (PersistenceService.finishChannel
                             (PersistenceService.id userTask))
                          (PersistenceService.finishMessage resultForProcessEngine)]
            /\ subscribedBeforePublish calls completion
            /\ In completion (subscribedChannels (eventAggregator ++ calls))))
  /\ (forall (w : Adapter.World) (fuel : nat) (eventAggregator : EventAggregator)
             (context : Adapter.ConsumerContext)
             (processModelKey correlationId' userTaskId : string)
             (userTaskResult : JsValue),
         let run :=
           Adapter.finishUserTask w fuel eventAggregator context processModelKey
                                  correlationId' userTaskId userTaskResult in
         (forall executionContext taskList userTask fields,
             Adapter._createExecutionContextFromConsumerContext w context
             = Returned executionContext ->
             Adapter.getUserTasksForProcessModelInCorrelation
               w fuel context processModelKey correlationId' = Returned taskList ->
             find_first (fun task => String.eqb (Adapter.key task) userTaskId)
                        (Adapter.user_tasks taskList) = Some userTask ->
             Adapter._getUserTaskResultFromUserTaskConfig userTaskResult
             = Returned fields ->
             let completion := Adapter.nodeChannel (Adapter.id userTask) in
             let calls :=
               [Subscribe completion;
                Publish completion
                        (Adapter.proceedMessage executionContext userTaskResult)] in
             run = (Returned tt, eventAggregator ++ calls)
             /\ subscribedBeforePublish calls completion
             /\ In completion (subscribedChannels (eventAggregator ++ calls)))
         /\ (fst run = Returned tt ->
             exists executionContext userTask calls,
               let completion := Adapter.nodeChannel (Adapter.id userTask) in
               Adapter.finishUserTaskChecks w fuel context processModelKey
                                            correlationId' userTaskId userTaskResult
               = Returned (executionContext, userTask)
               /\ snd run = eventAggregator ++ calls
               /\ calls = [Subscribe completion;
                           Publish completion
                                   (Adapter.proceedMessage executionContext
                                                           userTaskResult)]
               /\ subscribedBeforePublish calls completion
               /\ In completion (subscribedChannels (eventAggregator ++ calls))))
  /\ (forall (w : Adapter.World)
             (userTasksForProcessModelInCorrelation :
                Adapter.ConsumerContext -> string -> string
                -> Outcome Adapter.UserTaskList)
             (eventAggregator : EventAggregator) (context : Adapter.ConsumerContext)
             (processModelId' correlationId' userTaskId : string)
             (userTaskResult : JsValue),
         let run :=
           FirstListing.finishUserTask w userTasksForProcessModelInCorrelation
                                       eventAggregator context processModelId'
                                       correlationId' userTaskId userTaskResult in
         (forall executionContext taskList userTask fields,
             Adapter._createExecutionContextFromConsumerContext w context
             = Returned executionContext ->
             userTasksForProcessModelInCorrelation context processModelId'
                                                   correlationId'
             = Returned taskList ->
             find_first (fun task => String.eqb (Adapter.key task) userTaskId)
                        (Adapter.user_tasks taskList) = Some userTask ->
             Adapter._getUserTaskResultFromUserTaskConfig userTaskResult
             = Returned fields ->
             let completion := Adapter.nodeChannel (Adapter.id userTask) in
             let calls :=
               [Subscribe completion;
                Publish completion
                        (FirstListing.proceedMessage executionContext fields)] in
             run = (Returned tt, eventAggregator ++ calls)
             /\ subscribedBeforePublish calls completion
             /\ In completion (subscribedChannels (eventAggregator ++ calls)))
         /\ (fst run = Returned tt ->
             exists executionContext userTask fields calls,
               let completion := Adapter.nodeChannel (Adapter.id userTask) in
               Adapter._getUserTaskResultFromUserTaskConfig userTaskResult
               = Returned fields
               /\ snd run = eventAggregator ++ calls
               /\ calls = [Subscribe completion;
                           Publish completion
                                   (FirstListing.proceedMessage executionContext
                                                                fields)]
               /\ subscribedBeforePublish calls completion
               /\ In completion (subscribedChannels (eventAggregator ++ calls)))).
Proof.
  split; [|split].
  - intros w eventAggregator context processModelId' correlationId' userTaskId
           userTaskResult run.
    split.
    + intros executionContext taskList userTask fields Hctx Hlist Hfind Hvalid
             completion calls.
      split; [|split].
      * unfold run, PersistenceService.finishUserTask,
          PersistenceService.finishUserTaskChecks.
        rewrite Hctx. cbn [bind]. rewrite Hlist. cbn [bind].
        rewrite Hfind, Hvalid. cbn [bind].
        unfold publish, subscribeOnce. now rewrite <- app_assoc.
      * now apply subscription_then_publish.
      * now apply subscription_stays.
    + intros Hok. unfold run in *.
      destruct (service_finish_cases w eventAggregator context processModelId'
                  correlationId' userTaskId userTaskResult)
        as [(userTask & result & Hchecks & Hrun) | (outcome & Hfail & Hrun)].
      * exists userTask, result. eexists. cbv zeta.
        split; [exact Hchecks|]. rewrite Hrun. simpl.
        split; [reflexivity|]. split; [reflexivity|].
        split; [now apply subscription_then_publish | now apply subscription_stays].
      * rewrite Hrun in Hok. simpl in Hok. now elim (Hfail tt).
  - intros w fuel eventAggregator context processModelKey correlationId' userTaskId
           userTaskResult run.
    split.
    + intros executionContext taskList userTask fields Hctx Hlist Hfind Hvalid
             completion calls.
      split; [|split].
      * unfold run, Adapter.finishUserTask, Adapter.finishUserTaskChecks.
        rewrite Hctx. cbn [bind]. rewrite Hlist. cbn [bind].
        rewrite Hfind, Hvalid. cbn [bind].
        unfold publish, subscribe. now rewrite <- app_assoc.
      * now apply subscription_then_publish.
      * now apply subscription_stays.
    + intros Hok. unfold run in *.
      destruct (adapter_finish_cases w fuel eventAggregator context processModelKey
                  correlationId' userTaskId userTaskResult)
        as [(executionContext & userTask & Hchecks & Hrun) | (outcome & Hfail & Hrun)].
      * exists executionContext, userTask. eexists. cbv zeta.
        split; [exact Hchecks|]. rewrite Hrun. simpl.
        split; [reflexivity|]. split; [reflexivity|].
        split; [now apply subscription_then_publish | now apply subscription_stays].
      * rewrite Hrun in Hok. simpl in Hok. now elim (Hfail tt).
  - intros w accessor eventAggregator context processModelId' correlationId'
           userTaskId userTaskResult run.
    split.
    + intros executionContext taskList userTask fields Hctx Hlist Hfind Hvalid
             completion calls.
      split; [|split].
      * unfold run, FirstListing.finishUserTask.
        rewrite Hctx, Hlist, Hfind, Hvalid.
        unfold publish, subscribe. now rewrite <- app_assoc.
      * now apply subscription_then_publish.
      * now apply subscription_stays.
    + intros Hok. unfold run in *.
      destruct (first_listing_finish_cases w accessor eventAggregator context
                  processModelId' correlationId' userTaskId userTaskResult)
        as [(executionContext & taskList & userTask & fields & _ & _ & _ & Hvalid
             & Hrun)
           | (outcome & Hfail & Hrun)].
      * exists executionContext, userTask, fields. eexists. cbv zeta.
        split; [exact Hvalid|]. rewrite Hrun. simpl.
        split; [reflexivity|]. split; [reflexivity|].
        split; [now apply subscription_then_publish | now apply subscription_stays].
      * rewrite Hrun in Hok. simpl in Hok. now elim (Hfail tt).
Qed.

(** The three finish calls on the sample data, with what they leave on
    an event aggregator that was empty. *)
Lemma C8_witness :
  (PersistenceService.finishUserTask
     serviceWorld [] bobContext "main_model" "corr_1" "Task_N"
     (JsObject [("formFields", JsObject [("name", JsString "Bob")])])
   = (Returned tt,
      [SubscribeOnce "/processengine/node/Task_N/finished";
       Publish "/processengine/node/Task_N/finish"
               (JsObject
                  [("data",
                    JsObject [("token", JsObject [("name", JsString "Bob")])])])])
   /\ subscribedBeforePublish
        [SubscribeOnce "/processengine/node/Task_N/finished";
         Publish "/processengine/node/Task_N/finish"
                 (JsObject
                    [("data",
                      JsObject [("token", JsObject [("name", JsString "Bob")])])])]
        "/processengine/node/Task_N/finished")
  /\ (Adapter.finishUserTask
        Samples.sampleWorld 6 [] Samples.aliceContext "main_model" "corr_1" "Task_N"
        (JsObject [("form_fields", JsObject [("name", JsString "Alice")])])
      = (Returned tt,
         [Subscribe "/processengine/node/ut_1";
          Publish "/processengine/node/ut_1"
                  (JsObject
                     [("data",
                       JsObject
                         [("action", JsString "proceed");
                          ("token",
                           JsObject [("form_fields",
                                      JsObject [("name", JsString "Alice")])])]);
                      ("metadata", JsObject [("context", JsString "alice")])])])
      /\ subscribedBeforePublish
           [Subscribe "/processengine/node/ut_1";
            Publish "/processengine/node/ut_1"
                    (JsObject
                       [("data",
                         JsObject
                           [("action", JsString "proceed");
                            ("token",
                             JsObject [("form_fields",
                                        JsObject [("name", JsString "Alice")])])]);
                        ("metadata", JsObject [("context", JsString "alice")])])]
           "/processengine/node/ut_1")
  /\ (FirstListing.finishUserTask
        Samples.sampleWorld
        (Adapter.getUserTasksForProcessModelInCorrelation Samples.sampleWorld 6)
        [] Samples.aliceContext "main_model" "corr_1" "Task_N"
        (JsObject [("form_fields", JsObject [("name", JsString "Alice")])])
      = (Returned tt,
         [Subscribe "/processengine/node/ut_1";
          Publish "/processengine/node/ut_1"
                  (JsObject
                     [("data",
                       JsObject [("action", JsString "proceed");
                                 ("token", JsObject [("name", JsString "Alice")])]);
                      ("metadata", JsObject [("context", JsString "alice")])])])
      /\ subscribedBeforePublish
           [Subscribe "/processengine/node/ut_1";
            Publish "/processengine/node/ut_1"
                    (JsObject
                       [("data",
                         JsObject [("action", JsString "proceed");
                                   ("token", JsObject [("name", JsString "Alice")])]);
                        ("metadata", JsObject [("context", JsString "alice")])])]
           "/processengine/node/ut_1").
Proof.
  split; [|split].
  - destruct (proj1 (proj1 C8_subscription_precedes_publish
                           serviceWorld [] bobContext "main_model" "corr_1" "Task_N"
                           (JsObject [("formFields",
                                       JsObject [("name", JsString "Bob")])]))
                    (PersistenceService.mkExecutionContext "bob")
                    (PersistenceService.mkUserTaskList [waitingUserTask])
                    waitingUserTask (JsObject [("name", JsString "Bob")])
                    eq_refl eq_refl eq_refl eq_refl)
      as (Hrun & Hbefore & _).
    split; [exact Hrun | exact Hbefore].
  - destruct (proj1 (proj1 (proj2 C8_subscription_precedes_publish)
                           Samples.sampleWorld 6 [] Samples.aliceContext "main_model"
                           "corr_1" "Task_N"
                           (JsObject [("form_fields",
                                       JsObject [("name", JsString "Alice")])]))
                    (Adapter.mkExecutionContext "alice") _ _
                    (JsObject [("name", JsString "Alice")])
                    eq_refl eq_refl eq_refl eq_refl)
      as (Hrun & Hbefore & _).
    split; [exact Hrun | exact Hbefore].
  - destruct (proj1 (proj2 (proj2 C8_subscription_precedes_publish)
                           Samples.sampleWorld
                           (Adapter.getUserTasksForProcessModelInCorrelation
                              Samples.sampleWorld 6)
                           [] Samples.aliceContext "main_model" "corr_1" "Task_N"
                           (JsObject [("form_fields",
                                       JsObject [("name", JsString "Alice")])]))
                    (Adapter.mkExecutionContext "alice") _ _
                    (JsObject [("name", JsString "Alice")])
                    eq_refl eq_refl eq_refl eq_refl)
      as (Hrun & Hbefore & _).
    split; [exact Hrun | exact Hbefore].
Defined.

(** C7: a finish call that has found its task, among the visible tasks
    of the process model in the correlation, and submits form fields that
    are undefined, not of type object, an array or an object without keys
    fails with a [BadRequestError]; in each of the four cases, and whether
    the task is found or not, the call does not succeed and leaves the
    event aggregator as it was, nothing published and nothing subscribed. *)
Theorem C7_malformed_form_fields_are_rejected_before_any_publish :
  forall (w : PersistenceService.World) (eventAggregator : EventAggregator)
         (context : PersistenceService.ConsumerContext)
         (processModelId' correlationId' userTaskId : string)
         (userTaskResult fields : JsValue),
    carries userTaskResult "formFields" fields ->
    malformedFormFields fields ->
    (forall executionContext taskList userTask,
        PersistenceService._createExecutionContextFromConsumerContext w context
        = Returned executionContext ->
        PersistenceService.getUserTasksForProcessModelInCorrelation
          w context processModelId' correlationId' = Returned taskList ->
        find_first (fun task => String.eqb (PersistenceService.key task) userTaskId)
                   (PersistenceService.userTasks taskList) = Some userTask ->
        exists msg,
          PersistenceService.finishUserTask w eventAggregator context processModelId'
                                            correlationId' userTaskId userTaskResult
          = (Thrown (mkError BadRequestError msg), eventAggregator))
    /\ (exists outcome,
           (forall u, outcome <> Returned u)
           /\ PersistenceService.finishUserTask w eventAggregator context processModelId'
                                                correlationId' userTaskId userTaskResult
              = (outcome, eventAggregator)).
Proof.
  intros w eventAggregator context processModelId' correlationId' userTaskId
         userTaskResult fields Hcarries Hbad.
  destruct (Payload.service_rejects_malformed userTaskResult fields Hcarries Hbad)
    as (msg & Hvalidation).
  split.
  - intros executionContext taskList userTask Hctx Hlist Hfind. exists msg.
    unfold PersistenceService.finishUserTask, PersistenceService.finishUserTaskChecks.
    rewrite Hctx. simpl. rewrite Hlist. simpl. rewrite Hfind, Hvalidation. reflexivity.
  - destruct (service_finish_cases w eventAggregator context processModelId'
                correlationId' userTaskId userTaskResult)
      as [(userTask & result & Hchecks & _) | Hfail]; [|exact Hfail].
    exfalso. unfold PersistenceService.finishUserTaskChecks in Hchecks.
    destruct (PersistenceService._createExecutionContextFromConsumerContext w context);
      simpl in Hchecks; try discriminate Hchecks.
    destruct (PersistenceService.getUserTasksForProcessModelInCorrelation
                w context processModelId' correlationId');
      simpl in Hchecks; try discriminate Hchecks.
    destruct (find_first _ _); [|discriminate Hchecks].
    rewrite Hvalidation in Hchecks. discriminate Hchecks.
Qed.

Lemma C7_witness :
  (exists msg,
      PersistenceService.finishUserTask serviceWorld [] bobContext "main_model" "corr_1"
                                        "Task_N" (JsObject [("formFields", JsArray [])])
      = (Thrown (mkError BadRequestError msg), []))
  /\ (exists outcome,
         (forall u, outcome <> Returned u)
         /\ PersistenceService.finishUserTask serviceWorld [] bobContext "main_model"
                                              "corr_1" "Task_N"
                                              (JsObject [("formFields", JsArray [])])
            = (outcome, [])).
Proof.
  pose proof (C7_malformed_form_fields_are_rejected_before_any_publish
                serviceWorld [] bobContext "main_model" "corr_1" "Task_N"
                (JsObject [("formFields", JsArray [])]) (JsArray [])
                (or_intror eq_refl) (or_intror (or_intror (or_introl eq_refl))))
    as (Hfound & Hnever).
  split; [|exact Hnever].
  apply (Hfound (PersistenceService.mkExecutionContext "bob")
                (PersistenceService.mkUserTaskList [waitingUserTask]) waitingUserTask);
    reflexivity.
Defined.

End Rendezvous.

(** ** The result of a correlation *)

Module Results.

Import Views ServiceSamples PersistenceService.

Lemma isEndEvent_spec processModel flowNodeInstance :
  existsb (fun endEvent => String.eqb (node_id endEvent) (flowNodeId flowNodeInstance))
          (getEndEvents processModel) = true
  <-> isEndEventOf processModel flowNodeInstance.
Proof.
  unfold isEndEventOf, getEndEvents. rewrite existsb_exists. split.
  - intros (e & He & Hid). apply filter_In in He. destruct He as [He Hkind].
    apply String.eqb_eq in Hid. exists e. repeat split; auto.
    destruct (node_kind e); try discriminate Hkind. reflexivity.
  - intros (e & He & Hkind & Hid). exists e. split.
    + apply filter_In. split; [exact He|]. now rewrite Hkind.
    + now apply String.eqb_eq.
Qed.

Lemma merge_as_fold (instances : list FlowNodeInstance) :
  forall result,
    fold_left (fun result endEventInstance =>
                 objectAssign result (payload (token endEventInstance)))
              instances result
    = fold_left objectAssign (map (fun i => payload (token i)) instances) result.
Proof. induction instances as [|i rest IH]; intros result; simpl; auto. Qed.

Lemma listing_as_map (instances : list FlowNodeInstance) :
  forall results,
    fold_left (fun results endEventInstance =>
                 results ++ [FacadeService.toCorrelationResult endEventInstance])
              instances results
    = results ++ map FacadeService.toCorrelationResult instances.
Proof.
  induction instances as [|i rest IH]; intros results; simpl.
  - now rewrite app_nil_r.
  - rewrite IH. now rewrite <- app_assoc.
Qed.

(** C9: the result of a correlation is built from the instances of the
    correlation that sit on an end event of the requested process model,
    whose token names that model and has no caller, and from nothing else:
    the service over the persistence layer merges their token payloads in
    order, the service over the facade lists them in order (for it an empty
    caller counts as no caller). *)
Theorem C9_result_is_built_from_callerless_end_events :
  (forall (w : World) (context : ConsumerContext) (correlationId' processModelId' : string)
          (processModel : Process),
      getProcessModelById w processModelId' = Returned processModel ->
      exists contributing,
        getProcessResultForCorrelation w context correlationId' processModelId'
        = Returned (mergedPayloads contributing)
        /\ contributing
           = filter (isResultOfCorrelation (getEndEvents processModel) processModelId')
                    (queryByCorrelation w correlationId')
        /\ forall i,
             In i contributing <->
             In i (queryByCorrelation w correlationId')
             /\ isEndEventOf processModel i
             /\ caller (token i) = None
             /\ processModelId (token i) = processModelId')
  /\ (forall (w : FacadeService.World) (context : ConsumerContext)
             (correlationId' processModelId' : string) (processModel : Process),
         FacadeService.getProcessModelById w (FacadeService.mkFacade (identity context))
                                           processModelId'
         = Returned processModel ->
         FacadeService.queryByCorrelation w (FacadeService.mkFacade (identity context))
                                          correlationId' <> [] ->
         exists contributing,
           FacadeService.getProcessResultForCorrelation w context correlationId'
                                                        processModelId'
           = Returned (map FacadeService.toCorrelationResult contributing)
           /\ contributing
              = filter (FacadeService.isResultOfCorrelation (getEndEvents processModel)
                                                            processModelId')
                       (FacadeService.queryByCorrelation
                          w (FacadeService.mkFacade (identity context)) correlationId')
           /\ forall i,
                In i contributing <->
                In i (FacadeService.queryByCorrelation
                        w (FacadeService.mkFacade (identity context)) correlationId')
                /\ isEndEventOf processModel i
                /\ (caller (token i) = None \/ caller (token i) = Some "")
                /\ processModelId (token i) = processModelId').
Proof.
  split.
  - intros w context correlationId' processModelId' processModel Hmodel.
    eexists. split; [|split; [reflexivity|]].
    + unfold getProcessResultForCorrelation. rewrite Hmodel. simpl.
      rewrite merge_as_fold. reflexivity.
    + intros i. rewrite filter_In. unfold isResultOfCorrelation.
      rewrite !andb_true_iff, isEndEvent_spec, String.eqb_eq.
      destruct (caller (token i)); intuition congruence.
  - intros w context correlationId' processModelId' processModel Hmodel Hsome.
    eexists. split; [|split; [reflexivity|]].
    + unfold FacadeService.getProcessResultForCorrelation. simpl. rewrite Hmodel. simpl.
      destruct (FacadeService.queryByCorrelation w _ correlationId') as [|i0 rest];
        [now elim Hsome|].
      cbn [List.length Nat.eqb]. rewrite listing_as_map. reflexivity.
    + intros i. rewrite filter_In. unfold FacadeService.isResultOfCorrelation.
      rewrite !andb_true_iff, isEndEvent_spec, String.eqb_eq.
      unfold FacadeService.callerIsFalsy.
      destruct (caller (token i)) as [c|].
      * rewrite String.eqb_eq. intuition congruence.
      * intuition congruence.
Qed.

(** Of the three end-event instances of the sample correlation the one
    with a caller is left out; the payloads of the other two are merged,
    respectively listed. *)
Lemma C9_witness :
  getProcessResultForCorrelation serviceWorld bobContext "corr_1" "main_model"
  = Returned (JsObject [("a", JsNumber 1); ("c", JsNumber 3)])
  /\ FacadeService.getProcessResultForCorrelation facadeWorld bobContext "corr_1"
                                                  "main_model"
     = Returned [FacadeService.mkCorrelationResult "corr_1" "End_OK"
                                                   (JsObject [("a", JsNumber 1)]);
                 FacadeService.mkCorrelationResult "corr_1" "End_Err"
                                                   (JsObject [("c", JsNumber 3)])].
Proof.
  split.
  - destruct (proj1 C9_result_is_built_from_callerless_end_events
                    serviceWorld bobContext "corr_1" "main_model" mainModel eq_refl)
      as (contributing & Hresult & -> & _).
    exact Hresult.
  - destruct (proj2 C9_result_is_built_from_callerless_end_events
                    facadeWorld bobContext "corr_1" "main_model" mainModel eq_refl)
      as (contributing & Hresult & -> & _).
    + discriminate.
    + exact Hresult.
Defined.

End Results.

(** ** Further properties of the lane functions *)

Module LaneFacts.

Import Adapter Views Samples LaneTrees Relations.

Lemma subseq_refl {A : Type} (xs : list A) : subseq xs xs.
Proof. induction xs; [apply subseq_nil | now apply subseq_keep]. Qed.

Lemma subseq_nil_l {A : Type} (ys : list A) : subseq [] ys.
Proof. induction ys; [apply subseq_nil | now apply subseq_skip]. Qed.

Lemma subseq_app {A : Type} (xs xs' ys ys' : list A) :
  subseq xs ys -> subseq xs' ys' -> subseq (xs ++ xs') (ys ++ ys').
Proof.
  induction 1 as [|y xs ys _ IH|y xs ys _ IH]; intros H'; simpl.
  - exact H'.
  - apply subseq_skip. now apply IH.
  - apply subseq_keep. now apply IH.
Qed.

Lemma subseq_In {A : Type} (xs ys : list A) :
  subseq xs ys -> forall x, In x xs -> In x ys.
Proof.
  induction 1 as [|y xs ys _ IH|y xs ys _ IH]; intros x Hx; simpl in *; auto.
  destruct Hx as [<-|Hx]; auto.
Qed.

Lemma subseq_map {A B : Type} (f : A -> B) (xs ys : list A) :
  subseq xs ys -> subseq (map f xs) (map f ys).
Proof.
  induction 1; simpl;
    [apply subseq_nil | now apply subseq_skip | now apply subseq_keep].
Qed.

Lemma subseq_NoDup {A : Type} (xs ys : list A) :
  subseq xs ys -> NoDup ys -> NoDup xs.
Proof.
  induction 1 as [|y xs ys _ IH|y xs ys Hs IH]; intros Hnd; auto.
  - inversion Hnd; auto.
  - inversion Hnd as [|? ? Hnotin Hnd']; subst. constructor; auto.
    intros Hin. apply Hnotin. eapply subseq_In; eauto.
Qed.

(** The lanes handed out below one lane set, lane by lane. *)
Lemma accessLoop_cons w identity l rest :
  fst (accessLoop w identity (l :: rest) [] [])
  = (if claimIsInvalid l then []
     else if negb (hasClaim w identity (claimOf l)) then []
     else l :: match childLaneSet l with
               | None => []
               | Some child => fst (lanesThatCanBeAccessedIn w identity child)
               end)
    ++ fst (accessLoop w identity rest [] []).
Proof.
  simpl. destruct (claimIsInvalid l).
  - rewrite LaneAccess.accessLoop_acc. reflexivity.
  - destruct (negb (hasClaim w identity (claimOf l))); [reflexivity|].
    rewrite LaneAccess.accessLoop_acc. simpl.
    destruct (childLaneSet l); simpl; rewrite <- ?app_assoc; reflexivity.
Qed.

Lemma grants_inv w identity s x :
  grants w identity s x <->
  exists l, In l (lanes s) /\ claimIsInvalid l = false
            /\ hasClaim w identity (claimOf l) = true
            /\ (x = l \/ exists c, childLaneSet l = Some c /\ grants w identity c x).
Proof.
  split.
  - intros H. inversion H; subst.
    + exists x. auto.
    + exists l. repeat split; auto. right. eauto.
  - intros (l & Hin & Hv & Hc & [-> | (c & Hchild & Hg)]).
    + now apply grants_lane.
    + eapply grants_nested; eauto.
Qed.

(** X1: the lanes [_getLanesThatCanBeAccessed] hands out are exactly
    the lanes the identity is let into: lanes with a usable name whose claim
    the identity holds, below enclosing lanes of which the same is true. *)
Theorem accessible_lanes_are_the_granted_lanes :
  forall (w : World) (identity : IIdentity) (laneSet : LaneSet) (lane : Lane),
    In lane (fst (_getLanesThatCanBeAccessed w identity (Some laneSet)))
    <-> grants w identity laneSet lane.
Proof.
  intros w identity laneSet. simpl.
  pattern laneSet. apply LaneSet_forest_ind. clear laneSet.
  intros ls Hall lane. rewrite LaneAccess.accessible_as_loop, grants_inv.
  cbn [lanes].
  induction Hall as [|l rest Hl _ IH].
  - simpl. split; [contradiction | intros (l & [] & _)].
  - rewrite accessLoop_cons, in_app_iff, IH. split.
    + intros [Hhere | (l' & Hin & Hrest)].
      * exists l. split; [now left|].
        destruct (claimIsInvalid l); [contradiction|].
        destruct (hasClaim w identity (claimOf l)); [|contradiction].
        simpl in Hhere. repeat split; auto.
        destruct Hhere as [<- | Hsub]; [now left|].
        right. destruct (childLaneSet l) as [c|] eqn:Hc; [|contradiction].
        exists c. split; [reflexivity|]. now apply Hl.
      * exists l'. split; [now right | exact Hrest].
    + intros (l' & [<- | Hin] & Hv & Hc & Hx).
      * left. rewrite Hv, Hc. simpl.
        destruct Hx as [-> | (c & Hchild & Hg)]; [now left|].
        right. rewrite Hchild. now apply Hl.
      * right. exists l'. auto.
Qed.

(** X2: the lanes come out in document order, each at most once: the
    result is the list of all lanes of the tree with some left out, so lane
    ids that are unique in the tree are unique in the result. *)
Theorem accessible_lanes_keep_document_order :
  forall (w : World) (identity : IIdentity) (laneSet : LaneSet),
    subseq (fst (_getLanesThatCanBeAccessed w identity (Some laneSet)))
           (lanesOfTree laneSet)
    /\ (NoDup (map lane_id (lanesOfTree laneSet)) ->
        NoDup (map lane_id (fst (_getLanesThatCanBeAccessed w identity (Some laneSet))))).
Proof.
  intros w identity laneSet.
  assert (Hsub : subseq (fst (lanesThatCanBeAccessedIn w identity laneSet))
                        (lanesOfTree laneSet)).
  { pattern laneSet. apply LaneSet_forest_ind. clear laneSet.
    intros ls Hall. rewrite LaneAccess.accessible_as_loop.
    induction Hall as [|l rest Hl _ IH].
    - constructor.
    - rewrite accessLoop_cons, lanesOfTree_cons.
      change (l :: ?a ++ ?b) with ((l :: a) ++ b).
      apply subseq_app; [|exact IH].
      destruct (claimIsInvalid l); [apply subseq_nil_l|].
      destruct (negb (hasClaim w identity (claimOf l))); [apply subseq_nil_l|].
      apply subseq_keep.
      destruct (childLaneSet l) as [c|]; [now apply Hl | constructor]. }
  split; [exact Hsub|].
  intros Hnd. eapply subseq_NoDup; [|exact Hnd]. now apply subseq_map.
Qed.

Lemma X2_witness :
  NoDup (map lane_id
             (fst (_getLanesThatCanBeAccessed laneWorld sampleIdentity
                                              (Some mixedLaneSet)))).
Proof.
  apply (proj2 (accessible_lanes_keep_document_order laneWorld sampleIdentity
                                                     mixedLaneSet)).
  simpl. repeat constructor; simpl; intuition discriminate.
Defined.

(** The two nested loops of [_getIdsOfLanesThatCanBeAccessed] gather the
    accessible lanes of the lane sets of the process roots, in order. *)
Lemma accessible_lanes_of_roots w identity (roots : list RootElement) :
  forall acc,
    fold_left
      (fun acc rootElement =>
         if negb (String.eqb (root_type rootElement) "bpmn:Process") then acc
         else
           match laneSets rootElement with
           | None => acc
           | Some sets =>
               fold_left
                 (fun acc' laneSet =>
                    acc' ++ fst (_getLanesThatCanBeAccessed w identity (Some laneSet)))
                 sets acc
           end)
      roots acc
    = acc ++ flat_map (fun s => fst (_getLanesThatCanBeAccessed w identity (Some s)))
                      (processLaneSets (mkDefinition roots)).
Proof.
  assert (Hinner : forall sets acc,
             fold_left
               (fun acc' laneSet =>
                  acc' ++ fst (_getLanesThatCanBeAccessed w identity (Some laneSet)))
               sets acc
             = acc ++ flat_map
                        (fun s => fst (_getLanesThatCanBeAccessed w identity (Some s)))
                        sets).
  { induction sets as [|s sets IH]; intros acc; simpl.
    - now rewrite app_nil_r.
    - rewrite IH. now rewrite <- app_assoc. }
  unfold processLaneSets. cbn [rootElements].
  induction roots as [|r roots IH]; intros acc; simpl.
  - now rewrite app_nil_r.
  - rewrite IH. destruct (String.eqb (root_type r) "bpmn:Process"); simpl.
    + destruct (laneSets r) as [sets|]; simpl; [|reflexivity].
      rewrite Hinner, flat_map_app. now rewrite <- app_assoc.
    + reflexivity.
Qed.

(** X3: once the process model, the identity and the definitions are
    there, [_getIdsOfLanesThatCanBeAccessed] returns, and the ids it
    returns are exactly the ids of the lanes the identity is let into, in
    the lane sets of the root elements of type [bpmn:Process]; lane sets of
    other root elements are not looked at. *)
Theorem accessible_lane_ids_are_ids_of_granted_lanes :
  forall (w : World) (executionContext : ExecutionContext) (processModelKey : string)
         (processModel : IProcessDefEntity) (identity : IIdentity)
         (processDefinitions : IDefinition),
    _getProcessModelByKey w executionContext processModelKey = Returned processModel ->
    getIdentity w executionContext = Returned identity ->
    _getDefinitionsFromProcessModel w processModel = Returned processDefinitions ->
    exists ids,
      _getIdsOfLanesThatCanBeAccessed w executionContext processModelKey = Returned ids
      /\ forall laneId,
           In laneId ids <->
           exists laneSet lane,
             In laneSet (processLaneSets processDefinitions)
             /\ grants w identity laneSet lane
             /\ lane_id lane = laneId.
Proof.
  intros w executionContext processModelKey processModel identity processDefinitions
         Hmodel Hidentity Hdefs.
  unfold _getIdsOfLanesThatCanBeAccessed.
  rewrite Hmodel. cbn [bind]. rewrite Hidentity. cbn [bind]. rewrite Hdefs. cbn [bind].
  eexists. split; [reflexivity|].
  intros laneId. rewrite accessible_lanes_of_roots. cbn [app].
  destruct processDefinitions as [roots]. cbn [rootElements].
  rewrite in_map_iff. split.
  - intros (lane & Hid & Hin). apply in_flat_map in Hin.
    destruct Hin as (s & Hs & Hlane).
    exists s, lane. split; [exact Hs|]. split; [|exact Hid].
    now apply accessible_lanes_are_the_granted_lanes.
  - intros (s & lane & Hs & Hg & Hid). exists lane. split; [exact Hid|].
    apply in_flat_map. exists s. split; [exact Hs|].
    now apply accessible_lanes_are_the_granted_lanes.
Qed.

Lemma X3_witness :
  exists ids,
    _getIdsOfLanesThatCanBeAccessed sampleWorld sampleContext "main_model" = Returned ids
    /\ forall laneId,
         In laneId ids <->
         exists laneSet lane,
           In laneSet (processLaneSets
                         (definitionsWith (laneOf "Lane_Main" "main_claim" "Task_N")))
           /\ grants sampleWorld sampleIdentity laneSet lane
           /\ lane_id lane = laneId.
Proof.
  apply (accessible_lane_ids_are_ids_of_granted_lanes
           sampleWorld sampleContext "main_model" defMain sampleIdentity
           (definitionsWith (laneOf "Lane_Main" "main_claim" "Task_N")));
    reflexivity.
Defined.

Lemma closestInLaneSets_app sets sets' elementId :
  closestInLaneSets (sets ++ sets') elementId
  = match closestInLaneSets sets elementId with
    | Some laneId => Some laneId
    | None => closestInLaneSets sets' elementId
    end.
Proof.
  induction sets as [|s sets IH]; simpl; [reflexivity|].
  destruct (_getClosestLaneIdToElement s elementId); [reflexivity | exact IH].
Qed.

(** The loop of [_getLaneIdForElement] over the root elements looks into
    the lane sets of the process roots, one after the other. *)
Lemma lane_id_over_process_lane_sets processDefinitions elementId :
  _getLaneIdForElement processDefinitions elementId
  = closestInLaneSets (processLaneSets processDefinitions) elementId.
Proof.
  unfold _getLaneIdForElement, processLaneSets.
  induction (rootElements processDefinitions) as [|r roots IH]; simpl; [reflexivity|].
  rewrite closestInLaneSets_app.
  destruct (String.eqb (root_type r) "bpmn:Process"); simpl; [|exact IH].
  destruct (laneSets r) as [sets|]; simpl; [|exact IH].
  destruct (closestInLaneSets sets elementId); [reflexivity | exact IH].
Qed.

(** X4: a lane id answered by [_getLaneIdForElement] is the id of a
    lane in a lane set of a process root that has no child lane set and
    references the element: the lookup never answers with a lane that does
    not hold the element, nor with an enclosing lane. *)
Theorem lane_id_for_element_is_a_referencing_leaf :
  forall (processDefinitions : IDefinition) (elementId laneId : string),
    _getLaneIdForElement processDefinitions elementId = Some laneId ->
    exists laneSet lane,
      In laneSet (processLaneSets processDefinitions)
      /\ In lane (lanesOfTree laneSet)
      /\ lane_id lane = laneId
      /\ childLaneSet lane = None
      /\ references lane elementId = true.
Proof.
  intros processDefinitions elementId laneId.
  rewrite lane_id_over_process_lane_sets.
  induction (processLaneSets processDefinitions) as [|s sets IH]; simpl;
    [discriminate|].
  destruct (_getClosestLaneIdToElement s elementId) as [found|] eqn:Hs.
  - intros [= ->].
    destruct (LaneLookup.closest_sound elementId s laneId Hs) as (lane & Hrest).
    exists s, lane. split; [now left | exact Hrest].
  - intros H. destruct (IH H) as (s' & lane & Hin & Hrest).
    exists s', lane. split; [now right | exact Hrest].
Qed.

Lemma X4_witness :
  exists laneSet lane,
    In laneSet (processLaneSets siblingDefinitions)
    /\ In lane (lanesOfTree laneSet)
    /\ lane_id lane = "Lane_B"
    /\ childLaneSet lane = None
    /\ references lane "Task_M" = true.
Proof.
  apply (lane_id_for_element_is_a_referencing_leaf siblingDefinitions "Task_M" "Lane_B").
  reflexivity.
Defined.

(** In a flat lane set the lookup finds a referencing lane whenever
    there is one. *)
Lemma closest_flat elementId :
  forall ls,
    (forall l, In l ls -> childLaneSet l = None) ->
    (closestIn ls elementId = None <->
     forall l, In l ls -> references l elementId = false).
Proof.
  induction ls as [|l rest IH]; intros Hflat.
  - split; [intros _ l [] | reflexivity].
  - destruct l as [i n c refs].
    assert (Hc : c = None) by (apply (Hflat (mkLane i n c refs)); now left).
    subst c. rewrite LaneLookup.closestIn_leaf.
    destruct (references (mkLane i n None refs) elementId) eqn:Href.
    + split; [discriminate|]. intros H.
      rewrite (H (mkLane i n None refs)) in Href; [discriminate | now left].
    + rewrite IH by (intros l Hl; apply Hflat; now right). split.
      * intros H l [<- | Hl]; auto.
      * intros H l Hl. apply H. now right.
Qed.

(** X5: when no lane of the process lane sets has a lane set of its
    own, [_getLaneIdForElement] answers [undefined] only if no lane
    references the element; on such definitions every referenced element is
    given a lane. *)
Theorem lane_id_for_element_is_complete_on_flat_lane_sets :
  forall (processDefinitions : IDefinition) (elementId : string),
    (forall laneSet, In laneSet (processLaneSets processDefinitions) -> flat laneSet) ->
    (_getLaneIdForElement processDefinitions elementId = None <->
     forall laneSet lane,
       In laneSet (processLaneSets processDefinitions) ->
       In lane (lanes laneSet) ->
       references lane elementId = false).
Proof.
  intros processDefinitions elementId.
  rewrite lane_id_over_process_lane_sets.
  induction (processLaneSets processDefinitions) as [|s sets IH]; intros Hflat; simpl.
  - split; [intros _ s l [] | reflexivity].
  - destruct s as [ls].
    pose proof (closest_flat elementId ls (Hflat (mkLaneSet ls) (or_introl eq_refl)))
      as Hhere.
    unfold closestIn in Hhere.
    destruct (_getClosestLaneIdToElement (mkLaneSet ls) elementId) as [found|].
    + split; [discriminate|]. intros H.
      destruct Hhere as [_ Hback].
      rewrite Hback; [reflexivity|].
      intros l Hl. apply (H (mkLaneSet ls) l); [now left | exact Hl].
    + rewrite IH by (intros s' Hs'; apply Hflat; now right).
      destruct Hhere as [Hfwd _]. split.
      * intros H s' l [<- | Hs'] Hl; [now apply Hfwd | eapply H; eauto].
      * intros H s' l Hs' Hl. apply (H s' l); [now right | exact Hl].
Qed.

Lemma X5_witness :
  _getLaneIdForElement (definitionsWith (laneOf "Lane_Main" "main_claim" "Task_N"))
                       "Task_Q" = None
  <-> forall laneSet lane,
      In laneSet (processLaneSets
                    (definitionsWith (laneOf "Lane_Main" "main_claim" "Task_N"))) ->
      In lane (lanes laneSet) ->
      references lane "Task_Q" = false.
Proof.
  apply (lane_id_for_element_is_complete_on_flat_lane_sets
           (definitionsWith (laneOf "Lane_Main" "main_claim" "Task_N")) "Task_Q").
  intros laneSet [<- | []] l [<- | []]. reflexivity.
Defined.

End LaneFacts.

(** ** Process models, their events and the listing of user tasks *)

Module ModelFacts.

Import Adapter Views Relations ProcessModels ModelSamples.

Lemma can_access_event processDefinitions accessibleLaneIds event :
  identityCanAccessEvent processDefinitions accessibleLaneIds event = true
  <-> exists laneId,
      _getLaneIdForElement processDefinitions (nodeDef_key event) = Some laneId
      /\ In laneId accessibleLaneIds.
Proof.
  unfold identityCanAccessEvent. split.
  - destruct (_getLaneIdForElement processDefinitions (nodeDef_key event))
      as [laneId|]; [|discriminate].
    intros H. exists laneId. split; [reflexivity|].
    unfold includes in H. apply existsb_exists in H.
    destruct H as (x & Hx & Heq). apply String.eqb_eq in Heq. now subst x.
  - intros (laneId & -> & Hid). unfold includes. apply existsb_exists.
    exists laneId. split; [exact Hid | apply String.eqb_refl].
Qed.

Lemma filtered_events_returned (w : World) executionContext processModelKey
      (events accessible : list INodeDefEntity) :
  _filterAccessibleEvents w executionContext processModelKey events
  = Returned accessible ->
  accessible <> []
  /\ exists accessibleLaneIds processModel processDefinitions,
      _getIdsOfLanesThatCanBeAccessed w executionContext processModelKey
      = Returned accessibleLaneIds
      /\ _getProcessModelByKey w executionContext processModelKey
         = Returned processModel
      /\ _getDefinitionsFromProcessModel w processModel = Returned processDefinitions
      /\ subseq accessible events
      /\ forall event,
           In event accessible <->
           In event events
           /\ exists laneId,
               _getLaneIdForElement processDefinitions (nodeDef_key event)
               = Some laneId
               /\ In laneId accessibleLaneIds.
Proof.
  unfold _filterAccessibleEvents.
  destruct (_getIdsOfLanesThatCanBeAccessed w executionContext processModelKey)
    as [ids|e|] eqn:Hids; cbn [bind]; try discriminate.
  destruct (Nat.eqb (List.length ids) 0); [discriminate|].
  destruct (_getProcessModelByKey w executionContext processModelKey)
    as [pm|e|] eqn:Hpm; cbn [bind]; try discriminate.
  destruct (_getDefinitionsFromProcessModel w pm) as [defs|e|] eqn:Hdefs; cbn [bind];
    try discriminate.
  remember (filter (identityCanAccessEvent defs ids) events) as visible eqn:Hvisible.
  destruct visible as [|v vs]; cbn [List.length Nat.eqb]; [discriminate|].
  intros [= <-]. split; [discriminate|].
  exists ids, pm, defs.
  split; [reflexivity|]. split; [reflexivity|]. split; [exact Hdefs|]. split.
  - rewrite Hvisible. clear.
    induction events as [|ev events IH]; simpl; [apply subseq_nil|].
    destruct (identityCanAccessEvent defs ids ev);
      [now apply subseq_keep | now apply subseq_skip].
  - intros event. rewrite Hvisible, filter_In, can_access_event. reflexivity.
Qed.

Lemma filtered_events_forbidden (w : World) executionContext processModelKey
      (events : list INodeDefEntity) :
  seesNone w executionContext processModelKey events ->
  _filterAccessibleEvents w executionContext processModelKey events
  = Thrown (mkError ForbiddenError
                    ("Access to Process Model '" ++ processModelKey ++ "' not allowed")).
Proof.
  intros (ids & Hids & Hnone). unfold _filterAccessibleEvents.
  rewrite Hids. cbn [bind].
  destruct Hnone as [-> | (pm & defs & Hpm & Hdefs & Hhidden)]; [reflexivity|].
  destruct (Nat.eqb (List.length ids) 0); [reflexivity|].
  rewrite Hpm. cbn [bind]. rewrite Hdefs. cbn [bind].
  assert (Hempty : filter (identityCanAccessEvent defs ids) events = []).
  { clear Hids Hpm Hdefs. induction events as [|ev events IH]; [reflexivity|].
    cbn [filter].
    destruct (identityCanAccessEvent defs ids ev) eqn:Hev.
    - apply can_access_event in Hev. destruct Hev as (laneId & Hlane & Hid).
      now elim (Hhidden ev laneId (or_introl eq_refl) Hlane).
    - apply IH. intros event laneId Hin. apply Hhidden. now right. }
  rewrite Hempty. reflexivity.
Qed.

(** X6: [_filterAccessibleEvents] never returns an empty list, and what
    it returns are the given events, in order, whose key is given a lane by
    [_getLaneIdForElement] that is among the accessible lane ids of the
    model.  When the identity has no accessible lane in the model, or none
    of the events is placed in one, it throws a [ForbiddenError] that names
    the process model. *)
Theorem filtered_events_are_visible_and_not_empty :
  forall (w : World) (executionContext : ExecutionContext) (processModelKey : string)
         (events : list INodeDefEntity),
    (forall accessible,
        _filterAccessibleEvents w executionContext processModelKey events
        = Returned accessible ->
        accessible <> []
        /\ exists accessibleLaneIds processModel processDefinitions,
            _getIdsOfLanesThatCanBeAccessed w executionContext processModelKey
            = Returned accessibleLaneIds
            /\ _getProcessModelByKey w executionContext processModelKey
               = Returned processModel
            /\ _getDefinitionsFromProcessModel w processModel
               = Returned processDefinitions
            /\ subseq accessible events
            /\ forall event,
                 In event accessible <->
                 In event events
                 /\ exists laneId,
                     _getLaneIdForElement processDefinitions (nodeDef_key event)
                     = Some laneId
                     /\ In laneId accessibleLaneIds)
    /\ (seesNone w executionContext processModelKey events ->
        _filterAccessibleEvents w executionContext processModelKey events
        = Thrown (mkError ForbiddenError
                          ("Access to Process Model '" ++ processModelKey
                           ++ "' not allowed")))
    /\ (forall error,
           _filterAccessibleEvents w executionContext processModelKey events
           = Thrown error ->
           seesNone w executionContext processModelKey events
           \/ _getIdsOfLanesThatCanBeAccessed w executionContext processModelKey
              = Thrown error
           \/ _getProcessModelByKey w executionContext processModelKey = Thrown error
           \/ exists processModel,
               _getProcessModelByKey w executionContext processModelKey
               = Returned processModel
               /\ _getDefinitionsFromProcessModel w processModel = Thrown error).
Proof.
  intros w executionContext processModelKey events. split; [|split].
  - intros accessible. apply filtered_events_returned.
  - apply filtered_events_forbidden.
  - intros error. unfold _filterAccessibleEvents, seesNone.
    destruct (_getIdsOfLanesThatCanBeAccessed w executionContext processModelKey)
      as [ids|e|]; cbn [bind]; [| intros [= <-]; auto | discriminate].
    destruct ids as [|laneId ids]; cbn [List.length Nat.eqb].
    { intros _. left. exists []. split; [reflexivity | now left]. }
    destruct (_getProcessModelByKey w executionContext processModelKey)
      as [pm|e|]; cbn [bind]; [| intros [= <-]; auto | discriminate].
    destruct (_getDefinitionsFromProcessModel w pm) as [defs|e|] eqn:Hdefs;
      cbn [bind]; [| intros [= <-]; right; right; right; eauto | discriminate].
    destruct (filter (identityCanAccessEvent defs (laneId :: ids)) events)
      as [|v vs] eqn:Hfilter; cbn [List.length Nat.eqb]; [|discriminate].
    intros _. left. exists (laneId :: ids). split; [reflexivity|]. right.
    exists pm, defs. split; [reflexivity|]. split; [exact Hdefs|].
    intros event lane Hin Hlane Hid.
    assert (Hvisible : In event (filter (identityCanAccessEvent defs (laneId :: ids))
                                        events)).
    { apply filter_In. split; [exact Hin|]. apply can_access_event. eauto. }
    rewrite Hfilter in Hvisible. destruct Hvisible.
Qed.

(** The clerk is shown the start event of the clerks' lane; a list that
    holds only the start event of the managers' lane is refused. *)
Lemma X6_witness :
  ([startOfMain] <> []
   /\ exists accessibleLaneIds processModel processDefinitions,
       _getIdsOfLanesThatCanBeAccessed modelWorld clerkContext "main_model"
       = Returned accessibleLaneIds
       /\ _getProcessModelByKey modelWorld clerkContext "main_model"
          = Returned processModel
       /\ _getDefinitionsFromProcessModel modelWorld processModel
          = Returned processDefinitions
       /\ subseq [startOfMain] [startOfMain; hiddenStartOfMain]
       /\ forall event,
            In event [startOfMain] <->
            In event [startOfMain; hiddenStartOfMain]
            /\ exists laneId,
                _getLaneIdForElement processDefinitions (nodeDef_key event)
                = Some laneId
                /\ In laneId accessibleLaneIds)
  /\ _filterAccessibleEvents modelWorld clerkContext "main_model" [hiddenStartOfMain]
     = Thrown (mkError ForbiddenError
                       "Access to Process Model 'main_model' not allowed").
Proof.
  split.
  - apply (proj1 (filtered_events_are_visible_and_not_empty
                    modelWorld clerkContext "main_model"
                    [startOfMain; hiddenStartOfMain])
                 [startOfMain]).
    reflexivity.
  - apply (proj1 (proj2 (filtered_events_are_visible_and_not_empty
                           modelWorld clerkContext "main_model" [hiddenStartOfMain]))).
    exists ["Lane_Clerk"]. split; [reflexivity|]. right.
    eexists. eexists. split; [reflexivity|]. split; [reflexivity|].
    intros event laneId [<-|[]] Hlane [<-|[]]. discriminate Hlane.
Defined.

Lemma found_by_key (w : World) executionContext processModelKey processModel :
  _getProcessModelByKey w executionContext processModelKey = Returned processModel ->
  In processModel (processDefs w) /\ def_key processModel = processModelKey.
Proof.
  unfold _getProcessModelByKey.
  destruct (find_first _ (processDefs w)) as [d|] eqn:Hfind; [|discriminate].
  intros [= <-]. apply find_some in Hfind. destruct Hfind as [Hin Hkey].
  apply String.eqb_eq in Hkey. auto.
Qed.

(** X7: a process model is handed out only to an identity that can
    access at least one of its start events, whether the model is
    executable or not; the model handed out carries the requested key, and
    its start events are the accessible ones when it is executable and none
    when it is not. *)
Theorem process_model_needs_an_accessible_start_event :
  forall (w : World) (nodeDefId : INodeDefEntity -> string)
         (startContext : INodeDefEntity -> JsValue) (context : ConsumerContext)
         (processModelKey : string) (mapped : ConsumerApiProcessModel),
    getProcessModelByKey w nodeDefId startContext context processModelKey
    = Returned mapped ->
    exists executionContext processDef accessible,
      _createExecutionContextFromConsumerContext w context = Returned executionContext
      /\ _getProcessModelByKey w executionContext processModelKey = Returned processDef
      /\ _getAccessibleStartEvents w executionContext processModelKey
         = Returned accessible
      /\ accessible <> []
      /\ model_key mapped = processModelKey
      /\ startEvents mapped
         = if isExecutable processDef
           then map (startEventMapper nodeDefId startContext) accessible
           else [].
Proof.
  intros w nodeDefId startContext context processModelKey mapped.
  unfold getProcessModelByKey.
  destruct (_createExecutionContextFromConsumerContext w context)
    as [ec|e|] eqn:Hctx; cbn [bind]; try discriminate.
  destruct (_getProcessModelByKey w ec processModelKey)
    as [pm|e|] eqn:Hpm; cbn [bind]; try discriminate.
  destruct (_getAccessibleStartEvents w ec processModelKey)
    as [accessible|e|] eqn:Hacc; cbn [bind]; try discriminate.
  destruct accessible as [|a rest]; cbn [List.length Nat.eqb]; [discriminate|].
  intros [= <-]. exists ec, pm, (a :: rest).
  split; [reflexivity|]. split; [exact Hpm|]. split; [exact Hacc|].
  split; [discriminate|]. split.
  - apply (found_by_key w ec processModelKey pm Hpm).
  - cbn [startEvents]. destruct (isExecutable pm); reflexivity.
Qed.

Lemma X7_witness :
  exists executionContext processDef accessible,
    _createExecutionContextFromConsumerContext modelWorld clerk
    = Returned executionContext
    /\ _getProcessModelByKey modelWorld executionContext "draft_model"
       = Returned processDef
    /\ _getAccessibleStartEvents modelWorld executionContext "draft_model"
       = Returned accessible
    /\ accessible <> []
    /\ model_key (mkConsumerApiProcessModel "draft_model" []) = "draft_model"
    /\ startEvents (mkConsumerApiProcessModel "draft_model" [])
       = if isExecutable processDef
         then map (startEventMapper idOfNodeDef contextOfNodeDef) accessible
         else [].
Proof.
  apply (process_model_needs_an_accessible_start_event
           modelWorld idOfNodeDef contextOfNodeDef clerk "draft_model"
           (mkConsumerApiProcessModel "draft_model" [])).
  reflexivity.
Defined.

Section ModelListing.
Variable w : World.
Variable nodeDefId : INodeDefEntity -> string.
Variable startContext : INodeDefEntity -> JsValue.
Variable context : ConsumerContext.

Lemma models_listed :
  forall processModels result,
    (forall pm, In pm processModels ->
                listedOrForbidden w nodeDefId startContext context pm) ->
    processModelsOf w nodeDefId startContext context processModels result
    = Returned (result
                ++ flat_map (listing w nodeDefId startContext context) processModels).
Proof.
  induction processModels as [|pm rest IH]; intros result Hall; simpl.
  - now rewrite app_nil_r.
  - unfold listing at 1.
    destruct (Hall pm (or_introl eq_refl)) as [(m & ->) | (error & -> & Hkind)].
    + rewrite IH by (intros q Hq; apply Hall; now right). now rewrite <- app_assoc.
    + rewrite (Visibility.forbidden_is_caught error Hkind). simpl.
      apply IH. intros q Hq. apply Hall. now right.
Qed.

Lemma models_aborted :
  forall before pm after error result,
    (forall q, In q before -> listedOrForbidden w nodeDefId startContext context q) ->
    getProcessModelByKey w nodeDefId startContext context (def_key pm) = Thrown error ->
    kind error <> ForbiddenError ->
    processModelsOf w nodeDefId startContext context (before ++ pm :: after) result
    = Thrown error.
Proof.
  induction before as [|q rest IH]; intros pm after error result Hall Hpm Hkind; simpl.
  - rewrite Hpm, (Visibility.other_error_is_rethrown error Hkind). reflexivity.
  - destruct (Hall q (or_introl eq_refl)) as [(m & ->) | (e & -> & Hq)].
    + apply IH; auto. intros r Hr. apply Hall. now right.
    + rewrite (Visibility.forbidden_is_caught e Hq). apply IH; auto.
      intros r Hr. apply Hall. now right.
Qed.

End ModelListing.

(** X8: [getProcessModels] lists, in datastore order, the process
    models that [getProcessModelByKey] hands out and passes over those it
    refuses with a [ForbiddenError]; the first process model that fails with
    any other error makes the whole listing fail with that error. *)
Theorem forbidden_models_are_left_out_of_the_listing :
  forall (w : World) (nodeDefId : INodeDefEntity -> string)
         (startContext : INodeDefEntity -> JsValue) (context : ConsumerContext)
         (executionContext : ExecutionContext),
    _createExecutionContextFromConsumerContext w context = Returned executionContext ->
    ((forall pm, In pm (processDefs w) ->
                 listedOrForbidden w nodeDefId startContext context pm) ->
     getProcessModels w nodeDefId startContext context
     = Returned (mkConsumerApiProcessModelList
                   (flat_map (listing w nodeDefId startContext context)
                             (processDefs w))))
    /\ (forall before pm after error,
           processDefs w = before ++ pm :: after ->
           (forall q, In q before ->
                      listedOrForbidden w nodeDefId startContext context q) ->
           getProcessModelByKey w nodeDefId startContext context (def_key pm)
           = Thrown error ->
           kind error <> ForbiddenError ->
           getProcessModels w nodeDefId startContext context = Thrown error).
Proof.
  intros w nodeDefId startContext context executionContext Hctx.
  unfold getProcessModels, _getProcessModels. rewrite Hctx. cbn [bind].
  split.
  - intros Hall. now rewrite models_listed.
  - intros before pm after error -> Hall Hpm Hkind.
    now rewrite (models_aborted w nodeDefId startContext context before pm after error).
Qed.

Lemma X8_witness :
  getProcessModels modelWorld idOfNodeDef contextOfNodeDef clerk
  = Returned (mkConsumerApiProcessModelList
                [mkConsumerApiProcessModel
                   "main_model"
                   [mkConsumerApiEvent "StartEvent_1" "id_of_StartEvent_1"
                                       JsUndefined JsNull];
                 mkConsumerApiProcessModel "draft_model" []])
  /\ getProcessModels garbledWorld idOfNodeDef contextOfNodeDef clerk
     = Thrown (mkError PlainError "unparsable definitions").
Proof.
  split.
  - apply (proj1 (forbidden_models_are_left_out_of_the_listing
                    modelWorld idOfNodeDef contextOfNodeDef clerk clerkContext eq_refl)).
    intros pm [<-|[<-|[<-|[]]]].
    + left. eexists. reflexivity.
    + left. eexists. reflexivity.
    + right. eexists. split; reflexivity.
  - apply (proj2 (forbidden_models_are_left_out_of_the_listing
                    garbledWorld idOfNodeDef contextOfNodeDef clerk clerkContext eq_refl)
             [Samples.defMain] defUnparsable [defSecret]).
    + reflexivity.
    + intros q [<-|[]]. left. eexists. reflexivity.
    + reflexivity.
    + discriminate.
Defined.

Lemma event_of_type (w : World) executionContext processModelKey nodeType e :
  In e (_getNodesByTypeForProcessModel w executionContext processModelKey nodeType) ->
  In e (nodeDefs w) /\ nodeDef_processDefKey e = processModelKey
  /\ nodeDef_type e = nodeType.
Proof.
  unfold _getNodesByTypeForProcessModel. rewrite filter_In, andb_true_iff, !String.eqb_eq.
  tauto.
Qed.

Lemma found_event (accessible : list INodeDefEntity) eventKey :
  (forall e, find_first (fun entity => String.eqb (nodeDef_key entity) eventKey) accessible
             = Some e -> In e accessible /\ nodeDef_key e = eventKey)
  /\ ((forall e, In e accessible -> nodeDef_key e <> eventKey) ->
      find_first (fun entity => String.eqb (nodeDef_key entity) eventKey) accessible
      = None).
Proof.
  split.
  - intros e Hfind. apply find_some in Hfind. destruct Hfind as [Hin Hkey].
    apply String.eqb_eq in Hkey. auto.
  - intros Hnone.
    destruct (find_first _ accessible) as [e|] eqn:Hfind; [|reflexivity].
    apply find_some in Hfind. destruct Hfind as [Hin Hkey].
    apply String.eqb_eq in Hkey. now elim (Hnone e Hin).
Qed.

(** X9: the start event answered by [_getStartEventEntity] is a start
    event definition of the model with the requested key that the identity
    can access.  When the identity can access some start event of the
    model, a key that none of these carries, be it unknown or the key of a
    start event in another lane, gives a [NotFoundError]; when it sees no
    start event of the model at all, every key gives the [ForbiddenError]
    of the event filter, and any other failure of the filter is handed on
    as it is.  The same holds for [_getEndEventEntity] and end events. *)
Theorem event_lookup_finds_accessible_events_only :
  forall (w : World) (executionContext : ExecutionContext)
         (processModelKey eventKey : string),
    (forall e,
        _getStartEventEntity w executionContext processModelKey eventKey = Returned e ->
        nodeDef_key e = eventKey /\ In e (nodeDefs w)
        /\ nodeDef_processDefKey e = processModelKey
        /\ nodeDef_type e = BpmnType_startEvent
        /\ exists accessible,
            _getAccessibleStartEvents w executionContext processModelKey
            = Returned accessible
            /\ In e accessible)
    /\ (forall accessible,
           _getAccessibleStartEvents w executionContext processModelKey
           = Returned accessible ->
           (forall e, In e accessible -> nodeDef_key e <> eventKey) ->
           _getStartEventEntity w executionContext processModelKey eventKey
           = Thrown (mkError NotFoundError ("Start event " ++ eventKey ++ " not found.")))
    /\ (seesNone w executionContext processModelKey
                 (_getStartEventsForProcessModel w executionContext processModelKey) ->
        _getStartEventEntity w executionContext processModelKey eventKey
        = Thrown (mkError ForbiddenError
                          ("Access to Process Model '" ++ processModelKey
                           ++ "' not allowed")))
    /\ (forall error,
           _getAccessibleStartEvents w executionContext processModelKey = Thrown error ->
           _getStartEventEntity w executionContext processModelKey eventKey
           = Thrown error)
    /\ (forall e,
           _getEndEventEntity w executionContext processModelKey eventKey = Returned e ->
           nodeDef_key e = eventKey /\ In e (nodeDefs w)
           /\ nodeDef_processDefKey e = processModelKey
           /\ nodeDef_type e = BpmnType_endEvent
           /\ exists accessible,
               _getAccessibleEndEvents w executionContext processModelKey
               = Returned accessible
               /\ In e accessible)
    /\ (forall accessible,
           _getAccessibleEndEvents w executionContext processModelKey
           = Returned accessible ->
           (forall e, In e accessible -> nodeDef_key e <> eventKey) ->
           _getEndEventEntity w executionContext processModelKey eventKey
           = Thrown (mkError NotFoundError ("End event " ++ eventKey ++ " not found.")))
    /\ (seesNone w executionContext processModelKey
                 (_getEndEventsForProcessModel w executionContext processModelKey) ->
        _getEndEventEntity w executionContext processModelKey eventKey
        = Thrown (mkError ForbiddenError
                          ("Access to Process Model '" ++ processModelKey
                           ++ "' not allowed")))
    /\ (forall error,
           _getAccessibleEndEvents w executionContext processModelKey = Thrown error ->
           _getEndEventEntity w executionContext processModelKey eventKey
           = Thrown error).
Proof.
  intros w executionContext processModelKey eventKey.
  split; [|split; [|split; [|split; [|split; [|split; [|split]]]]]].
  - intros e. unfold _getStartEventEntity.
    destruct (_getAccessibleStartEvents w executionContext processModelKey)
      as [accessible|err|] eqn:Hacc; cbn [bind]; try discriminate.
    destruct (find_first _ accessible) as [found|] eqn:Hfind; [|discriminate].
    intros [= <-]. destruct (proj1 (found_event accessible eventKey) _ Hfind) as [Hin Hkey].
    pose proof Hacc as Hfilter. unfold _getAccessibleStartEvents in Hfilter.
    apply filtered_events_returned in Hfilter.
    destruct Hfilter as (_ & ids & pm & defs & _ & _ & _ & _ & Hspec).
    apply Hspec in Hin as Hev. destruct Hev as [Hev _].
    apply (event_of_type w executionContext) in Hev.
    destruct Hev as (Hnode & Hmodel & Htype).
    split; [exact Hkey|]. split; [exact Hnode|]. split; [exact Hmodel|].
    split; [exact Htype|]. exists accessible. split; [reflexivity | exact Hin].
  - intros accessible Hacc Hnone. unfold _getStartEventEntity. rewrite Hacc. cbn [bind].
    now rewrite (proj2 (found_event accessible eventKey) Hnone).
  - intros Hnone. unfold _getStartEventEntity, _getAccessibleStartEvents.
    rewrite (filtered_events_forbidden w executionContext processModelKey _ Hnone).
    reflexivity.
  - intros error Hacc. unfold _getStartEventEntity. rewrite Hacc. reflexivity.
  - intros e. unfold _getEndEventEntity.
    destruct (_getAccessibleEndEvents w executionContext processModelKey)
      as [accessible|err|] eqn:Hacc; cbn [bind]; try discriminate.
    destruct (find_first _ accessible) as [found|] eqn:Hfind; [|discriminate].
    intros [= <-]. destruct (proj1 (found_event accessible eventKey) _ Hfind) as [Hin Hkey].
    pose proof Hacc as Hfilter. unfold _getAccessibleEndEvents in Hfilter.
    apply filtered_events_returned in Hfilter.
    destruct Hfilter as (_ & ids & pm & defs & _ & _ & _ & _ & Hspec).
    apply Hspec in Hin as Hev. destruct Hev as [Hev _].
    apply (event_of_type w executionContext) in Hev.
    destruct Hev as (Hnode & Hmodel & Htype).
    split; [exact Hkey|]. split; [exact Hnode|]. split; [exact Hmodel|].
    split; [exact Htype|]. exists accessible. split; [reflexivity | exact Hin].
  - intros accessible Hacc Hnone. unfold _getEndEventEntity. rewrite Hacc. cbn [bind].
    now rewrite (proj2 (found_event accessible eventKey) Hnone).
  - intros Hnone. unfold _getEndEventEntity, _getAccessibleEndEvents.
    rewrite (filtered_events_forbidden w executionContext processModelKey _ Hnone).
    reflexivity.
  - intros error Hacc. unfold _getEndEventEntity. rewrite Hacc. reflexivity.
Qed.

(** The clerk asks for the start event of the managers' lane, for an end
    event of the clerks' lane, and for a start event of a process model in
    which no lane is open to clerks. *)
Lemma X9_witness :
  _getStartEventEntity modelWorld clerkContext "main_model" "StartEvent_2"
  = Thrown (mkError NotFoundError "Start event StartEvent_2 not found.")
  /\ (nodeDef_key endOfMain = "EndEvent_1" /\ In endOfMain (nodeDefs modelWorld)
      /\ nodeDef_processDefKey endOfMain = "main_model"
      /\ nodeDef_type endOfMain = BpmnType_endEvent
      /\ exists accessible,
          _getAccessibleEndEvents modelWorld clerkContext "main_model"
          = Returned accessible
          /\ In endOfMain accessible)
  /\ _getStartEventEntity modelWorld clerkContext "secret_model" "StartEvent_S"
     = Thrown (mkError ForbiddenError
                       "Access to Process Model 'secret_model' not allowed").
Proof.
  pose proof (event_lookup_finds_accessible_events_only
                modelWorld clerkContext "main_model" "StartEvent_2")
    as (_ & Hhidden & _).
  pose proof (event_lookup_finds_accessible_events_only
                modelWorld clerkContext "main_model" "EndEvent_1")
    as (_ & _ & _ & _ & Hend & _).
  pose proof (event_lookup_finds_accessible_events_only
                modelWorld clerkContext "secret_model" "StartEvent_S")
    as (_ & _ & Hsecret & _).
  split; [|split].
  - apply (Hhidden [startOfMain] eq_refl).
    intros e [<-|[]]. discriminate.
  - apply (Hend endOfMain). reflexivity.
  - apply Hsecret. exists []. split; [reflexivity | now left].
Defined.

End ModelFacts.

(** ** Visible user tasks and their public form *)

Module TaskFacts.

Import Adapter Views Relations Samples ModelSamples.

Section Settling.
Context {B : Type}.

Lemma rejection_is_of_a_promise (settled : list (nat * Outcome B)) moment error :
  firstRejection settled = Some (moment, error) -> In (moment, Thrown error) settled.
Proof.
  revert moment error.
  induction settled as [|[m promise] rest IH]; intros moment error; [discriminate|].
  cbn [firstRejection].
  destruct promise as [value|e|]; try (intros H; right; now apply IH).
  destruct (firstRejection rest) as [[earlier e']|].
  - destruct (Nat.ltb earlier m); intros [= <- <-]; [right; now apply IH | now left].
  - intros [= <- <-]. now left.
Qed.

Lemma without_rejection_nothing_is_thrown (settled : list (nat * Outcome B)) :
  firstRejection settled = None -> forall error, fulfilled settled <> Thrown error.
Proof.
  induction settled as [|[m promise] rest IH]; intros Hnone error; [discriminate|].
  cbn [firstRejection] in Hnone. cbn [fulfilled].
  destruct promise as [value|e|]; cbn [bind].
  - specialize (IH Hnone). destruct (fulfilled rest) as [values|e|]; cbn [bind];
      [discriminate | now elim (IH e) | discriminate].
  - destruct (firstRejection rest) as [[earlier e']|]; [|discriminate Hnone].
    destruct (Nat.ltb earlier m); discriminate Hnone.
  - discriminate.
Qed.

End Settling.

Section Conversion.
Variable w : World.
Variable executionContext : ExecutionContext.

(** The promise of an entity that answers with itself. *)
Lemma promise_of_entity (userTask : IUserTaskEntity) :
  answersWithItself w executionContext userTask ->
  resultUserTaskPromise w executionContext userTask
  = (userTaskDataAt w userTask,
     if hasFormFields userTask then Returned (publicUserTask userTask)
     else Thrown (mkError UnprocessableEntityError
                          ("UserTask with key '" ++ task_key userTask
                           ++ "' has no form fields"))).
Proof.
  unfold answersWithItself, resultUserTaskPromise, hasFormFields,
    _getUserTaskConfigFromUserTaskData.
  intros ->. cbn [bind].
  destruct (userTaskHasNoFormFields (mkUserTaskMessageData userTask)); reflexivity.
Qed.

Lemma no_rejection (tasks : list IUserTaskEntity) :
  (forall t, In t tasks -> answersWithItself w executionContext t) ->
  (forall t, In t tasks -> hasFormFields t = true) ->
  firstRejection (map (resultUserTaskPromise w executionContext) tasks) = None
  /\ fulfilled (map (resultUserTaskPromise w executionContext) tasks)
     = Returned (map publicUserTask tasks).
Proof.
  induction tasks as [|t tasks IH]; intros Hself Hall; [split; reflexivity|].
  destruct IH as [Hnone Hall'];
    [intros u Hu; apply Hself; now right | intros u Hu; apply Hall; now right|].
  cbn [map firstRejection fulfilled].
  rewrite (promise_of_entity t (Hself t (or_introl eq_refl))).
  rewrite (Hall t (or_introl eq_refl)), Hnone, Hall'. split; reflexivity.
Qed.

(** A rejection is the rejection of an entity without form fields, at
    the moment its data is answered. *)
Lemma rejection_of_an_entity (tasks : list IUserTaskEntity) moment error :
  (forall t, In t tasks -> answersWithItself w executionContext t) ->
  firstRejection (map (resultUserTaskPromise w executionContext) tasks)
  = Some (moment, error) ->
  exists t,
    In t tasks /\ hasFormFields t = false /\ moment = userTaskDataAt w t
    /\ error = mkError UnprocessableEntityError
                       ("UserTask with key '" ++ task_key t ++ "' has no form fields").
Proof.
  revert moment error.
  induction tasks as [|t tasks IH]; intros moment error Hself; [discriminate|].
  assert (Hrest : forall u, In u tasks -> answersWithItself w executionContext u)
    by (intros u Hu; apply Hself; now right).
  cbn [map firstRejection].
  rewrite (promise_of_entity t (Hself t (or_introl eq_refl))).
  destruct (hasFormFields t) eqn:Ht.
  - intros H. destruct (IH _ _ Hrest H) as (u & Hu & Hu').
    exists u. split; [now right | exact Hu'].
  - destruct (firstRejection (map (resultUserTaskPromise w executionContext) tasks))
      as [[earlier e']|].
    + destruct (Nat.ltb earlier (userTaskDataAt w t)).
      * intros [= <- <-]. destruct (IH _ _ Hrest eq_refl) as (u & Hu & Hu').
        exists u. split; [now right | exact Hu'].
      * intros [= <- <-]. exists t. split; [now left|]. auto.
    + intros [= <- <-]. exists t. split; [now left|]. auto.
Qed.

Lemma some_rejection (tasks : list IUserTaskEntity) t :
  (forall u, In u tasks -> answersWithItself w executionContext u) ->
  In t tasks -> hasFormFields t = false ->
  firstRejection (map (resultUserTaskPromise w executionContext) tasks) <> None.
Proof.
  induction tasks as [|u tasks IH]; intros Hself Hin Ht; [destruct Hin|].
  cbn [map firstRejection].
  rewrite (promise_of_entity u (Hself u (or_introl eq_refl))).
  destruct Hin as [-> | Hin].
  - rewrite Ht.
    destruct (firstRejection _) as [[earlier e']|]; [|discriminate].
    destruct (Nat.ltb earlier (userTaskDataAt w t)); discriminate.
  - destruct (hasFormFields u);
      [apply IH; auto; intros v Hv; apply Hself; now right|].
    destruct (firstRejection _) as [[earlier e']|]; [|discriminate].
    destruct (Nat.ltb earlier (userTaskDataAt w u)); discriminate.
Qed.

Lemma earliest_at_the_head t (after : list IUserTaskEntity) :
  (forall u, In u (t :: after) -> answersWithItself w executionContext u) ->
  hasFormFields t = false ->
  (forall u, In u after -> hasFormFields u = false ->
             userTaskDataAt w t <= userTaskDataAt w u) ->
  firstRejection (map (resultUserTaskPromise w executionContext) (t :: after))
  = Some (userTaskDataAt w t,
          mkError UnprocessableEntityError
                  ("UserTask with key '" ++ task_key t ++ "' has no form fields")).
Proof.
  intros Hself Ht Hafter. cbn [map firstRejection].
  rewrite (promise_of_entity t (Hself t (or_introl eq_refl))), Ht.
  destruct (firstRejection (map (resultUserTaskPromise w executionContext) after))
    as [[earlier e']|] eqn:Hrest; [|reflexivity].
  destruct (rejection_of_an_entity after earlier e') as (u & Hu & Hform & -> & _);
    [intros u Hu; apply Hself; now right | exact Hrest|].
  pose proof (Hafter u Hu Hform) as Hle.
  destruct (Nat.ltb_spec (userTaskDataAt w u) (userTaskDataAt w t)); [lia | reflexivity].
Qed.

Lemma earliest_after_later_ones t (before rest : list IUserTaskEntity) error :
  (forall u, In u before -> answersWithItself w executionContext u) ->
  (forall u, In u before -> hasFormFields u = false ->
             userTaskDataAt w t < userTaskDataAt w u) ->
  firstRejection (map (resultUserTaskPromise w executionContext) rest)
  = Some (userTaskDataAt w t, error) ->
  firstRejection (map (resultUserTaskPromise w executionContext) (before ++ rest))
  = Some (userTaskDataAt w t, error).
Proof.
  intros Hself Hbefore Hrest. induction before as [|u before IH]; [exact Hrest|].
  cbn [app map firstRejection].
  rewrite (promise_of_entity u (Hself u (or_introl eq_refl))).
  rewrite IH;
    [|intros v Hv; apply Hself; now right | intros v Hv; apply Hbefore; now right].
  destruct (hasFormFields u) eqn:Hu; [reflexivity|].
  pose proof (Hbefore u (or_introl eq_refl) Hu) as Hlt.
  destruct (Nat.ltb_spec (userTaskDataAt w t) (userTaskDataAt w u)); [reflexivity | lia].
Qed.

(** Whatever the process engine answers, a thrown error is the error of
    the promise of one entity. *)
Lemma thrown_by_an_entity (tasks : list IUserTaskEntity) error :
  promiseAll (map (resultUserTaskPromise w executionContext) tasks) = Thrown error ->
  exists t,
    In t tasks
    /\ (getUserTaskData w executionContext t = Thrown error
        \/ exists userTaskData,
            getUserTaskData w executionContext t = Returned userTaskData
            /\ userTaskHasNoFormFields userTaskData = true
            /\ error = mkError UnprocessableEntityError
                               ("UserTask with key '" ++ task_key t
                                ++ "' has no form fields")).
Proof.
  unfold promiseAll.
  destruct (firstRejection (map (resultUserTaskPromise w executionContext) tasks))
    as [[moment e]|] eqn:Hfirst.
  - intros [= ->]. apply rejection_is_of_a_promise in Hfirst.
    apply in_map_iff in Hfirst. destruct Hfirst as (t & Hpromise & Hin).
    exists t. split; [exact Hin|].
    unfold resultUserTaskPromise in Hpromise. injection Hpromise as _ Hpromise.
    destruct (getUserTaskData w executionContext t) as [userTaskData|e|];
      cbn [bind] in Hpromise;
      [|left; now injection Hpromise as -> | discriminate Hpromise].
    right. exists userTaskData. split; [reflexivity|].
    unfold _getUserTaskConfigFromUserTaskData in Hpromise.
    destruct (userTaskHasNoFormFields userTaskData); cbn [bind] in Hpromise;
      [|discriminate Hpromise].
    split; [reflexivity|]. now injection Hpromise as <-.
  - intros Hthrown. now elim (without_rejection_nothing_is_thrown _ Hfirst error).
Qed.

End Conversion.

(** X10: when the process engine answers [getUserTaskData] of every
    entity with the entity itself, the list of public user tasks is made
    exactly when every entity has at least one form field, and then holds
    one public task per entity, in order, with the key, the id and the
    process instance id of the entity; otherwise the conversion fails with
    the [UnprocessableEntityError] of an entity without form fields, which
    names its key: of the one whose user task data is answered first, and,
    of several answered at the same moment, of the one that comes first in
    the list.  Whatever the process engine answers, a failure is the
    rejection of the promise of one entity: the error of its
    [getUserTaskData], or the [UnprocessableEntityError] that names its
    key. *)
Theorem one_task_without_form_fields_fails_the_whole_list :
  forall (w : World) (executionContext : ExecutionContext)
         (userTasks : list IUserTaskEntity),
    ((forall t, In t userTasks -> answersWithItself w executionContext t) ->
     ((forall t, In t userTasks -> hasFormFields t = true) ->
      _userTaskEntitiesToUserTaskList w executionContext userTasks
      = Returned (mkUserTaskList (map publicUserTask userTasks)))
     /\ (forall taskList,
            _userTaskEntitiesToUserTaskList w executionContext userTasks
            = Returned taskList ->
            forall t, In t userTasks -> hasFormFields t = true)
     /\ (forall before t after,
            userTasks = before ++ t :: after ->
            hasFormFields t = false ->
            (forall u, In u before -> hasFormFields u = false ->
                       userTaskDataAt w t < userTaskDataAt w u) ->
            (forall u, In u after -> hasFormFields u = false ->
                       userTaskDataAt w t <= userTaskDataAt w u) ->
            _userTaskEntitiesToUserTaskList w executionContext userTasks
            = Thrown (mkError UnprocessableEntityError
                              ("UserTask with key '" ++ task_key t
                               ++ "' has no form fields"))))
    /\ (forall error,
           _userTaskEntitiesToUserTaskList w executionContext userTasks
           = Thrown error ->
           exists t,
             In t userTasks
             /\ (getUserTaskData w executionContext t = Thrown error
                 \/ exists userTaskData,
                     getUserTaskData w executionContext t = Returned userTaskData
                     /\ userTaskHasNoFormFields userTaskData = true
                     /\ error = mkError UnprocessableEntityError
                                        ("UserTask with key '" ++ task_key t
                                         ++ "' has no form fields"))).
Proof.
  intros w executionContext userTasks.
  unfold _userTaskEntitiesToUserTaskList. cbv zeta. split.
  - intros Hself. unfold promiseAll. split; [|split].
    + intros Hall.
      destruct (no_rejection w executionContext userTasks Hself Hall) as [-> ->].
      reflexivity.
    + intros taskList Hlist t Hin.
      destruct (hasFormFields t) eqn:Ht; [reflexivity|]. exfalso.
      pose proof (some_rejection w executionContext userTasks t Hself Hin Ht) as Hsome.
      destruct (firstRejection _) as [[moment e]|];
        [discriminate Hlist | now elim Hsome].
    + intros before t after -> Ht Hbefore Hafter.
      rewrite (earliest_after_later_ones
                 w executionContext t before (t :: after) _
                 (fun u Hu => Hself u (in_or_app _ _ _ (or_introl Hu))) Hbefore
                 (earliest_at_the_head
                    w executionContext t after
                    (fun u Hu => Hself u (in_or_app _ _ _ (or_intror Hu))) Ht Hafter)).
      reflexivity.
  - intros error Hthrown.
    apply (thrown_by_an_entity w executionContext userTasks error).
    destruct (promiseAll _) as [tasks|e|]; cbn [bind] in Hthrown;
      [discriminate Hthrown | now injection Hthrown as -> | discriminate Hthrown].
Qed.

(** Of two entities without form fields, the second in the list is
    answered first, and its key is the one in the error. *)
Lemma X10_witness :
  _userTaskEntitiesToUserTaskList modelWorld sampleContext [taskMain; taskSub]
  = Returned (mkUserTaskList [publicUserTask taskMain; publicUserTask taskSub])
  /\ _userTaskEntitiesToUserTaskList
       modelWorld sampleContext
       [taskMain; taskWithoutForm; taskSub; taskWithoutExtensions]
     = Thrown (mkError UnprocessableEntityError
                       "UserTask with key 'Task_Y' has no form fields").
Proof.
  split.
  - apply (proj1 (proj1 (one_task_without_form_fields_fails_the_whole_list
                           modelWorld sampleContext [taskMain; taskSub])
                        (fun t _ => eq_refl))).
    intros t [<-|[<-|[]]]; reflexivity.
  - apply (proj2 (proj2 (proj1 (one_task_without_form_fields_fails_the_whole_list
                                  modelWorld sampleContext
                                  [taskMain; taskWithoutForm; taskSub;
                                   taskWithoutExtensions])
                               (fun t _ => eq_refl)))
             [taskMain; taskWithoutForm; taskSub] taskWithoutExtensions []).
    + reflexivity.
    + reflexivity.
    + intros u [<-|[<-|[<-|[]]]] Hu; try discriminate Hu. cbn. lia.
    + intros u [].
Defined.

Lemma can_access_spec processDefinitions accessibleLaneIds userTask :
  identityCanAccessUserTask processDefinitions accessibleLaneIds userTask = true
  <-> exists laneId,
      _getLaneIdForElement processDefinitions (task_key userTask) = Some laneId
      /\ In laneId accessibleLaneIds.
Proof.
  unfold identityCanAccessUserTask.
  destruct (_getLaneIdForElement processDefinitions (task_key userTask)) as [laneId|].
  - unfold includes. rewrite existsb_exists. split.
    + intros (x & Hx & Heq). apply String.eqb_eq in Heq. subst x. eauto.
    + intros (l & [= <-] & Hin). exists laneId. split; [exact Hin|apply String.eqb_refl].
  - split; [discriminate | intros (l & H & _); discriminate H].
Qed.

Lemma subseq_trans {A : Type} (xs ys zs : list A) :
  subseq xs ys -> subseq ys zs -> subseq xs zs.
Proof.
  intros H1 H2. revert xs H1.
  induction H2 as [|z ys zs _ IH|z ys zs _ IH]; intros xs H1.
  - exact H1.
  - apply subseq_skip. now apply IH.
  - inversion H1; subst; [apply subseq_skip | apply subseq_keep]; now apply IH.
Qed.

Lemma filter_subseq {A : Type} (f : A -> bool) (xs : list A) :
  subseq (filter f xs) xs.
Proof.
  induction xs as [|x xs IH]; simpl; [apply subseq_nil|].
  destruct (f x); [now apply subseq_keep | now apply subseq_skip].
Qed.

(** X11: the user tasks of a process instance that are handed out are,
    in datastore order, exactly the waiting user tasks of that instance
    whose key is given a lane that is among the accessible lane ids of the
    model of the instance; a task whose key is given no lane is left out,
    and nothing is handed out when there is no accessible lane. *)
Theorem visible_tasks_of_an_instance :
  forall (w : World) (executionContext : ExecutionContext)
         (processInstance : IProcessEntity) (visible : list IUserTaskEntity),
    _getAccessibleUserTasksForProcessInstance w executionContext processInstance
    = Returned visible ->
    exists accessibleLaneIds processDefinitions,
      _getIdsOfLanesThatCanBeAccessed w executionContext
                                      (def_key (processDef processInstance))
      = Returned accessibleLaneIds
      /\ accessibleLaneIds <> []
      /\ _getDefinitionsFromProcessModel w (processDef processInstance)
         = Returned processDefinitions
      /\ subseq visible (userTasks w)
      /\ forall t,
           In t visible <->
           In t (userTasks w)
           /\ proc_id (task_process t) = proc_id processInstance
           /\ task_state t = "wait"
           /\ exists laneId,
               _getLaneIdForElement processDefinitions (task_key t) = Some laneId
               /\ In laneId accessibleLaneIds.
Proof.
  intros w executionContext processInstance visible.
  unfold _getAccessibleUserTasksForProcessInstance.
  destruct (_getIdsOfLanesThatCanBeAccessed w executionContext
              (def_key (processDef processInstance))) as [ids|e|] eqn:Hids;
    cbn [bind]; try discriminate.
  destruct ids as [|i ids]; cbn [List.length Nat.eqb]; [discriminate|].
  destruct (_getDefinitionsFromProcessModel w (processDef processInstance))
    as [defs|e|] eqn:Hdefs; cbn [bind]; try discriminate.
  intros [= <-]. exists (i :: ids), defs.
  split; [reflexivity|]. split; [discriminate|]. split; [reflexivity|]. split.
  - unfold _getUserTasksForProcessInstance.
    eapply subseq_trans; apply filter_subseq.
  - intros t. unfold _getUserTasksForProcessInstance.
    rewrite !filter_In, andb_true_iff, !String.eqb_eq, can_access_spec. tauto.
Qed.

Lemma X11_witness :
  exists accessibleLaneIds processDefinitions,
    _getIdsOfLanesThatCanBeAccessed sampleWorld sampleContext (def_key (processDef pMain))
    = Returned accessibleLaneIds
    /\ accessibleLaneIds <> []
    /\ _getDefinitionsFromProcessModel sampleWorld (processDef pMain)
       = Returned processDefinitions
    /\ subseq [taskMain] (userTasks sampleWorld)
    /\ forall t,
         In t [taskMain] <->
         In t (userTasks sampleWorld)
         /\ proc_id (task_process t) = proc_id pMain
         /\ task_state t = "wait"
         /\ exists laneId,
             _getLaneIdForElement processDefinitions (task_key t) = Some laneId
             /\ In laneId accessibleLaneIds.
Proof.
  apply (visible_tasks_of_an_instance sampleWorld sampleContext pMain [taskMain]).
  reflexivity.
Defined.

Lemma lane_ids_inv (w : World) executionContext processModelKey ids :
  _getIdsOfLanesThatCanBeAccessed w executionContext processModelKey = Returned ids ->
  exists processModel identity processDefinitions,
    _getProcessModelByKey w executionContext processModelKey = Returned processModel
    /\ getIdentity w executionContext = Returned identity
    /\ _getDefinitionsFromProcessModel w processModel = Returned processDefinitions.
Proof.
  unfold _getIdsOfLanesThatCanBeAccessed.
  destruct (_getProcessModelByKey w executionContext processModelKey)
    as [pm|e|]; cbn [bind]; try discriminate.
  destruct (getIdentity w executionContext) as [identity|e|]; cbn [bind];
    try discriminate.
  destruct (_getDefinitionsFromProcessModel w pm) as [defs|e|] eqn:Hdefs; cbn [bind];
    try discriminate.
  intros _. exists pm, identity, defs. auto.
Qed.

(** X12: a user task of a process instance is handed out only if its
    key is referenced by a lane without child lane set, in the definitions
    of the instance, whose id is the id of a lane the identity is let into,
    in the definitions of the model as the datastore has it. *)
Theorem visible_task_sits_in_a_granted_lane :
  forall (w : World) (executionContext : ExecutionContext)
         (processInstance : IProcessEntity) (visible : list IUserTaskEntity)
         (t : IUserTaskEntity),
    _getAccessibleUserTasksForProcessInstance w executionContext processInstance
    = Returned visible ->
    In t visible ->
    exists identity storedModel storedDefinitions instanceDefinitions
           laneSet lane grantedSet granted,
      getIdentity w executionContext = Returned identity
      /\ _getProcessModelByKey w executionContext (def_key (processDef processInstance))
         = Returned storedModel
      /\ _getDefinitionsFromProcessModel w storedModel = Returned storedDefinitions
      /\ _getDefinitionsFromProcessModel w (processDef processInstance)
         = Returned instanceDefinitions
      /\ In laneSet (processLaneSets instanceDefinitions)
      /\ In lane (lanesOfTree laneSet)
      /\ childLaneSet lane = None
      /\ references lane (task_key t) = true
      /\ In grantedSet (processLaneSets storedDefinitions)
      /\ grants w identity grantedSet granted
      /\ lane_id granted = lane_id lane.
Proof.
  intros w executionContext processInstance visible t Hvisible Hin.
  destruct (visible_tasks_of_an_instance w executionContext processInstance visible
                                         Hvisible)
    as (ids & instanceDefs & Hids & _ & Hdefs & _ & Hspec).
  apply Hspec in Hin. destruct Hin as (_ & _ & _ & laneId & Hlane & Hid).
  destruct (lane_ids_inv w executionContext _ ids Hids)
    as (pm & identity & storedDefs & Hpm & Hidentity & Hstored).
  destruct (LaneFacts.accessible_lane_ids_are_ids_of_granted_lanes
              w executionContext _ pm identity storedDefs Hpm Hidentity Hstored)
    as (ids' & Hids' & Hgranted).
  rewrite Hids in Hids'. injection Hids' as <-.
  apply Hgranted in Hid. destruct Hid as (grantedSet & granted & Hgs & Hg & Hgid).
  destruct (LaneFacts.lane_id_for_element_is_a_referencing_leaf
              instanceDefs (task_key t) laneId Hlane)
    as (laneSet & lane & Hls & Htree & Hlid & Hleaf & Href).
  exists identity, pm, storedDefs, instanceDefs, laneSet, lane, grantedSet, granted.
  repeat (split; [assumption|]). congruence.
Qed.

Lemma X12_witness :
  exists identity storedModel storedDefinitions instanceDefinitions
         laneSet lane grantedSet granted,
    getIdentity sampleWorld sampleContext = Returned identity
    /\ _getProcessModelByKey sampleWorld sampleContext (def_key (processDef pMain))
       = Returned storedModel
    /\ _getDefinitionsFromProcessModel sampleWorld storedModel = Returned storedDefinitions
    /\ _getDefinitionsFromProcessModel sampleWorld (processDef pMain)
       = Returned instanceDefinitions
    /\ In laneSet (processLaneSets instanceDefinitions)
    /\ In lane (lanesOfTree laneSet)
    /\ childLaneSet lane = None
    /\ references lane (task_key taskMain) = true
    /\ In grantedSet (processLaneSets storedDefinitions)
    /\ grants sampleWorld identity grantedSet granted
    /\ lane_id granted = lane_id lane.
Proof.
  apply (visible_task_sits_in_a_granted_lane sampleWorld sampleContext pMain [taskMain]
                                             taskMain).
  - reflexivity.
  - now left.
Defined.

End TaskFacts.

(** ** Discovery of instances and models of a correlation *)

Module DiscoveryFacts.

Import Adapter Views Relations Samples ModelSamples.

Section Discovery.
Variable w : World.
Variable executionContext : ExecutionContext.

(** The discovery of sub-process instances queries only; it throws
    nothing. *)
Lemma sub_instances_never_throw :
  forall fuel pid error,
    _getSubProcessInstances w fuel executionContext pid <> Thrown error.
Proof.
  induction fuel as [|fuel IH]; intros pid error; [discriminate|].
  rewrite Correlation.sub_instances_as_loop.
  generalize (calledFrom w executionContext pid) at 2.
  induction (calledFrom w executionContext pid) as [|p rest IHrest]; intros result;
    [discriminate|].
  simpl.
  destruct (_getSubProcessInstances w fuel executionContext (proc_id p))
    as [l|e|] eqn:Hp; cbn [bind].
  - apply IHrest.
  - now elim (IH (proc_id p) e).
  - discriminate.
Qed.

Lemma subLoop_out_of_fuel fuel :
  forall rest result c,
    In c rest ->
    _getSubProcessInstances w fuel executionContext (proc_id c) = OutOfFuel ->
    subLoop w fuel executionContext rest result = OutOfFuel.
Proof.
  induction rest as [|p rest IH]; intros result c Hin Hc; [contradiction|].
  simpl.
  destruct (_getSubProcessInstances w fuel executionContext (proc_id p))
    as [l|e|] eqn:Hp; cbn [bind].
  - destruct Hin as [<- | Hin]; [congruence|]. eapply IH; eauto.
  - now elim (sub_instances_never_throw fuel (proc_id p) e).
  - reflexivity.
Qed.

Lemma cycle_below_a_child pid :
  reachesCycle w pid ->
  exists c, child w pid c /\ reachesCycle w (proc_id c).
Proof.
  intros (p & Hreach & Hcycle).
  inversion Hreach as [parent p' Hc | parent q p' Hc Hq]; subst.
  - exists p. split; [exact Hc|]. exists p. auto.
  - exists q. split; [exact Hc|]. exists p. auto.
Qed.

Lemma cycle_never_returns :
  forall fuel pid,
    reachesCycle w pid ->
    _getSubProcessInstances w fuel executionContext pid = OutOfFuel.
Proof.
  induction fuel as [|fuel IH]; intros pid Hcycle; [reflexivity|].
  rewrite Correlation.sub_instances_as_loop.
  destruct (cycle_below_a_child pid Hcycle) as (c & Hchild & Hc).
  apply (subLoop_out_of_fuel fuel _ _ c).
  - now apply Correlation.calledFrom_child.
  - now apply IH.
Qed.

End Discovery.

(** X13: the discovery of sub-process instances has no guard against
    cycles: below an instance from which an instance is reached that is
    reached from itself, [_getSubProcessInstances] comes to no result with
    any recursion budget, and neither does the resolution of a correlation
    whose main instance is such an instance; the discovery itself never
    throws. *)
Theorem discovery_below_a_cycle_never_returns :
  forall (w : World) (executionContext : ExecutionContext),
    (forall fuel pid error,
        _getSubProcessInstances w fuel executionContext pid <> Thrown error)
    /\ (forall pid,
           reachesCycle w pid ->
           forall fuel,
             _getSubProcessInstances w fuel executionContext pid = OutOfFuel)
    /\ (forall correlationId' mainId main,
           _getMainProcessInstanceIdFromCorrelation w executionContext correlationId'
           = Returned mainId ->
           _getProcessInstanceById w executionContext mainId = Returned main ->
           reachesCycle w mainId ->
           forall fuel,
             _getProcessInstancesForCorrelation w fuel executionContext correlationId'
             = OutOfFuel).
Proof.
  intros w executionContext. split; [|split].
  - apply sub_instances_never_throw.
  - intros pid Hcycle fuel. now apply cycle_never_returns.
  - intros correlationId' mainId main Hid Hmain Hcycle fuel.
    unfold _getProcessInstancesForCorrelation.
    rewrite Hid. cbn [bind]. rewrite Hmain. cbn [bind].
    now rewrite cycle_never_returns.
Qed.

Lemma loopWorld_cycle : reachesCycle loopWorld "pi_a".
Proof.
  assert (Hab : child loopWorld "pi_a" pLoopB).
  { split; [simpl; auto|].
    exists (mkNodeInstance "ca_a" "pi_a" BpmnType_callActivity). simpl. auto. }
  assert (Hba : child loopWorld "pi_b" pLoopA).
  { split; [simpl; auto|].
    exists (mkNodeInstance "ca_b" "pi_b" BpmnType_callActivity). simpl. auto 6. }
  exists pLoopB. split; [now apply descendant_child|].
  eapply descendant_step; [exact Hba|]. now apply descendant_child.
Qed.

Lemma X13_witness :
  _getProcessInstancesForCorrelation loopWorld 1000 clerkContext "corr_loop"
  = OutOfFuel.
Proof.
  apply (proj2 (proj2 (discovery_below_a_cycle_never_returns loopWorld clerkContext))
           "corr_loop" "pi_a" pLoopA eq_refl eq_refl loopWorld_cycle).
Defined.

Section ModelKeys.
Variable w : World.
Variable executionContext : ExecutionContext.

Lemma model_keys_as_loop fuel processModelKey :
  _getSubProcessModelKeys w (S fuel) executionContext processModelKey
  = keysLoop w fuel executionContext
             (_getNodesByTypeForProcessModel w executionContext processModelKey
                                             BpmnType_callActivity)
             (map subProcessKey
                  (_getNodesByTypeForProcessModel w executionContext processModelKey
                                                  BpmnType_callActivity)).
Proof. reflexivity. Qed.

Lemma call_activity_calls processModelKey k :
  In k (map subProcessKey
            (_getNodesByTypeForProcessModel w executionContext processModelKey
                                            BpmnType_callActivity))
  <-> callsModel w processModelKey k.
Proof.
  unfold callsModel, _getNodesByTypeForProcessModel. rewrite in_map_iff. split.
  - intros (n & Hk & Hn). apply filter_In in Hn. destruct Hn as [Hn Htest].
    apply andb_true_iff in Htest. rewrite !String.eqb_eq in Htest.
    exists n. tauto.
  - intros (n & Hn & Hkey & Htype & Hk). exists n. split; [exact Hk|].
    apply filter_In. split; [exact Hn|].
    apply andb_true_iff. rewrite !String.eqb_eq. auto.
Qed.

Lemma calledModel_inv root k :
  calledModel w root k <->
  callsModel w root k \/ exists via, callsModel w root via /\ calledModel w via k.
Proof.
  split.
  - intros H. inversion H; subst; [now left | right; eauto].
  - intros [H | (via & Hvia & H)];
      [now apply calledModel_direct | eapply calledModel_step; eauto].
Qed.

Lemma keysLoop_returned fuel :
  (forall key ks,
      _getSubProcessModelKeys w fuel executionContext key = Returned ks ->
      forall k, In k ks <-> calledModel w key k) ->
  forall rest result ks,
    keysLoop w fuel executionContext rest result = Returned ks ->
    exists subs,
      ks = result ++ subs
      /\ forall k, In k subs <->
                   exists n, In n rest /\ calledModel w (subProcessKey n) k.
Proof.
  intros IHfuel.
  induction rest as [|n rest IH]; intros result ks Hks; simpl in Hks.
  - injection Hks as <-. exists []. split; [now rewrite app_nil_r|].
    intros k. split; [contradiction | intros (n & [] & _)].
  - destruct (_getSubProcessModelKeys w fuel executionContext (subProcessKey n))
      as [l|e|] eqn:Hn; cbn [bind] in Hks; try discriminate.
    destruct (IH (result ++ l) ks Hks) as (subs & -> & Hsubs).
    exists (l ++ subs). split; [now rewrite app_assoc|].
    intros k. rewrite in_app_iff, Hsubs, (IHfuel _ _ Hn). split.
    + intros [H | (m & Hm & H)]; [exists n | exists m]; split; auto;
        [now left | now right].
    + intros (m & [<- | Hm] & H); [now left | right; eauto].
Qed.

(** The keys found below a process model are the keys of the models
    that chains of call activities name. *)
Lemma sub_model_keys_are_called_models :
  forall fuel key ks,
    _getSubProcessModelKeys w fuel executionContext key = Returned ks ->
    forall k, In k ks <-> calledModel w key k.
Proof.
  induction fuel as [|fuel IH]; intros key ks Hks; [discriminate|].
  rewrite model_keys_as_loop in Hks.
  destruct (keysLoop_returned fuel IH _ _ _ Hks) as (subs & -> & Hsubs).
  intros k. rewrite in_app_iff, call_activity_calls, Hsubs, calledModel_inv. split.
  - intros [H | (n & Hn & H)]; [now left|]. right. exists (subProcessKey n).
    split; [|exact H]. apply call_activity_calls. now apply in_map.
  - intros [H | (via & Hvia & H)]; [now left|]. right.
    apply call_activity_calls in Hvia. apply in_map_iff in Hvia.
    destruct Hvia as (n & <- & Hn). eauto.
Qed.

End ModelKeys.

(** X14: the process model keys of a correlation, when they are
    returned, are the key of the model of the main instance, first, and
    then exactly the keys that chains of call-activity definitions name,
    starting from the model whose key is the key of the main instance; a
    process model belongs to the correlation exactly if it is one of
    these. *)
Theorem model_keys_of_a_correlation :
  forall (w : World) (fuel : nat) (executionContext : ExecutionContext)
         (correlationId' : string) (keys : list string),
    _getProcessModelKeysForCorrelation w fuel executionContext correlationId'
    = Returned keys ->
    exists main called,
      In main (processes w)
      /\ _getMainProcessInstanceIdFromCorrelation w executionContext correlationId'
         = Returned (proc_id main)
      /\ keys = def_key (processDef main) :: called
      /\ (forall k, In k called <-> calledModel w (proc_key main) k)
      /\ forall processModelKey,
           _processModelBelongsToCorrelation w fuel executionContext correlationId'
                                             processModelKey
           = Returned true
           <-> processModelKey = def_key (processDef main)
               \/ calledModel w (proc_key main) processModelKey.
Proof.
  intros w fuel executionContext correlationId' keys Hkeys.
  pose proof Hkeys as Hkeys'.
  unfold _getProcessModelKeysForCorrelation in Hkeys.
  destruct (_getMainProcessInstanceIdFromCorrelation w executionContext correlationId')
    as [mainId|e|] eqn:Hid; cbn [bind] in Hkeys; try discriminate.
  destruct (_getProcessInstanceById w executionContext mainId)
    as [main|e|] eqn:Hmain; cbn [bind] in Hkeys; try discriminate.
  destruct (_getSubProcessModelKeys w fuel executionContext (proc_key main))
    as [called|e|] eqn:Hcalled; cbn [bind] in Hkeys; try discriminate.
  injection Hkeys as <-.
  assert (Hfound : In main (processes w) /\ proc_id main = mainId).
  { unfold _getProcessInstanceById in Hmain.
    destruct (find_first _ (processes w)) as [p|] eqn:Hfind; [|discriminate].
    injection Hmain as ->. apply find_some in Hfind.
    rewrite String.eqb_eq in Hfind. exact Hfind. }
  destruct Hfound as [Hin Hmid].
  pose proof (sub_model_keys_are_called_models w executionContext fuel _ _ Hcalled)
    as Hspec.
  exists main, called.
  split; [exact Hin|]. split; [now rewrite Hmid|]. split; [reflexivity|].
  split; [exact Hspec|].
  intros processModelKey. unfold _processModelBelongsToCorrelation.
  rewrite Hkeys'. cbn [bind]. unfold includes. split.
  - intros H.
    assert (Hex : existsb (String.eqb processModelKey)
                          (def_key (processDef main) :: called) = true)
      by congruence.
    apply existsb_exists in Hex. destruct Hex as (k & Hk & Heq).
    apply String.eqb_eq in Heq. subst k.
    destruct Hk as [Hk | Hk]; [left; now symmetry | right; now apply Hspec].
  - intros H. f_equal. apply existsb_exists. exists processModelKey.
    split; [|apply String.eqb_refl].
    destruct H as [-> | H]; [now left | right; now apply Hspec].
Qed.

Lemma X14_witness :
  exists main called,
    In main (processes sampleWorld)
    /\ _getMainProcessInstanceIdFromCorrelation sampleWorld sampleContext "corr_1"
       = Returned (proc_id main)
    /\ ["main_model"; "sub_model"; "nested_model"] = def_key (processDef main) :: called
    /\ (forall k, In k called <-> calledModel sampleWorld (proc_key main) k)
    /\ forall processModelKey,
         _processModelBelongsToCorrelation sampleWorld 6 sampleContext "corr_1"
                                           processModelKey
         = Returned true
         <-> processModelKey = def_key (processDef main)
             \/ calledModel sampleWorld (proc_key main) processModelKey.
Proof.
  apply (model_keys_of_a_correlation sampleWorld 6 sampleContext "corr_1"
                                     ["main_model"; "sub_model"; "nested_model"]).
  reflexivity.
Defined.

End DiscoveryFacts.

(** ** The service: the payload of a finish call *)

Module PayloadFacts.

Import Views.

Section Validation.
Variable name : string.
Variable notAnObject empty : string.
Variable validate : JsValue -> Outcome JsValue.
Hypothesis validate_eq :
  forall finishedTask,
    validate finishedTask
    = (userTaskIsNotAnObject <-
         (if isUndefined finishedTask then Returned true
          else
            fields <- getProperty finishedTask name ;;
            Returned (isUndefined fields
                      || negb (String.eqb (typeof fields) "object")
                      || isArray fields)) ;;
       if (userTaskIsNotAnObject : bool)
       then throw BadRequestError notAnObject
       else
         fields <- getProperty finishedTask name ;;
         keys <- objectKeys fields ;;
         if Nat.eqb (List.length keys) 0
         then throw BadRequestError empty
         else Returned fields).

Lemma property_read (finishedTask : JsValue) :
  (exists fields, getProperty finishedTask name = Returned fields)
  \/ (finishedTask = JsUndefined
      /\ getProperty finishedTask name
         = throw TypeError ("Cannot read property '" ++ name ++ "' of undefined"))
  \/ (finishedTask = JsNull
      /\ getProperty finishedTask name
         = throw TypeError ("Cannot read property '" ++ name ++ "' of null")).
Proof.
  destruct finishedTask; simpl; eauto.
  destruct (lookup name props); eauto.
Qed.

Lemma shape_of_fields (fields : JsValue) :
  (exists prop props, fields = JsObject (prop :: props))
  \/ fields = JsNull
  \/ malformedFormFields fields.
Proof.
  unfold malformedFormFields.
  destruct fields as [| |b|n|s|items|[|prop props]]; simpl; eauto 6;
    right; right; right; left; discriminate.
Qed.

Lemma validate_on_fields finishedTask fields :
  getProperty finishedTask name = Returned fields ->
  validate finishedTask
  = if isUndefined fields || negb (String.eqb (typeof fields) "object") || isArray fields
    then throw BadRequestError notAnObject
    else
      keys <- objectKeys fields ;;
      if Nat.eqb (List.length keys) 0
      then throw BadRequestError empty
      else Returned fields.
Proof.
  intros Hget. rewrite validate_eq.
  assert (Hdef : isUndefined finishedTask = false)
    by (destruct finishedTask; simpl in *; try reflexivity; discriminate Hget).
  rewrite Hdef, Hget. cbn [bind].
  destruct (isUndefined fields || negb (String.eqb (typeof fields) "object")
            || isArray fields); reflexivity.
Qed.

Lemma validate_malformed finishedTask fields :
  getProperty finishedTask name = Returned fields ->
  malformedFormFields fields ->
  exists msg, validate finishedTask = Thrown (mkError BadRequestError msg).
Proof.
  intros Hget Hbad. rewrite (validate_on_fields _ _ Hget).
  destruct Hbad as [-> | [Htype | [Harr | ->]]].
  - eexists; reflexivity.
  - destruct (String.eqb_spec (typeof fields) "object") as [E|_]; [now elim Htype|].
    cbn [negb]. rewrite orb_true_r. eexists; reflexivity.
  - rewrite Harr, orb_true_r. eexists; reflexivity.
  - eexists; reflexivity.
Qed.

Lemma validation_outcomes (finishedTask : JsValue) :
  (forall result,
      validate finishedTask = Returned result
      <-> getProperty finishedTask name = Returned result
          /\ exists prop props, result = JsObject (prop :: props))
  /\ (forall error,
         validate finishedTask = Thrown error ->
         (kind error = BadRequestError
          /\ exists fields,
              carries finishedTask name fields /\ malformedFormFields fields)
         \/ (kind error = TypeError
             /\ (finishedTask = JsNull
                 \/ getProperty finishedTask name = Returned JsNull)))
  /\ validate finishedTask <> OutOfFuel.
Proof.
  destruct (property_read finishedTask)
    as [(fields & Hget) | [(-> & _) | (-> & _)]].
  - destruct (shape_of_fields fields) as [(prop & props & ->) | [-> | Hbad]].
    + assert (Hok : validate finishedTask = Returned (JsObject (prop :: props)))
        by (rewrite (validate_on_fields _ _ Hget); reflexivity).
      rewrite Hok. split; [|split; [intros error H|]; discriminate].
      intros result. split.
      * intros [= <-]. split; [exact Hget | eauto].
      * intros [Hres _]. congruence.
    + assert (Hnull : validate finishedTask
                      = throw TypeError "Cannot convert undefined or null to object")
        by (rewrite (validate_on_fields _ _ Hget); reflexivity).
      rewrite Hnull. split; [|split; [|discriminate]].
      * intros result. split; [discriminate|].
        intros (Hres & prop & props & ->). congruence.
      * intros error [= <-]. right. split; [reflexivity | now right].
    + destruct (validate_malformed _ _ Hget Hbad) as (msg & Hthrown).
      rewrite Hthrown. split; [|split; [|discriminate]].
      * intros result. split; [discriminate|].
        intros (Hres & prop & props & ->).
        assert (fields = JsObject (prop :: props)) as -> by congruence.
        destruct Hbad as [H | [H | [H | H]]]; try discriminate H. now elim H.
      * intros error [= <-]. left. split; [reflexivity|].
        exists fields. split; [now right | exact Hbad].
  - rewrite validate_eq. cbn. split; [|split; [|discriminate]].
    + intros result. split; [discriminate | intros [H _]; discriminate H].
    + intros error [= <-]. left. split; [reflexivity|].
      exists JsUndefined. split; [now left | now left].
  - rewrite validate_eq. cbn. split; [|split; [|discriminate]].
    + intros result. split; [discriminate | intros [H _]; discriminate H].
    + intros error [= <-]. right. split; [reflexivity | now left].
Qed.

End Validation.

(** X15: the payload of a finish call is accepted exactly when its form
    fields are an object with at least one property, and what is handed on
    is that object itself; a rejection is a [BadRequestError] for form
    fields that are undefined, no object, an array or an object without
    properties, and a [TypeError] for a [null] payload or [null] form
    fields.  The service reads [formFields], the adapter [form_fields]. *)
Theorem form_fields_are_accepted_iff_a_filled_object :
  forall finishedTask : JsValue,
    ((forall result,
         PersistenceService._getUserTaskResultFromUserTaskConfig finishedTask
         = Returned result
         <-> getProperty finishedTask "formFields" = Returned result
             /\ exists prop props, result = JsObject (prop :: props))
     /\ (forall error,
            PersistenceService._getUserTaskResultFromUserTaskConfig finishedTask
            = Thrown error ->
            (kind error = BadRequestError
             /\ exists fields,
                 carries finishedTask "formFields" fields /\ malformedFormFields fields)
            \/ (kind error = TypeError
                /\ (finishedTask = JsNull
                    \/ getProperty finishedTask "formFields" = Returned JsNull)))
     /\ PersistenceService._getUserTaskResultFromUserTaskConfig finishedTask
        <> OutOfFuel)
    /\ ((forall result,
            Adapter._getUserTaskResultFromUserTaskConfig finishedTask = Returned result
            <-> getProperty finishedTask "form_fields" = Returned result
                /\ exists prop props, result = JsObject (prop :: props))
        /\ (forall error,
               Adapter._getUserTaskResultFromUserTaskConfig finishedTask = Thrown error ->
               (kind error = BadRequestError
                /\ exists fields,
                    carries finishedTask "form_fields" fields
                    /\ malformedFormFields fields)
               \/ (kind error = TypeError
                   /\ (finishedTask = JsNull
                       \/ getProperty finishedTask "form_fields" = Returned JsNull)))
        /\ Adapter._getUserTaskResultFromUserTaskConfig finishedTask <> OutOfFuel).
Proof.
  intros finishedTask. split.
  - apply (validation_outcomes
             "formFields" "The UserTasks formFields is not an object."
             "The UserTasks formFields are empty."
             PersistenceService._getUserTaskResultFromUserTaskConfig
             (fun _ => eq_refl)).
  - apply (validation_outcomes
             "form_fields" "The UserTasks form_fields is not an object."
             "The UserTasks form_fields are empty."
             Adapter._getUserTaskResultFromUserTaskConfig
             (fun _ => eq_refl)).
Qed.

Lemma X15_witness :
  kind (mkError TypeError "Cannot read property 'formFields' of null") = TypeError
  /\ (JsNull = JsNull \/ getProperty JsNull "formFields" = Returned JsNull).
Proof.
  destruct (proj1 (proj2 (proj1 (form_fields_are_accepted_iff_a_filled_object JsNull)))
                  (mkError TypeError "Cannot read property 'formFields' of null")
                  eq_refl)
    as [[Hkind _] | H].
  - discriminate Hkind.
  - exact H.
Defined.

End PayloadFacts.

(** ** The service: the user tasks that wait in a correlation *)

Module ServiceTaskFacts.

Import Views ServiceSamples PersistenceService.

Section Waiting.
Variable w : World.

Lemma loop_as_filter processModelId' suspendedFlowNodes :
  forall suspendedUserTasks,
    userTasksOfProcessModel w processModelId' suspendedFlowNodes suspendedUserTasks
    = _convertSuspendedFlowNodes
        w (filter (fun n => String.eqb (processModelId (token n)) processModelId')
                  suspendedFlowNodes)
        suspendedUserTasks.
Proof.
  induction suspendedFlowNodes as [|n rest IH]; intros acc; [reflexivity|].
  cbn [userTasksOfProcessModel filter].
  destruct (String.eqb (processModelId (token n)) processModelId'); cbn [negb].
  - cbn [_convertSuspendedFlowNodes].
    destruct (_convertSuspendedFlowNodeToUserTask w n) as [[task|]|e|]; cbn [bind];
      auto.
  - apply IH.
Qed.

(** The user task a suspended flow node stands for in a process model. *)
Lemma converted_node processModel n :
  getProcessModelById w (processModelId (token n)) = Returned processModel ->
  (exists nid formFields,
      getFlowNodeById processModel (flowNodeId n)
      = Some (mkFlowNode nid (UserTaskNode formFields))
      /\ _convertSuspendedFlowNodeToUserTask w n
         = Returned (Some (_convertToConsumerApiUserTask w formFields n)))
  \/ ((forall nid formFields,
          getFlowNodeById processModel (flowNodeId n)
          <> Some (mkFlowNode nid (UserTaskNode formFields)))
      /\ _convertSuspendedFlowNodeToUserTask w n = Returned None).
Proof.
  intros Hmodel. unfold _convertSuspendedFlowNodeToUserTask. rewrite Hmodel. cbn [bind].
  destruct (getFlowNodeById processModel (flowNodeId n)) as [[nid [ff| | |]]|];
    try (right; split; [intros ? ? H; discriminate H | reflexivity]).
  left. exists nid, ff. split; reflexivity.
Qed.

Lemma converted_nodes processModel nodes :
  (forall n, In n nodes ->
             getProcessModelById w (processModelId (token n)) = Returned processModel) ->
  forall acc,
  exists tasks,
    _convertSuspendedFlowNodes w nodes acc = Returned (acc ++ tasks)
    /\ forall t,
        In t tasks <->
        exists n nid formFields,
          In n nodes
          /\ getFlowNodeById processModel (flowNodeId n)
             = Some (mkFlowNode nid (UserTaskNode formFields))
          /\ t = _convertToConsumerApiUserTask w formFields n.
Proof.
  induction nodes as [|n rest IH]; intros Hmodels acc.
  - exists []. split; [cbn; now rewrite app_nil_r|].
    intros t. split; [contradiction | intros (n & _ & _ & [] & _)].
  - assert (Hrest : forall m, In m rest ->
                getProcessModelById w (processModelId (token m)) = Returned processModel)
      by (intros m Hm; apply Hmodels; now right).
    cbn [_convertSuspendedFlowNodes].
    destruct (converted_node processModel n (Hmodels n (or_introl eq_refl)))
      as [(nid & ff & Hnode & ->) | (Hnone & ->)]; cbn [bind].
    + destruct (IH Hrest (acc ++ [_convertToConsumerApiUserTask w ff n]))
        as (tasks & -> & Htasks).
      exists (_convertToConsumerApiUserTask w ff n :: tasks).
      split; [now rewrite <- app_assoc|].
      intros t. cbn [In]. rewrite Htasks. split.
      * intros [<- | (m & nid' & ff' & Hm & Hget & ->)].
        -- exists n, nid, ff. split; [now left | split; [exact Hnode | reflexivity]].
        -- exists m, nid', ff'. split; [now right | split; [exact Hget | reflexivity]].
      * intros (m & nid' & ff' & [<- | Hm] & Hget & ->).
        -- left. rewrite Hnode in Hget. now injection Hget as _ <-.
        -- right. exists m, nid', ff'. auto.
    + destruct (IH Hrest acc) as (tasks & -> & Htasks).
      exists tasks. split; [reflexivity|].
      intros t. rewrite Htasks. split.
      * intros (m & nid' & ff' & Hm & Hget & ->).
        exists m, nid', ff'. split; [now right | split; [exact Hget | reflexivity]].
      * intros (m & nid' & ff' & [<- | Hm] & Hget & ->).
        -- now elim (Hnone nid' ff').
        -- exists m, nid', ff'. auto.
Qed.

Lemma first_failure processModelId' error nodes :
  (forall n, In n nodes -> processModelId (token n) = processModelId') ->
  getProcessModelById w processModelId' = Thrown error ->
  nodes <> [] ->
  forall acc, _convertSuspendedFlowNodes w nodes acc = Thrown error.
Proof.
  intros Hall Hmodel Hsome acc. destruct nodes as [|n rest]; [now elim Hsome|].
  cbn [_convertSuspendedFlowNodes]. unfold _convertSuspendedFlowNodeToUserTask.
  rewrite (Hall n (or_introl eq_refl)), Hmodel. reflexivity.
Qed.

End Waiting.

(** X16: the user tasks of a process model in a correlation are the
    conversion of the suspended flow nodes of the correlation whose token
    names the process model, so that no other process model is loaded.
    With the process model at hand the call returns, and a task is listed
    exactly if it is the conversion of such a flow node that is a user task
    of the process model; when the process model cannot be loaded, the call
    fails with the error of the lookup if such a flow node exists, and
    returns the empty list if none does. *)
Theorem waiting_tasks_of_a_process_model_in_a_correlation :
  forall (w : World) (context : ConsumerContext) (processModelId' correlationId' : string),
    let ofModel :=
      filter (fun n => String.eqb (processModelId (token n)) processModelId')
             (querySuspendedByCorrelation w correlationId') in
    getUserTasksForProcessModelInCorrelation w context processModelId' correlationId'
    = _convertSuspendedFlowNodesToUserTaskList w ofModel
    /\ (forall processModel,
           getProcessModelById w processModelId' = Returned processModel ->
           exists taskList,
             getUserTasksForProcessModelInCorrelation w context processModelId'
                                                      correlationId'
             = Returned taskList
             /\ forall t,
                 In t (userTasks taskList) <->
                 exists n nid formFields,
                   In n (querySuspendedByCorrelation w correlationId')
                   /\ processModelId (token n) = processModelId'
                   /\ getFlowNodeById processModel (flowNodeId n)
                      = Some (mkFlowNode nid (UserTaskNode formFields))
                   /\ t = _convertToConsumerApiUserTask w formFields n)
    /\ (forall error,
           getProcessModelById w processModelId' = Thrown error ->
           (ofModel = [] ->
            getUserTasksForProcessModelInCorrelation w context processModelId'
                                                     correlationId'
            = Returned (mkUserTaskList []))
           /\ (ofModel <> [] ->
               getUserTasksForProcessModelInCorrelation w context processModelId'
                                                        correlationId'
               = Thrown error)).
Proof.
  intros w context processModelId' correlationId' ofModel.
  assert (Heq : getUserTasksForProcessModelInCorrelation w context processModelId'
                                                         correlationId'
                = _convertSuspendedFlowNodesToUserTaskList w ofModel).
  { unfold getUserTasksForProcessModelInCorrelation,
      _convertSuspendedFlowNodesToUserTaskList.
    now rewrite loop_as_filter. }
  assert (Hall : forall n, In n ofModel -> processModelId (token n) = processModelId').
  { intros n Hn. apply filter_In in Hn. now apply String.eqb_eq. }
  split; [exact Heq|]. split.
  - intros processModel Hmodel.
    destruct (converted_nodes w processModel ofModel) with (acc := @nil UserTask)
      as (tasks & Hconv & Htasks).
    { intros n Hn. now rewrite (Hall n Hn). }
    exists (mkUserTaskList tasks). split.
    + rewrite Heq. unfold _convertSuspendedFlowNodesToUserTaskList.
      rewrite Hconv. reflexivity.
    + intros t. cbn [userTasks]. rewrite Htasks. split.
      * intros (n & nid & ff & Hn & Hget & ->). exists n, nid, ff.
        pose proof (Hall n Hn) as Hpm. apply filter_In in Hn. tauto.
      * intros (n & nid & ff & Hn & Hpm & Hget & ->). exists n, nid, ff.
        split; [|split; [exact Hget | reflexivity]].
        apply filter_In. split; [exact Hn | now apply String.eqb_eq].
  - intros error Hmodel. split; intros Hnodes; rewrite Heq;
      unfold _convertSuspendedFlowNodesToUserTaskList.
    + rewrite Hnodes. reflexivity.
    + rewrite (first_failure w processModelId' error ofModel Hall Hmodel Hnodes).
      reflexivity.
Qed.

Lemma X16_witness :
  (exists taskList,
    getUserTasksForProcessModelInCorrelation serviceWorld bobContext "main_model" "corr_1"
    = Returned taskList
    /\ forall t,
        In t (userTasks taskList) <->
        exists n nid formFields,
          In n (querySuspendedByCorrelation serviceWorld "corr_1")
          /\ processModelId (token n) = "main_model"
          /\ getFlowNodeById mainModel (flowNodeId n)
             = Some (mkFlowNode nid (UserTaskNode formFields))
          /\ t = _convertToConsumerApiUserTask serviceWorld formFields n)
  /\ getUserTasksForProcessModelInCorrelation serviceWorld bobContext "ghost_model"
                                              "corr_1"
     = Returned (mkUserTaskList []).
Proof.
  split.
  - apply (proj1 (proj2 (waiting_tasks_of_a_process_model_in_a_correlation
                           serviceWorld bobContext "main_model" "corr_1"))
                 mainModel).
    reflexivity.
  - apply (proj1 (proj2 (proj2 (waiting_tasks_of_a_process_model_in_a_correlation
                                  serviceWorld bobContext "ghost_model" "corr_1"))
                        (mkError NotFoundError "ProcessModel not found") eq_refl)).
    reflexivity.
Defined.

Section Finishing.
Variable w : World.

Lemma converted_tasks_keep_their_id nodes :
  forall acc tasks,
    _convertSuspendedFlowNodes w nodes acc = Returned tasks ->
    (forall t, In t acc -> key t = id t) ->
    forall t, In t tasks -> key t = id t.
Proof.
  induction nodes as [|n rest IH]; intros acc tasks Hconv Hacc.
  - injection Hconv as <-. exact Hacc.
  - cbn [_convertSuspendedFlowNodes] in Hconv.
    unfold _convertSuspendedFlowNodeToUserTask in Hconv.
    destruct (getProcessModelById w (processModelId (token n))) as [model|e|];
      cbn [bind] in Hconv; try discriminate Hconv.
    destruct (getFlowNodeById model (flowNodeId n)) as [[nid [ff| | |]]|];
      cbn [bind] in Hconv; try (now apply (IH acc tasks Hconv Hacc)).
    apply (IH _ tasks Hconv). intros t Ht. apply in_app_or in Ht.
    destruct Ht as [Ht | [<- | []]]; [now apply Hacc | reflexivity].
Qed.

Lemma found_by_its_key userTaskId (tasks : list UserTask) :
  (In userTaskId (map key tasks) ->
   exists task, find_first (fun task => String.eqb (key task) userTaskId) tasks
                = Some task
                /\ key task = userTaskId /\ In task tasks)
  /\ (~ In userTaskId (map key tasks) ->
      find_first (fun task => String.eqb (key task) userTaskId) tasks = None).
Proof.
  unfold find_first. split.
  - intros Hin. apply in_map_iff in Hin. destruct Hin as (t & Hkey & Ht).
    destruct (find (fun task => String.eqb (key task) userTaskId) tasks)
      as [task|] eqn:Hfind.
    + apply find_some in Hfind. destruct Hfind as [Hin Heq].
      apply String.eqb_eq in Heq. eauto.
    + apply (find_none _ _ Hfind) in Ht. cbv beta in Ht.
      rewrite Hkey, String.eqb_refl in Ht. discriminate Ht.
  - intros Hnot.
    destruct (find (fun task => String.eqb (key task) userTaskId) tasks)
      as [task|] eqn:Hfind; [|reflexivity].
    apply find_some in Hfind. destruct Hfind as [Hin Heq].
    apply String.eqb_eq in Heq. elim Hnot. apply in_map_iff. eauto.
Qed.

End Finishing.

(** X17: a finish call of the service for a user task id that is not
    among the waiting user tasks of the process model in the correlation
    fails with a [NotFoundError], whatever it submits, and leaves the event
    aggregator alone.  For an id that is among them and a payload that
    passes the validation, the call subscribes once to
    [/processengine/node/<id>/finished] and then publishes the validated
    form fields to [/processengine/node/<id>/finish], both with the id of
    the request. *)
Theorem service_finish_is_settled_by_the_request :
  forall (w : World) (eventAggregator : EventAggregator) (context : ConsumerContext)
         (processModelId' correlationId' userTaskId : string) (userTaskResult : JsValue)
         (executionContext : ExecutionContext) (taskList : UserTaskList),
    _createExecutionContextFromConsumerContext w context = Returned executionContext ->
    getUserTasksForProcessModelInCorrelation w context processModelId' correlationId'
    = Returned taskList ->
    (~ In userTaskId (map key (userTasks taskList)) ->
     finishUserTask w eventAggregator context processModelId' correlationId' userTaskId
                    userTaskResult
     = (Thrown (mkError NotFoundError
                        ("Process model '" ++ processModelId' ++ "' in correlation '"
                         ++ correlationId' ++ "' does not have a user task '"
                         ++ userTaskId ++ "'")),
        eventAggregator))
    /\ (In userTaskId (map key (userTasks taskList)) ->
        forall fields,
          _getUserTaskResultFromUserTaskConfig userTaskResult = Returned fields ->
          finishUserTask w eventAggregator context processModelId' correlationId'
                         userTaskId userTaskResult
          = (Returned tt,
             eventAggregator
               ++ [SubscribeOnce ("/processengine/node/" ++ userTaskId ++ "/finished");
                   Publish ("/processengine/node/" ++ userTaskId ++ "/finish")
                           (JsObject [("data", JsObject [("token", fields)])])])).
Proof.
  intros w eventAggregator context processModelId' correlationId' userTaskId
         userTaskResult executionContext taskList Hctx Hlist.
  destruct (found_by_its_key userTaskId (userTasks taskList)) as [Hfound Hmissing].
  split.
  - intros Hnot. unfold finishUserTask, finishUserTaskChecks.
    rewrite Hctx. cbn [bind]. rewrite Hlist. cbn [bind].
    rewrite (Hmissing Hnot). reflexivity.
  - intros Hin fields Hfields.
    destruct (Hfound Hin) as (task & Hfind & Hkey & Htask).
    assert (Hid : id task = userTaskId).
    { rewrite <- Hkey. symmetry.
      pose proof Hlist as Hloop.
      unfold getUserTasksForProcessModelInCorrelation in Hloop.
      rewrite loop_as_filter in Hloop.
      destruct (_convertSuspendedFlowNodes w _ []) as [tasks|e|] eqn:Hconv;
        cbn [bind] in Hloop; try discriminate Hloop.
      injection Hloop as <-.
      apply (converted_tasks_keep_their_id w _ _ _ Hconv); [contradiction | exact Htask]. }
    unfold finishUserTask, finishUserTaskChecks.
    rewrite Hctx. cbn [bind]. rewrite Hlist. cbn [bind].
    rewrite Hfind, Hfields. cbn [bind]. rewrite Hid.
    unfold publish, subscribeOnce, finishedChannel, finishChannel, finishMessage.
    now rewrite <- app_assoc.
Qed.

Lemma X17_witness :
  finishUserTask serviceWorld [] bobContext "main_model" "corr_1" "Task_N"
                 (JsObject [("formFields", JsObject [("name", JsString "Bob")])])
  = (Returned tt,
     [SubscribeOnce "/processengine/node/Task_N/finished";
      Publish "/processengine/node/Task_N/finish"
              (JsObject [("data",
                          JsObject [("token", JsObject [("name", JsString "Bob")])])])])
  /\ finishUserTask serviceWorld [] bobContext "main_model" "corr_1" "Task_Unknown"
                    (JsObject [("formFields", JsObject [("name", JsString "Bob")])])
     = (Thrown (mkError NotFoundError
                        "Process model 'main_model' in correlation 'corr_1' does not have a user task 'Task_Unknown'"),
        []).
Proof.
  split.
  - apply (proj2 (service_finish_is_settled_by_the_request
                    serviceWorld [] bobContext "main_model" "corr_1" "Task_N"
                    (JsObject [("formFields", JsObject [("name", JsString "Bob")])])
                    (mkExecutionContext "bob") (mkUserTaskList [waitingUserTask])
                    eq_refl eq_refl)).
    + cbn. now left.
    + reflexivity.
  - apply (proj1 (service_finish_is_settled_by_the_request
                    serviceWorld [] bobContext "main_model" "corr_1" "Task_Unknown"
                    (JsObject [("formFields", JsObject [("name", JsString "Bob")])])
                    (mkExecutionContext "bob") (mkUserTaskList [waitingUserTask])
                    eq_refl eq_refl)).
    cbn. intros [H | []]. discriminate H.
Defined.

End ServiceTaskFacts.

(** ** The service: the result of a correlation, property by property *)

Module ResultFacts.

Import Views ServiceSamples PersistenceService.











(** X19: with the process model at hand, the service over the facade
    rejects a correlation exactly if the correlation has no flow node
    instance at all, and then with a [NotFoundError]; a correlation whose
    instances contribute nothing gives the empty list.  The service over
    the persistence layer gives the empty object in both cases. *)
Theorem correlation_without_results :
  forall (fw : FacadeService.World) (w : World) (context : ConsumerContext)
         (correlationId' processModelId' : string) (processModel : Process),
    let instances :=
      FacadeService.queryByCorrelation fw (FacadeService.mkFacade (identity context))
                                       correlationId' in
    FacadeService.getProcessModelById fw (FacadeService.mkFacade (identity context))
                                      processModelId'
    = Returned processModel ->
    getProcessModelById w processModelId' = Returned processModel ->
    (forall error,
        FacadeService.getProcessResultForCorrelation fw context correlationId'
                                                     processModelId'
        = Thrown error
        <-> instances = []
            /\ error = mkError NotFoundError
                               ("No process results for correlation with id '"
                                ++ correlationId' ++ "' found."))
    /\ (FacadeService.getProcessResultForCorrelation fw context correlationId'
                                                     processModelId'
        = Returned []
        <-> instances <> []
            /\ forall i, In i instances ->
                         FacadeService.isResultOfCorrelation
                           (getEndEvents processModel) processModelId' i = false)
    /\ ((forall i, In i (queryByCorrelation w correlationId') ->
                   isResultOfCorrelation (getEndEvents processModel) processModelId' i
                   = false) ->
        getProcessResultForCorrelation w context correlationId' processModelId'
        = Returned (JsObject [])).
Proof.
  intros fw w context correlationId' processModelId' processModel instances
         Hfacade Hmodel.
  assert (Hnone : forall (A : Type) (f : A -> bool) (l : list A),
             filter f l = [] <-> forall x, In x l -> f x = false).
  { intros A f l. induction l as [|x rest IH]; cbn [filter].
    - split; [intros _ x [] | reflexivity].
    - destruct (f x) eqn:Hx.
      + split; [discriminate|]. intros H.
        rewrite (H x (or_introl eq_refl)) in Hx. discriminate Hx.
      + rewrite IH. split.
        * intros H y [<- | Hy]; auto.
        * intros H y Hy. apply H. now right. }
  assert (Hrun : FacadeService.getProcessResultForCorrelation fw context correlationId'
                                                             processModelId'
                 = if Nat.eqb (List.length instances) 0
                   then throw NotFoundError
                              ("No process results for correlation with id '"
                               ++ correlationId' ++ "' found.")
                   else Returned
                          (map FacadeService.toCorrelationResult
                               (filter (FacadeService.isResultOfCorrelation
                                          (getEndEvents processModel) processModelId')
                                       instances))).
  { unfold FacadeService.getProcessResultForCorrelation,
      FacadeService._createExecutionContextFacadeFromConsumerContext.
    cbn [bind]. rewrite Hfacade. cbn [bind]. fold instances.
    destruct (Nat.eqb (List.length instances) 0); [reflexivity|].
    now rewrite Results.listing_as_map. }
  split; [|split].
  - intros error. rewrite Hrun. destruct instances as [|i rest]; cbn [List.length Nat.eqb].
    + split; [intros [= <-]; auto | intros [_ ->]; reflexivity].
    + split; [discriminate | intros [H _]; discriminate H].
  - rewrite Hrun. destruct instances as [|i rest] eqn:Hinst; cbn [List.length Nat.eqb].
    + split; [discriminate | intros [H _]; now elim H].
    + rewrite <- Hnone. split.
      * intros [= H]. split; [discriminate|]. now apply map_eq_nil in H.
      * intros [_ ->]. reflexivity.
  - intros Hnothing. unfold getProcessResultForCorrelation.
    rewrite Hmodel. cbn [bind].
    rewrite (proj2 (Hnone _ _ _) Hnothing). reflexivity.
Qed.

Lemma X19_witness :
  FacadeService.getProcessResultForCorrelation facadeWorld bobContext "corr_none"
                                               "main_model"
  = Thrown (mkError NotFoundError
                    "No process results for correlation with id 'corr_none' found.")
  /\ getProcessResultForCorrelation serviceWorld bobContext "corr_none" "main_model"
     = Returned (JsObject []).
Proof.
  pose proof (correlation_without_results
                facadeWorld serviceWorld bobContext "corr_none" "main_model" mainModel
                eq_refl eq_refl) as (Hthrown & _ & Hempty).
  split.
  - apply Hthrown. split; reflexivity.
  - apply Hempty. intros i [].
Defined.

End ResultFacts.

(** ** The service: process models and the start of a process instance *)

Module ServiceModelFacts.

Import ServiceSamples PersistenceService ServiceModels.

Lemma unbound_conversion_fails (stored : list Process) :
  stored <> [] ->
  arrayMap (_convertToConsumerApiProcessModel UndefinedReceiver) stored
  = throw TypeError "Cannot read property 'processModelFacadeFactory' of undefined".
Proof. destruct stored as [|p rest]; [intros H; now elim H | reflexivity]. Qed.

Lemma events_of_kind (keep : FlowNode -> bool) (processModel : Process) (e : Event) :
  In e (map _convertToConsumerApiEvent (filter keep (flowNodes processModel)))
  <-> exists n,
      In n (flowNodes processModel) /\ keep n = true
      /\ e = mkEvent (node_id n) (node_id n).
Proof.
  rewrite in_map_iff. split.
  - intros (n & <- & Hn). apply filter_In in Hn. exists n. tauto.
  - intros (n & Hn & Hkeep & ->). exists n. split; [reflexivity|].
    apply filter_In. tauto.
Qed.

(** X20: the listing of the process models hands its converter to
    [map] without the service as receiver, so the converter fails on the
    first process model with a [TypeError]: the listing succeeds only on an
    empty store, with the empty list.  The lookup of one process model calls
    the converter on the service and returns, for every process model the
    store has, its id with its start events and its end events, each under
    the id of its flow node as key and as id. *)
Theorem listing_the_process_models_fails_on_a_filled_store :
  forall (w : World) (stored : list Process) (context : ConsumerContext),
    (forall list, getProcessModels stored context = Returned list ->
                  stored = [] /\ list = mkProcessModelList [])
    /\ (stored <> [] ->
        exists msg, getProcessModels stored context = Thrown (mkError TypeError msg))
    /\ (forall processModelKey processModel,
           getProcessModelById w processModelKey = Returned processModel ->
           exists consumerApiProcessModel,
             getProcessModelByKey w context processModelKey
             = Returned consumerApiProcessModel
             /\ model_key consumerApiProcessModel = process_id processModel
             /\ (forall e,
                    In e (startEvents consumerApiProcessModel) <->
                    exists n, In n (flowNodes processModel)
                              /\ node_kind n = StartEventNode
                              /\ e = mkEvent (node_id n) (node_id n))
             /\ (forall e,
                    In e (endEvents consumerApiProcessModel) <->
                    exists n, In n (flowNodes processModel)
                              /\ node_kind n = EndEventNode
                              /\ e = mkEvent (node_id n) (node_id n))).
Proof.
  intros w stored context. split; [|split].
  - intros list Hlist. destruct stored as [|p rest].
    + injection Hlist as <-. split; reflexivity.
    + unfold getProcessModels in Hlist.
      rewrite unbound_conversion_fails in Hlist; [discriminate Hlist | discriminate].
  - intros Hsome. eexists. unfold getProcessModels.
    rewrite (unbound_conversion_fails stored Hsome). reflexivity.
  - intros processModelKey processModel Hmodel. eexists.
    split; [|split; [|split]].
    + unfold getProcessModelByKey. rewrite Hmodel. reflexivity.
    + reflexivity.
    + intros e. cbn [startEvents]. unfold getStartEvents. rewrite events_of_kind.
      split; intros (n & Hn & Hkind & ->); exists n; repeat split; auto.
      * destruct (node_kind n); try discriminate Hkind; reflexivity.
      * now rewrite Hkind.
    + intros e. cbn [endEvents]. unfold getEndEvents. rewrite events_of_kind.
      split; intros (n & Hn & Hkind & ->); exists n; repeat split; auto.
      * destruct (node_kind n); try discriminate Hkind; reflexivity.
      * now rewrite Hkind.
Qed.

Lemma X20_witness :
  exists msg,
    getProcessModels [mainModel] bobContext = Thrown (mkError TypeError msg).
Proof.
  apply (proj1 (proj2 (listing_the_process_models_fails_on_a_filled_store
                         serviceWorld [mainModel] bobContext))).
  discriminate.
Defined.

(** X21: a start of a process instance through the service is rejected
    with a [BadRequestError] before anything is looked up when the callback
    type is no member of the enum, or asks for an end event without naming
    one.  A start that is answered has made exactly one call on the execute
    process service, in the correlation of the answer, which is the
    correlation id of the request or, without one, the generated
    identifier; the callback type selects the call.  A start that fails
    makes no call, and the start event id has no influence at all. *)
Theorem start_makes_one_call_in_the_answered_correlation :
  forall (w : World) (StartCallbackType : list Z)
         (CallbackOnProcessInstanceCreated CallbackOnEndEventReached : Z)
         (uuid_v4 : string) (numberToString : Z -> string)
         (executeProcessService : list ExecuteProcessCall)
         (context : ConsumerContext) (processModelId' startEventId : string)
         (payload' : ProcessStartRequestPayload) (startCallbackType : option Z)
         (endEventKey : option string),
    let run :=
      startProcessInstance w StartCallbackType CallbackOnProcessInstanceCreated
                           CallbackOnEndEventReached uuid_v4 numberToString
                           executeProcessService context processModelId' startEventId
                           payload' startCallbackType endEventKey in
    let callbackType :=
      match startCallbackType with
      | Some given => given
      | None => CallbackOnProcessInstanceCreated
      end in
    (~ In callbackType StartCallbackType
     \/ (callbackType = CallbackOnEndEventReached /\ isFalsy endEventKey = true) ->
     exists msg, run = (Thrown (mkError BadRequestError msg), executeProcessService))
    /\ (forall response,
           fst run = Returned response ->
           exists executionContext processModel call,
             _createExecutionContextFromConsumerContext w context
             = Returned executionContext
             /\ getProcessModelById w processModelId' = Returned processModel
             /\ In callbackType StartCallbackType
             /\ snd run = executeProcessService ++ [call]
             /\ correlationOf call = response_correlationId response
             /\ response_correlationId response
                = match request_correlationId payload' with
                  | Some given => if String.eqb given "" then uuid_v4 else given
                  | None => uuid_v4
                  end
             /\ ((callbackType = CallbackOnProcessInstanceCreated
                  /\ call = Start executionContext processModel
                                  (response_correlationId response)
                                  (inputValues payload'))
                 \/ (callbackType <> CallbackOnProcessInstanceCreated
                     /\ callbackType = CallbackOnEndEventReached
                     /\ exists endEventKey',
                         endEventKey = Some endEventKey' /\ endEventKey' <> ""
                         /\ call = StartAndAwaitSpecificEndEvent
                                     executionContext processModel
                                     (response_correlationId response) endEventKey'
                                     (inputValues payload'))
                 \/ (callbackType <> CallbackOnProcessInstanceCreated
                     /\ callbackType <> CallbackOnEndEventReached
                     /\ call = StartAndAwaitEndEvent
                                 executionContext processModel
                                 (response_correlationId response)
                                 (inputValues payload'))))
    /\ ((forall response, fst run <> Returned response) ->
        snd run = executeProcessService)
    /\ (forall otherStartEventId,
           startProcessInstance w StartCallbackType CallbackOnProcessInstanceCreated
                                CallbackOnEndEventReached uuid_v4 numberToString
                                executeProcessService context processModelId'
                                otherStartEventId payload' startCallbackType
                                endEventKey
           = run).
Proof.
  intros w values created reached uuid numberToString calls context processModelId'
         startEventId payload' startCallbackType endEventKey run callbackType.
  assert (Hmember : existsb (Z.eqb callbackType) values = true <-> In callbackType values).
  { rewrite existsb_exists. split.
    - intros (x & Hx & Heq). apply Z.eqb_eq in Heq. now subst x.
    - intros Hin. exists callbackType. split; [exact Hin | apply Z.eqb_refl]. }
  unfold run, startProcessInstance. fold callbackType.
  split; [|split; [|split]].
  - intros [Hnot | [Hreached Hfalsy]].
    + destruct (existsb (Z.eqb callbackType) values) eqn:Hex.
      * elim Hnot. now apply Hmember.
      * eexists. reflexivity.
    + destruct (existsb (Z.eqb callbackType) values); cbn [negb];
        [|eexists; reflexivity].
      rewrite Hreached, Z.eqb_refl, Hfalsy. eexists. reflexivity.
  - intros response.
    destruct (existsb (Z.eqb callbackType) values) eqn:Hex; cbn [negb];
      [|discriminate].
    destruct (Z.eqb callbackType reached && isFalsy endEventKey) eqn:Hguard;
      [discriminate|].
    destruct (_createExecutionContextFromConsumerContext w context)
      as [executionContext|e|]; try discriminate.
    destruct (getProcessModelById w processModelId') as [processModel|e|];
      try discriminate.
    cbn [fst snd]. intros [= <-]. cbn [response_correlationId].
    exists executionContext, processModel. eexists.
    split; [reflexivity|]. split; [reflexivity|]. split; [now apply Hmember|].
    split; [reflexivity|].
    assert (Hcorr :
              (if isFalsy (request_correlationId payload') then uuid
               else match request_correlationId payload' with
                    | Some given => given
                    | None => uuid
                    end)
              = match request_correlationId payload' with
                | Some given => if String.eqb given "" then uuid else given
                | None => uuid
                end).
    { destruct (request_correlationId payload') as [given|]; cbn [isFalsy];
        reflexivity. }
    split; [|split; [exact Hcorr|]].
    + destruct (Z.eqb callbackType created); [reflexivity|].
      destruct endEventKey as [k|]; [|reflexivity].
      destruct (Z.eqb callbackType reached && negb (isFalsy (Some k))); reflexivity.
    + destruct (Z.eqb_spec callbackType created) as [Hc|Hc]; [left; now split|].
      right. destruct (Z.eqb_spec callbackType reached) as [Hr|Hr].
      * left. split; [exact Hc|]. split; [exact Hr|].
        cbn [andb] in Hguard. destruct endEventKey as [k|]; [|discriminate Hguard].
        exists k. split; [reflexivity|]. cbn [isFalsy] in Hguard |- *.
        rewrite Hguard. split; [|reflexivity].
        intros ->. discriminate Hguard.
      * right. split; [exact Hc|]. split; [exact Hr|].
        destruct endEventKey as [k|]; reflexivity.
  - intros Hfail.
    destruct (negb (existsb (Z.eqb callbackType) values)); [reflexivity|].
    destruct (Z.eqb callbackType reached && isFalsy endEventKey); [reflexivity|].
    destruct (_createExecutionContextFromConsumerContext w context)
      as [executionContext|e|]; try reflexivity.
    destruct (getProcessModelById w processModelId') as [processModel|e|] eqn:Hmodel;
      try reflexivity.
    exfalso. apply (Hfail (mkStartResponse
                             (if isFalsy (request_correlationId payload') then uuid
                              else match request_correlationId payload' with
                                   | Some given => given
                                   | None => uuid
                                   end))).
    unfold run, startProcessInstance. fold callbackType.
    reflexivity.
  - reflexivity.
Qed.

(** A start without correlation id and callback type: one plain [Start]
    in the generated correlation. *)
Lemma X21_witness :
  exists executionContext processModel call,
    _createExecutionContextFromConsumerContext serviceWorld bobContext
    = Returned executionContext
    /\ getProcessModelById serviceWorld "main_model" = Returned processModel
    /\ In 1%Z [1%Z; 2%Z]
    /\ snd (startProcessInstance serviceWorld [1%Z; 2%Z] 1%Z 2%Z "generated"
                                 StartSamples.decimalText []
                                 bobContext "main_model" "Start_1"
                                 (mkStartRequest None (JsObject [])) None None)
       = [] ++ [call]
    /\ correlationOf call = "generated"
    /\ "generated" = "generated"
    /\ ((1%Z = 1%Z
         /\ call = Start executionContext processModel "generated" (JsObject []))
        \/ (1%Z <> 1%Z
            /\ 1%Z = 2%Z
            /\ exists endEventKey',
                None = Some endEventKey' /\ endEventKey' <> ""
                /\ call = StartAndAwaitSpecificEndEvent
                            executionContext processModel "generated" endEventKey'
                            (JsObject []))
        \/ (1%Z <> 1%Z
            /\ 1%Z <> 2%Z
            /\ call = StartAndAwaitEndEvent executionContext processModel "generated"
                                            (JsObject []))).
Proof.
  apply (proj1 (proj2 (start_makes_one_call_in_the_answered_correlation
                         serviceWorld [1%Z; 2%Z] 1%Z 2%Z "generated"
                         StartSamples.decimalText []
                         bobContext "main_model" "Start_1"
                         (mkStartRequest None (JsObject [])) None None))
               (mkStartResponse "generated")).
  reflexivity.
Defined.

End ServiceModelFacts.

(** ** The service over the facade: what may be started *)

Module StartFacts.

Import PersistenceService FacadeModels StartSamples.

Lemma hasFlowNode_spec processModel id' :
  hasFlowNode processModel (Some id') = true
  <-> exists n, In n (model_flowNodes processModel) /\ node_id n = id'.
Proof.
  unfold hasFlowNode. rewrite existsb_exists.
  split; intros (n & Hn & Hid); exists n; split; auto; now apply String.eqb_eq.
Qed.

Lemma member_spec (t : Z) (values : list Z) :
  existsb (Z.eqb t) values = true <-> In t values.
Proof.
  rewrite existsb_exists. split.
  - intros (x & Hx & Heq). apply Z.eqb_eq in Heq. now subst x.
  - intros Hin. exists t. split; [exact Hin | apply Z.eqb_refl].
Qed.

Lemma falsy_spec (s : option string) :
  ServiceModels.isFalsy s = false <-> exists given, s = Some given /\ given <> "".
Proof.
  destruct s as [given|]; cbn [ServiceModels.isFalsy].
  - destruct (String.eqb_spec given "") as [->|Hne].
    + split; [discriminate | intros (g & [= <-] & H); now elim H].
    + split; [eauto | reflexivity].
  - split; [discriminate | intros (g & H & _); discriminate H].
Qed.

(** X22: a start request passes the validation exactly if its callback
    type is a member of the enum, the process model is executable, the
    start event id is the id of some flow node of the process model, of
    whatever kind, and, for the callback on an end event, the end event id
    is given, not empty and the id of some flow node as well.  A rejection
    is a [BadRequestError] or a [NotFoundError]; a callback type outside
    the enum is rejected first, and the message for an end event that is
    not found quotes the start event id. *)
Theorem start_request_is_checked_against_flow_node_ids :
  forall (StartCallbackType : list Z) (CallbackOnEndEventReached : Z)
         (numberToString : Z -> string)
         (processModel : ProcessModel) (startEventId : string)
         (endEventId : option string) (startCallbackType : Z),
    let named id' :=
      exists n, In n (model_flowNodes processModel) /\ node_id n = id' in
    let validation :=
      _validateStartRequest StartCallbackType CallbackOnEndEventReached numberToString
                            processModel startEventId endEventId startCallbackType in
    (validation = Returned tt
     <-> In startCallbackType StartCallbackType
         /\ isExecutable processModel = true
         /\ named startEventId
         /\ (startCallbackType = CallbackOnEndEventReached ->
             exists given, endEventId = Some given /\ given <> "" /\ named given))
    /\ (forall error,
           validation = Thrown error ->
           kind error = BadRequestError \/ kind error = NotFoundError)
    /\ (~ In startCallbackType StartCallbackType ->
        validation
        = Thrown (mkError BadRequestError
                          (numberToString startCallbackType
                           ++ " is not a valid return option!")))
    /\ (In startCallbackType StartCallbackType ->
        isExecutable processModel = true ->
        named startEventId ->
        startCallbackType = CallbackOnEndEventReached ->
        forall given,
          endEventId = Some given -> given <> "" -> ~ named given ->
          validation
          = Thrown (mkError NotFoundError
                            ("EndEvent with ID '" ++ startEventId ++ "' not found!"))).
Proof.
  intros values reached numberToString processModel startEventId endEventId t named
         validation.
  unfold validation, _validateStartRequest.
  pose proof (member_spec t values) as Hmember.
  pose proof (hasFlowNode_spec processModel startEventId) as Hstart.
  pose proof (falsy_spec endEventId) as Hfalsy.
  fold (named startEventId) in Hstart.
  split; [|split; [|split]].
  - destruct (existsb (Z.eqb t) values); cbn [negb];
      [|split; [discriminate | intros (H & _); apply Hmember in H; discriminate H]].
    destruct (isExecutable processModel); cbn [negb];
      [|split; [discriminate | intros (_ & H & _); discriminate H]].
    destruct (hasFlowNode processModel (Some startEventId)); cbn [negb];
      [|split; [discriminate | intros (_ & _ & H & _); apply Hstart in H;
                                discriminate H]].
    destruct (Z.eqb_spec t reached) as [Ht|Ht].
    + destruct (ServiceModels.isFalsy endEventId) eqn:Hf.
      * split; [discriminate|]. intros (_ & _ & _ & H).
        destruct (H Ht) as (given & Hgiven & Hne & _).
        assert (true = false) as Hf' by (apply Hfalsy; eauto).
        discriminate Hf'.
      * destruct (proj1 Hfalsy eq_refl) as (given & -> & Hne).
        pose proof (hasFlowNode_spec processModel given) as Hend.
        destruct (hasFlowNode processModel (Some given)); cbn [negb].
        -- split; [|reflexivity]. intros _.
           split; [now apply Hmember|]. split; [reflexivity|].
           split; [now apply Hstart|]. intros _. exists given.
           split; [reflexivity|]. split; [exact Hne | now apply Hend].
        -- split; [discriminate|]. intros (_ & _ & _ & H).
           destruct (H Ht) as (g & [= <-] & _ & Hnamed).
           apply Hend in Hnamed. discriminate Hnamed.
    + split; [|reflexivity]. intros _.
      split; [now apply Hmember|]. split; [reflexivity|].
      split; [now apply Hstart|]. intros H. now elim Ht.
  - intros error.
    destruct (existsb (Z.eqb t) values); cbn [negb]; [|intros [= <-]; now left].
    destruct (isExecutable processModel); cbn [negb]; [|intros [= <-]; now left].
    destruct (hasFlowNode processModel (Some startEventId)); cbn [negb];
      [|intros [= <-]; now right].
    destruct (Z.eqb t reached); [|discriminate].
    destruct (ServiceModels.isFalsy endEventId); [intros [= <-]; now left|].
    destruct (hasFlowNode processModel endEventId); cbn [negb];
      [discriminate | intros [= <-]; now right].
  - intros Hnot. destruct (existsb (Z.eqb t) values); [|reflexivity].
    elim Hnot. now apply Hmember.
  - intros Hin Hexec Hnamed Ht given Hgiven Hne Hmissing.
    rewrite (proj2 Hmember Hin), Hexec, (proj2 Hstart Hnamed). cbn [negb].
    rewrite Ht, Z.eqb_refl.
    assert (ServiceModels.isFalsy endEventId = false) as -> by (apply Hfalsy; eauto).
    rewrite Hgiven.
    destruct (hasFlowNode processModel (Some given)) eqn:Hend; [|reflexivity].
    elim Hmissing. now apply hasFlowNode_spec.
Qed.

(** The id of a user task passes as a start event id; an end event that
    the process model does not have is reported under the start event id. *)
Lemma X22_witness :
  _validateStartRequest [1%Z; 2%Z] 2%Z decimalText orderModel "Task_Check" None 1%Z
  = Returned tt
  /\ _validateStartRequest [1%Z; 2%Z] 2%Z decimalText orderModel "Start_Order"
                           (Some "End_Missing") 2%Z
     = Thrown (mkError NotFoundError "EndEvent with ID 'Start_Order' not found!").
Proof.
  split.
  - apply (proj2 (proj1 (start_request_is_checked_against_flow_node_ids
                           [1%Z; 2%Z] 2%Z decimalText orderModel "Task_Check" None
                           1%Z))).
    split; [now left|]. split; [reflexivity|]. split.
    + exists (mkFlowNode "Task_Check" (UserTaskNode [])). split; [|reflexivity].
      right. now left.
    + intros H. discriminate H.
  - apply (proj2 (proj2 (proj2 (start_request_is_checked_against_flow_node_ids
                                  [1%Z; 2%Z] 2%Z decimalText orderModel "Start_Order"
                                  (Some "End_Missing") 2%Z)))
             (or_intror (or_introl eq_refl)) eq_refl
             (ex_intro _ (mkFlowNode "Start_Order" StartEventNode)
                       (conj (or_introl eq_refl) eq_refl))
             eq_refl "End_Missing" eq_refl).
    + discriminate.
    + intros (n & [<-|[<-|[<-|[]]]] & Hid); discriminate Hid.
Defined.

Lemma offered_events (keep : FlowNode -> bool) (nodes : list FlowNode) (ev : Event) :
  In ev (map consumerApiEventConverter (filter keep nodes)) ->
  exists n, In n nodes /\ node_id n = event_id ev.
Proof.
  intros Hin. apply in_map_iff in Hin. destruct Hin as (n & <- & Hn).
  apply filter_In in Hn. exists n. split; [tauto | reflexivity].
Qed.

(** X23: every start event that the lookup of a process model offers
    can be started as it is: a start request for it with the default
    callback type passes the validation and goes to the execution adapter
    unchanged.  A process model that is not executable is offered without
    any event, and every start of it is rejected with a [BadRequestError];
    a request that fails the validation never reaches the adapter. *)
Theorem offered_start_events_can_be_started :
  forall (processModelByIdOf : FacadeService.IExecutionContextFacade -> string
                               -> Outcome ProcessModel)
         (StartCallbackType : list Z)
         (CallbackOnProcessInstanceCreated CallbackOnEndEventReached : Z)
         (numberToString : Z -> string)
         (adapterStartProcessInstance :
            FacadeService.IExecutionContextFacade -> string -> string
            -> ServiceModels.ProcessStartRequestPayload -> Z -> option string
            -> Outcome ServiceModels.ProcessStartResponsePayload)
         (context : ConsumerContext) (processModelKey : string)
         (processModel : ProcessModel)
         (payload' : ServiceModels.ProcessStartRequestPayload),
    let facade := FacadeService.mkFacade (identity context) in
    let start :=
      startProcessInstance processModelByIdOf StartCallbackType
                           CallbackOnProcessInstanceCreated CallbackOnEndEventReached
                           numberToString adapterStartProcessInstance context
                           processModelKey in
    processModelByIdOf facade processModelKey = Returned processModel ->
    In CallbackOnProcessInstanceCreated StartCallbackType ->
    CallbackOnProcessInstanceCreated <> CallbackOnEndEventReached ->
    exists consumerApiProcessModel,
      getProcessModelById processModelByIdOf context processModelKey
      = Returned consumerApiProcessModel
      /\ consumer_id consumerApiProcessModel = model_id processModel
      /\ (forall ev,
             In ev (startEvents consumerApiProcessModel) ->
             start (event_id ev) payload' None None
             = adapterStartProcessInstance facade processModelKey (event_id ev) payload'
                                           CallbackOnProcessInstanceCreated None)
      /\ (isExecutable processModel = false ->
          startEvents consumerApiProcessModel = []
          /\ endEvents consumerApiProcessModel = []
          /\ forall startEventId startCallbackType endEventId,
               In startCallbackType StartCallbackType ->
               start startEventId payload' (Some startCallbackType) endEventId
               = Thrown (mkError BadRequestError "The process model is not executable!"))
      /\ (forall startEventId startCallbackType endEventId error,
             _validateStartRequest StartCallbackType CallbackOnEndEventReached
                                   numberToString processModel startEventId endEventId
                                   startCallbackType
             = Thrown error ->
             start startEventId payload' (Some startCallbackType) endEventId
             = Thrown error).
Proof.
  intros byId values created reached numberToString adapter context processModelKey
         processModel payload' facade start Hmodel Hcreated Hdistinct.
  exists (convertProcessModel processModel).
  split; [|split; [reflexivity|split; [|split]]].
  - unfold getProcessModelById,
      FacadeService._createExecutionContextFacadeFromConsumerContext.
    cbn [bind]. fold facade. rewrite Hmodel. reflexivity.
  - intros ev Hev. unfold start, startProcessInstance,
      FacadeService._createExecutionContextFacadeFromConsumerContext.
    cbn [bind]. fold facade. rewrite Hmodel. cbn [bind].
    assert (Hexec : isExecutable processModel = true).
    { unfold convertProcessModel, getIsExecutable in Hev. cbn [startEvents] in Hev.
      destruct (isExecutable processModel); [reflexivity | destruct Hev]. }
    assert (Hnamed : hasFlowNode processModel (Some (event_id ev)) = true).
    { apply hasFlowNode_spec.
      unfold convertProcessModel, getIsExecutable in Hev. cbn [startEvents] in Hev.
      rewrite Hexec in Hev. now apply offered_events in Hev. }
    unfold _validateStartRequest.
    rewrite (proj2 (member_spec created values) Hcreated), Hexec, Hnamed. cbn [negb].
    destruct (Z.eqb_spec created reached) as [E|_]; [now elim Hdistinct|].
    reflexivity.
  - intros Hexec. unfold convertProcessModel, getIsExecutable.
    rewrite Hexec. split; [reflexivity|]. split; [reflexivity|].
    intros startEventId t endEventId Ht.
    unfold start, startProcessInstance,
      FacadeService._createExecutionContextFacadeFromConsumerContext.
    cbn [bind]. fold facade. rewrite Hmodel. cbn [bind].
    unfold _validateStartRequest.
    rewrite (proj2 (member_spec t values) Ht), Hexec. reflexivity.
  - intros startEventId t endEventId error Hrejected.
    unfold start, startProcessInstance,
      FacadeService._createExecutionContextFacadeFromConsumerContext.
    cbn [bind]. fold facade. rewrite Hmodel. cbn [bind].
    rewrite Hrejected. reflexivity.
Qed.

Lemma X23_witness :
  exists consumerApiProcessModel,
    getProcessModelById facadeModelById ServiceSamples.bobContext "order"
    = Returned consumerApiProcessModel
    /\ consumer_id consumerApiProcessModel = "order"
    /\ (forall ev,
           In ev (startEvents consumerApiProcessModel) ->
           startProcessInstance facadeModelById [1%Z; 2%Z] 1%Z 2%Z decimalText echoAdapter
                                ServiceSamples.bobContext "order" (event_id ev)
                                plainRequest None None
           = echoAdapter (FacadeService.mkFacade "bob") "order" (event_id ev)
                         plainRequest 1%Z None)
    /\ (isExecutable orderModel = false ->
        startEvents consumerApiProcessModel = []
        /\ endEvents consumerApiProcessModel = []
        /\ forall startEventId startCallbackType endEventId,
             In startCallbackType [1%Z; 2%Z] ->
             startProcessInstance facadeModelById [1%Z; 2%Z] 1%Z 2%Z decimalText echoAdapter
                                  ServiceSamples.bobContext "order" startEventId
                                  plainRequest (Some startCallbackType) endEventId
             = Thrown (mkError BadRequestError "The process model is not executable!"))
    /\ (forall startEventId startCallbackType endEventId error,
           _validateStartRequest [1%Z; 2%Z] 2%Z decimalText orderModel startEventId
                                 endEventId startCallbackType
           = Thrown error ->
           startProcessInstance facadeModelById [1%Z; 2%Z] 1%Z 2%Z decimalText echoAdapter
                                ServiceSamples.bobContext "order" startEventId
                                plainRequest (Some startCallbackType) endEventId
           = Thrown error).
Proof.
  apply (offered_start_events_can_be_started
           facadeModelById [1%Z; 2%Z] 1%Z 2%Z decimalText echoAdapter
           ServiceSamples.bobContext
           "order" orderModel plainRequest).
  - reflexivity.
  - now left.
  - discriminate.
Defined.

End StartFacts.

(** ** Expressions in the texts of a user task *)

Module ExpressionFacts.

Import Expressions StartSamples.

Lemma prefix_of_append (body rest : string) :
  String.substring 0 (String.length body) (body ++ rest) = body.
Proof.
  induction body as [|c body IH]; cbn.
  - destruct rest; reflexivity.
  - now rewrite IH.
Qed.

Lemma length_of_append (a b : string) :
  String.length (a ++ b) = String.length a + String.length b.
Proof. induction a as [|c a IH]; cbn; [reflexivity | now rewrite IH]. Qed.

Lemma body_between_braces (body : string) :
  substr ("${" ++ body ++ "}") 2 (String.length ("${" ++ body ++ "}") - 2 - 1) = body.
Proof.
  unfold substr. cbn [append String.length]. rewrite length_of_append.
  cbn [String.length String.substring].
  replace (S (S (String.length body + 1)) - 2 - 1) with (String.length body) by lia.
  apply prefix_of_append.
Qed.

(** X24: an expression [${body}] is evaluated as the function body
    [return body] on the old token format, and an undefined value of it
    becomes [null]; a text that does not begin with [$] is handed back
    unchanged, without any evaluation, and so is every falsy value.  Only
    the first character decides: whatever follows a leading [$] loses its
    first and its last character and is evaluated.  The only value that
    comes back undefined is an undefined expression. *)
Theorem expression_is_the_text_between_the_braces :
  forall (callFunction : string -> JsValue -> Outcome JsValue)
         (oldTokenFormat : JsValue),
    (forall body,
        _evaluateExpressionWithOldToken callFunction (JsString ("${" ++ body ++ "}"))
                                        oldTokenFormat
        = (result <- callFunction ("return " ++ body)%string oldTokenFormat ;;
           Returned (if isUndefined result then JsNull else result)))
    /\ (forall text,
           charAt0 text <> "$" ->
           _evaluateExpressionWithOldToken callFunction (JsString text) oldTokenFormat
           = Returned (JsString text))
    /\ (forall expression,
           isFalsyValue expression = true ->
           _evaluateExpressionWithOldToken callFunction expression oldTokenFormat
           = Returned expression)
    /\ (forall rest,
           _evaluateExpressionWithOldToken callFunction (JsString (String "$" rest))
                                           oldTokenFormat
           = (result <- callFunction
                          ("return "
                           ++ String.substring 1 (String.length rest - 2) rest)%string
                          oldTokenFormat ;;
              Returned (if isUndefined result then JsNull else result)))
    /\ (forall expression value,
           _evaluateExpressionWithOldToken callFunction expression oldTokenFormat
           = Returned value ->
           value = JsUndefined ->
           expression = JsUndefined).
Proof.
  intros callFunction oldTokenFormat. split; [|split; [|split; [|split]]].
  - intros body. unfold _evaluateExpressionWithOldToken.
    cbv zeta. rewrite body_between_braces. reflexivity.
  - intros text Hplain. unfold _evaluateExpressionWithOldToken.
    destruct text as [|c text]; [reflexivity|].
    cbn [isFalsyValue String.eqb]. cbv zeta.
    destruct (String.eqb_spec (charAt0 (String c text)) "$") as [E|_];
      [now elim Hplain | reflexivity].
  - intros expression Hfalsy. unfold _evaluateExpressionWithOldToken.
    now rewrite Hfalsy.
  - intros rest. unfold _evaluateExpressionWithOldToken, substr.
    cbn [isFalsyValue charAt0 String.length]. cbv zeta.
    replace (S (String.length rest) - 2 - 1) with (String.length rest - 2) by lia.
    reflexivity.
  - intros expression value Hvalue ->.
    unfold _evaluateExpressionWithOldToken in Hvalue.
    destruct (isFalsyValue expression) eqn:Hfalsy; [congruence|].
    destruct expression as [| |b|n|text|items|props]; try discriminate Hvalue.
    cbv zeta in Hvalue.
    destruct (negb (String.eqb (charAt0 text) "$")); [discriminate Hvalue|].
    destruct (callFunction _ oldTokenFormat) as [r|e|]; cbn [bind] in Hvalue;
      try discriminate Hvalue.
    destruct r; discriminate Hvalue.
Qed.

Lemma X24_witness :
  _evaluateExpressionWithOldToken tokenName (JsString "Name of the customer")
                                  (JsObject [("name", JsString "Bob")])
  = Returned (JsString "Name of the customer").
Proof.
  apply (proj1 (proj2 (expression_is_the_text_between_the_braces
                         tokenName (JsObject [("name", JsString "Bob")])))).
  discriminate.
Defined.

End ExpressionFacts.

(** ** The adapter: what a finish call publishes *)

Module AdapterFinishFacts.

Import Views Samples Adapter.

Lemma adapter_validation (finishedTask : JsValue) :
  (forall result,
      _getUserTaskResultFromUserTaskConfig finishedTask = Returned result
      <-> getProperty finishedTask "form_fields" = Returned result
          /\ exists prop props, result = JsObject (prop :: props))
  /\ (forall error,
         _getUserTaskResultFromUserTaskConfig finishedTask = Thrown error ->
         (kind error = BadRequestError
          /\ exists fields,
              carries finishedTask "form_fields" fields /\ malformedFormFields fields)
         \/ (kind error = TypeError
             /\ (finishedTask = JsNull
                 \/ getProperty finishedTask "form_fields" = Returned JsNull)))
  /\ _getUserTaskResultFromUserTaskConfig finishedTask <> OutOfFuel.
Proof.
  apply (PayloadFacts.validation_outcomes
           "form_fields" "The UserTasks form_fields is not an object."
           "The UserTasks form_fields are empty."
           _getUserTaskResultFromUserTaskConfig (fun _ => eq_refl)).
Qed.

(** X25: a finish call of the adapter that hands out its promise has
    found the task by its key among the visible tasks of the process model
    in the correlation and has seen form fields that are an object with at
    least one property; it then subscribes to the node channel of the id
    of that task and publishes there, as token, the payload as it was
    submitted, not the form fields taken out of it.  A payload with
    malformed form fields never gets that far and leaves the event
    aggregator as it was. *)
Theorem adapter_finish_publishes_the_submitted_payload :
  forall (w : World) (fuel : nat) (eventAggregator : EventAggregator)
         (context : ConsumerContext) (processModelKey correlationId' userTaskId : string)
         (userTaskResult : JsValue),
    let run :=
      finishUserTask w fuel eventAggregator context processModelKey correlationId'
                     userTaskId userTaskResult in
    (fst run = Returned tt ->
     exists executionContext taskList userTask fields prop props,
       _createExecutionContextFromConsumerContext w context = Returned executionContext
       /\ getUserTasksForProcessModelInCorrelation w fuel context processModelKey
                                                   correlationId'
          = Returned taskList
       /\ find_first (fun task => String.eqb (key task) userTaskId) (user_tasks taskList)
          = Some userTask
       /\ getProperty userTaskResult "form_fields" = Returned fields
       /\ fields = JsObject (prop :: props)
       /\ snd run
          = eventAggregator
              ++ [Subscribe ("/processengine/node/" ++ id userTask);
                  Publish ("/processengine/node/" ++ id userTask)
                          (JsObject
                             [("data", JsObject [("action", JsString "proceed");
                                                 ("token", userTaskResult)]);
                              ("metadata",
                               JsObject [("context",
                                          JsString (context_id executionContext))])])])
    /\ (forall fields,
           carries userTaskResult "form_fields" fields ->
           malformedFormFields fields ->
           exists outcome,
             (forall u, outcome <> Returned u) /\ run = (outcome, eventAggregator)).
Proof.
  intros w fuel eventAggregator context processModelKey correlationId' userTaskId
         userTaskResult run.
  unfold run, finishUserTask.
  destruct (finishUserTaskChecks w fuel context processModelKey correlationId'
              userTaskId userTaskResult) as [[executionContext userTask]|error|]
    eqn:Hchecks.
  - unfold finishUserTaskChecks in Hchecks.
    destruct (_createExecutionContextFromConsumerContext w context) as [ec|e|] eqn:Hctx;
      cbn [bind] in Hchecks; try discriminate Hchecks.
    destruct (getUserTasksForProcessModelInCorrelation w fuel context processModelKey
                                                       correlationId')
      as [taskList|e|] eqn:Hlist; cbn [bind] in Hchecks; try discriminate Hchecks.
    destruct (find_first _ (user_tasks taskList)) as [task|] eqn:Hfind;
      [|discriminate Hchecks].
    destruct (_getUserTaskResultFromUserTaskConfig userTaskResult) as [fields|e|]
      eqn:Hvalid; cbn [bind] in Hchecks; try discriminate Hchecks.
    injection Hchecks as <- <-.
    destruct (proj1 (proj1 (adapter_validation userTaskResult) fields) Hvalid)
      as (Hget & prop & props & Hshape).
    split.
    + intros _. exists ec, taskList, task, fields, prop, props.
      split; [reflexivity|]. split; [reflexivity|]. split; [exact Hfind|].
      split; [exact Hget|]. split; [exact Hshape|].
      cbn [snd]. unfold publish, subscribe, nodeChannel, proceedMessage,
                 MessageAction_proceed.
      now rewrite <- app_assoc.
    + intros bad Hcarries Hbad. exfalso.
      destruct (Payload.adapter_rejects_malformed userTaskResult bad Hcarries Hbad)
        as (msg & Hrejected).
      rewrite Hrejected in Hvalid. discriminate Hvalid.
  - split; [discriminate|]. intros _ _ _. exists (Thrown error).
    split; [discriminate | reflexivity].
  - split; [discriminate|]. intros _ _ _. exists OutOfFuel.
    split; [discriminate | reflexivity].
Qed.

Lemma X25_witness :
  exists executionContext taskList userTask fields prop props,
    _createExecutionContextFromConsumerContext sampleWorld aliceContext
    = Returned executionContext
    /\ getUserTasksForProcessModelInCorrelation sampleWorld 6 aliceContext "main_model"
                                                "corr_1"
       = Returned taskList
    /\ find_first (fun task => String.eqb (key task) "Task_N") (user_tasks taskList)
       = Some userTask
    /\ getProperty (JsObject [("form_fields", JsObject [("name", JsString "Alice")])])
                   "form_fields"
       = Returned fields
    /\ fields = JsObject (prop :: props)
    /\ snd (finishUserTask sampleWorld 6 [] aliceContext "main_model" "corr_1" "Task_N"
                           (JsObject [("form_fields",
                                       JsObject [("name", JsString "Alice")])]))
       = [] ++ [Subscribe ("/processengine/node/" ++ id userTask);
                Publish ("/processengine/node/" ++ id userTask)
                        (JsObject
                           [("data",
                             JsObject
                               [("action", JsString "proceed");
                                ("token",
                                 JsObject [("form_fields",
                                            JsObject [("name", JsString "Alice")])])]);
                            ("metadata",
                             JsObject [("context",
                                        JsString (context_id executionContext))])])].
Proof.
  apply (proj1 (adapter_finish_publishes_the_submitted_payload
                  sampleWorld 6 [] aliceContext "main_model" "corr_1" "Task_N"
                  (JsObject [("form_fields", JsObject [("name", JsString "Alice")])]))).
  reflexivity.
Defined.

End AdapterFinishFacts.
